(** * DmpBbo: the viapoint task and the DMP with gain schedules

    A shallow embedding of [src/dmp_bbo/tasks/TaskViapoint.cpp] and of
    [DmpWithGainSchedules.cpp], and the properties their specification states
    about them.

    Conventions of the embedding.
    - A C++ [double] is a binary64 float of the kernel ([PrimFloat.float]); the
      operators [+ - * / sqrt == <] are the IEEE ones, and [pow(2)] is the
      product of a number with itself.
    - An Eigen vector is the list of its coefficients; an Eigen matrix is its
      declared column count and the list of its rows.  A reduction over a
      vector ([sum], [minCoeff]) visits the coefficients in index order; a
      reduction over a whole [MatrixXd] visits them in storage order, which
      is column by column ([Eigen.coefficients]).
    - [assert] and Eigen's own run-time assertions stop the program: the
      call does not return.  A member call through [NULL] or through a
      pointer to no live object, and [std::vector::operator[]] past the end,
      are checked by no one: C++ leaves the behaviour of the program
      undefined, and a run may crash or go on with whatever the memory
      holds.  Both kinds are [Aborts] outcomes of the [outcome] monad, which
      for the second kind ([undefined_behaviour]) says that the code defines
      no result and that the model follows the run no further.
    - Function approximators live in a heap and are reached through pointers,
      so that sharing between two banks can be expressed.
    - Classes of the repository that the two files only use (the base [Dmp],
      [FunctionApproximator], [Trajectory]) are interfaces; [loadMatrix] and
      the constant [TIME_AT_MINIMUM_DIST] are not among the sources either. *)

From Stdlib Require Import Floats ZArith Lia.
From stdpp Require Import base option list gmap strings pretty.

#[local] Set Warnings "-inexact-float".

(** ** Outcomes of a call *)

Inductive fault : Type :=
| AssertionFailed    (* assert(...) of <cassert> *)
| EigenAssertion     (* an eigen_assert on a shape or an index *)
| NullDereference    (* a member call through a NULL pointer *)
| InvalidPointer     (* a member call through a pointer to no live object *)
| OutOfBounds.       (* std::vector::operator[] at an index >= size() *)

(** The faults that nothing checks.  After an assertion the program is
    stopped; after one of these C++ defines no behaviour at all: the run may
    crash, or read whatever the memory holds and return something. *)
Definition undefined_behaviour (f : fault) : bool :=
  match f with
  | AssertionFailed | EigenAssertion => false
  | NullDereference | InvalidPointer | OutOfBounds => true
  end.

(** What the code makes of a call: the result it returns, or the fault
    because of which it defines none.  [Aborts f] with an assertion says that
    the call does not return; with a fault of [undefined_behaviour] it says
    that the run has left what the code defines, and nothing more. *)
Inductive outcome (A : Type) : Type :=
| Returns (a : A)
| Aborts (f : fault).
Arguments Returns {A} a.
Arguments Aborts {A} f.

#[global] Instance outcome_ret : MRet outcome := fun A a => Returns a.
#[global] Instance outcome_bind : MBind outcome :=
  fun A B k m => match m with Returns a => k a | Aborts f => Aborts f end.

Definition c_assert (b : bool) : outcome unit :=
  if b then Returns tt else Aborts AssertionFailed.

Definition eigen_assert (b : bool) : outcome unit :=
  if b then Returns tt else Aborts EigenAssertion.

Definition returns {A} (o : outcome A) : bool :=
  match o with Returns _ => true | Aborts _ => false end.

(** A call that may change a state of type [S] before it returns or aborts;
    what it changed before an abort stays changed. *)
Definition stateful (S A : Type) : Type := S -> outcome A * S.

#[global] Instance stateful_ret {S} : MRet (stateful S) := fun A a s => (Returns a, s).
#[global] Instance stateful_bind {S} : MBind (stateful S) :=
  fun A B k m s =>
    match m s with
    | (Returns a, s') => k a s'
    | (Aborts f, s') => (Aborts f, s')
    end.

Definition get {S} : stateful S S := fun s => (Returns s, s).
Definition modify {S} (f : S -> S) : stateful S unit := fun s => (Returns tt, f s).
Definition lift {S A} (o : outcome A) : stateful S A := fun s => (o, s).

(** ** The part of Eigen the two files use *)

Module Eigen.

Abbreviation VectorXd := (list float).

Record MatrixXd : Type := Matrix { cols : nat; row_data : list VectorXd }.

Definition rows (m : MatrixXd) : nat := length (row_data m).

(** Conversion of a C++ [int] to [double]. *)
Definition of_int (n : nat) : float := PrimFloat.of_uint63 (Uint63.of_Z (Z.of_nat n)).

(** [sum()]: zero on an empty expression, otherwise the coefficients are
    added to the first one. *)
Definition sum (v : list float) : float :=
  match v with
  | [] => 0%float
  | x :: r => fold_left PrimFloat.add r x
  end.

(** [array().pow(2)] on one coefficient. *)
Definition pow2 (x : float) : float := (x * x)%float.

Definition squaredNorm (v : VectorXd) : float := sum (map pow2 v).

(** [std::min]. *)
Definition fmin (a b : float) : float := if (b <? a)%float then b else a.

(** [minCoeff()]: asserts that the expression is not empty. *)
Definition minCoeff (v : list float) : outcome float :=
  match v with
  | [] => Aborts EigenAssertion
  | x :: r => Returns (fold_left fmin r x)
  end.

(** [a - b] on two vectors: the sizes must agree. *)
Definition vec_sub (a b : VectorXd) : outcome VectorXd :=
  _ ← eigen_assert (length a =? length b);
  mret (zip_with PrimFloat.sub a b).

(** [m.rowwise() - v.transpose()]: [v] must be as wide as [m]. *)
Definition rowwise_sub (m : MatrixXd) (v : VectorXd) : outcome MatrixXd :=
  _ ← eigen_assert (cols m =? length v);
  mret (Matrix (cols m) (map (fun r => zip_with PrimFloat.sub r v) (row_data m))).

(** [m.rowwise().squaredNorm()] *)
Definition rowwise_squaredNorm (m : MatrixXd) : list float :=
  map squaredNorm (row_data m).

(** All the coefficients of [m], in the order in which a reduction over the
    whole matrix visits them.  A [MatrixXd] is stored column by column, and
    the reduction of an expression without packet access ([pow] has none)
    goes through the columns one after the other, each from row 0 down. *)
Definition coefficients (m : MatrixXd) : list float :=
  concat (map (fun j => map (fun r => nth j r 0%float) (row_data m)) (seq 0 (cols m))).

Definition row (m : MatrixXd) (i : nat) : outcome VectorXd :=
  match row_data m !! i with
  | Some r => Returns r
  | None => Aborts EigenAssertion
  end.

Definition col (m : MatrixXd) (j : nat) : outcome VectorXd :=
  _ ← eigen_assert (j <? cols m);
  mret (map (fun r => nth j r 0%float) (row_data m)).

Definition bottomRows (m : MatrixXd) (n : nat) : outcome MatrixXd :=
  _ ← eigen_assert (n <=? rows m);
  mret (Matrix (cols m) (drop (rows m - n) (row_data m))).

(** [m.block(i, j, p, q)] *)
Definition block (m : MatrixXd) (i j p q : nat) : outcome MatrixXd :=
  _ ← eigen_assert ((i + p <=? rows m) && (j + q <=? cols m));
  mret (Matrix q (map (fun r => take q (drop j r)) (take p (drop i (row_data m))))).

(** [v.segment(i, n)]; start and size are signed integers. *)
Definition segment (v : VectorXd) (i n : Z) : outcome VectorXd :=
  _ ← eigen_assert ((0 <=? i)%Z && (0 <=? n)%Z && (i + n <=? Z.of_nat (length v))%Z);
  mret (take (Z.to_nat n) (drop (Z.to_nat i) v)).

(** [v.head(n)]; the size is a signed integer. *)
Definition head (v : VectorXd) (n : Z) : outcome VectorXd :=
  _ ← eigen_assert ((0 <=? n)%Z && (n <=? Z.of_nat (length v))%Z);
  mret (take (Z.to_nat n) v).

(** [v[i]] with a signed index. *)
Definition coeff (v : VectorXd) (i : Z) : outcome float :=
  _ ← eigen_assert (0 <=? i)%Z;
  match v !! Z.to_nat i with
  | Some x => Returns x
  | None => Aborts EigenAssertion
  end.

(** A [T x D] matrix after [fill(0.0)]. *)
Definition Zero (T D : nat) : MatrixXd :=
  Matrix D (replicate T (replicate D 0%float)).

(** [m.col(j) = src]: [src] must be a [rows m x 1] matrix. *)
Definition assign_col (m : MatrixXd) (j : nat) (src : MatrixXd) : outcome MatrixXd :=
  _ ← eigen_assert ((j <? cols m) && (rows src =? rows m) && (cols src =? 1));
  mret (Matrix (cols m)
          (zip_with (fun r s => <[j := nth 0 s 0%float]> r) (row_data m) (row_data src))).

(** A vector seen as a one-column matrix. *)
Definition column (v : VectorXd) : MatrixXd := Matrix 1 (map (fun x => [x]) v).

(** [m.transpose()] of a one-row matrix, assigned to a vector. *)
Definition transpose_row (m : MatrixXd) : outcome VectorXd :=
  _ ← eigen_assert (rows m =? 1);
  row m 0.

End Eigen.

(** ** Files and output streams *)

Module Files.

(** A file is the sequence of the chunks written to it, one per [<<]. *)
Abbreviation contents := (list string).

(** The files that exist, and the paths that cannot be opened for writing
    (missing directory, no permission). *)
Record FileSystem : Type := {
  files : gmap string contents;
  unwritable : gset string
}.

Inductive floatfield : Type := defaultfloat | fixed.

(** A [std::ofstream]: the file it is attached to once [open] succeeded, and
    its floating-point format flag. *)
Record ofstream : Type := {
  attached : option string;
  format : floatfield
}.

Definition is_open (s : ofstream) : bool := bool_decide (is_Some (attached s)).

(** [open(filename)]: truncates the file, or fails and leaves the stream
    unattached. *)
Definition open (filename : string) (fs : FileSystem) : ofstream * FileSystem :=
  if decide (filename ∈ unwritable fs)
  then ({| attached := None; format := defaultfloat |}, fs)
  else ({| attached := Some filename; format := defaultfloat |},
        {| files := <[filename := []]> (files fs); unwritable := unwritable fs |}).

(** [s << chunk]: nothing is written through a stream that is not open. *)
Definition put (chunk : string) (s : ofstream) (fs : FileSystem) : FileSystem :=
  match attached s with
  | Some f => {| files := alter (fun c => c ++ [chunk]) f (files fs);
                 unwritable := unwritable fs |}
  | None => fs
  end.

Definition put_all (chunks : list string) (s : ofstream) (fs : FileSystem) : FileSystem :=
  fold_left (fun fs c => put c s fs) chunks fs.

Definition close (s : ofstream) : ofstream :=
  {| attached := None; format := format s |}.

Definition is_blank (chunk : string) : bool :=
  bool_decide (chunk = " ") || bool_decide (chunk = "").

(** Modelled from the spec: [loadMatrix] of dmpbbo_io/EigenFileIO.hpp is not
    among the sources.  The task file is a single-row numeric record: the
    numbers of the file, separated by blanks, make the one row of the matrix;
    a missing file or a file without a number gives an empty matrix. *)
Definition loadMatrix (parse_double : string -> float) (filename : string)
    (fs : FileSystem) : Eigen.MatrixXd :=
  match files fs !! filename with
  | None => Eigen.Matrix 0 []
  | Some chunks =>
      let numbers := map parse_double (filter (fun c => is_blank c = false) chunks) in
      match numbers with
      | [] => Eigen.Matrix 0 []
      | _ => Eigen.Matrix (length numbers) [numbers]
      end
  end.

End Files.

(** ** TaskViapoint.cpp *)

Module TaskViapoint.
Import Eigen.

Record TaskViapoint : Type := {
  viapoint_ : VectorXd;
  viapoint_time_ : float;
  viapoint_radius_ : float;
  goal_ : VectorXd;
  goal_time_ : float;
  viapoint_weight_ : float;
  acceleration_weight_ : float;
  goal_weight_ : float
}.

(** TaskViapoint(viapoint, viapoint_time, viapoint_radius) *)
Definition construct_radius (viapoint : VectorXd) (viapoint_time viapoint_radius : float)
    : outcome TaskViapoint :=
  _ ← c_assert (0 <=? viapoint_radius)%float;
  mret {| viapoint_ := viapoint; viapoint_time_ := viapoint_time;
          viapoint_radius_ := viapoint_radius;
          goal_ := replicate (length viapoint) 1%float; goal_time_ := (-1)%float;
          viapoint_weight_ := 1%float; acceleration_weight_ := 0.0001%float;
          goal_weight_ := 0%float |}.

(** TaskViapoint(viapoint, viapoint_time, goal, goal_time) *)
Definition construct_goal (viapoint : VectorXd) (viapoint_time : float)
    (goal : VectorXd) (goal_time : float) : outcome TaskViapoint :=
  _ ← c_assert (length viapoint =? length goal);
  mret {| viapoint_ := viapoint; viapoint_time_ := viapoint_time;
          viapoint_radius_ := 0%float;
          goal_ := goal; goal_time_ := goal_time;
          viapoint_weight_ := 1%float; acceleration_weight_ := 0.0001%float;
          goal_weight_ := 1%float |}.

(** TaskViapoint(viapoint, viapoint_time, viapoint_radius, goal, goal_time,
    viapoint_weight, acceleration_weight, goal_weight) *)
Definition construct (viapoint : VectorXd) (viapoint_time viapoint_radius : float)
    (goal : VectorXd) (goal_time : float)
    (viapoint_weight acceleration_weight goal_weight : float) : outcome TaskViapoint :=
  _ ← c_assert (0 <=? viapoint_radius)%float;
  _ ← c_assert (length viapoint =? length goal);
  mret {| viapoint_ := viapoint; viapoint_time_ := viapoint_time;
          viapoint_radius_ := viapoint_radius;
          goal_ := goal; goal_time_ := goal_time;
          viapoint_weight_ := viapoint_weight;
          acceleration_weight_ := acceleration_weight;
          goal_weight_ := goal_weight |}.

(** The loop
      [int step = 0; while (step < ts.size() && ts[step] < time) step++;]
    leaves in [step] the number of leading samples that are before [time]. *)
Fixpoint time_step_at (ts : VectorXd) (time : float) : nat :=
  match ts with
  | [] => 0
  | t :: later => if (t <? time)%float then S (time_step_at later time) else 0
  end.

Section computeCosts.

(** The sentinel of TaskViapoint.hpp, which is not among the sources. *)
Variable TIME_AT_MINIMUM_DIST : float.

Variable task : TaskViapoint.
Variables (ts : VectorXd) (y ydd : MatrixXd).

(** Lines 68-98: the distance to the viapoint, before it is weighted. *)
Definition dist_to_viapoint : outcome float :=
  if negb (viapoint_weight_ task =? 0)%float then
    dist ←
      (if (viapoint_time_ task =? TIME_AT_MINIMUM_DIST)%float then
         diffs ← rowwise_sub y (viapoint_ task);
         minCoeff (rowwise_squaredNorm diffs)
       else
         let viapoint_time_step := time_step_at ts (viapoint_time_ task) in
         _ ← c_assert (viapoint_time_step <? length ts);
         y_via ← row y viapoint_time_step;
         diff ← vec_sub y_via (viapoint_ task);
         mret (sqrt (sum (map pow2 diff))));
    mret (if (0 <? viapoint_radius_ task)%float then
            let dist := (dist - viapoint_radius_ task)%float in
            if (dist <? 0)%float then 0%float else dist
          else dist)
  else mret 0%float.

(** Lines 100-105. *)
Definition mean_ydd : float :=
  if negb (acceleration_weight_ task =? 0)%float
  then (sum (map pow2 (coefficients ydd)) / of_int (length ts))%float
  else 0%float.

(** Lines 107-119. *)
Definition delay_cost : outcome float :=
  if negb (goal_weight_ task =? 0)%float then
    let goal_time_step := time_step_at ts (goal_time_ task) in
    y_after_goal ← bottomRows y (length ts - goal_time_step);
    diffs ← rowwise_sub y_after_goal (goal_ task);
    mret (sum (rowwise_squaredNorm diffs))
  else mret 0%float.

Definition computeCosts : outcome VectorXd :=
  dist ← dist_to_viapoint;
  delay ← delay_cost;
  let costs1 := (viapoint_weight_ task * dist)%float in
  let costs2 := (acceleration_weight_ task * mean_ydd)%float in
  let costs3 := (goal_weight_ task * delay)%float in
  mret [(costs1 + costs2 + costs3)%float; costs1; costs2; costs3].

End computeCosts.

Definition evaluateRollout (TIME_AT_MINIMUM_DIST : float) (task : TaskViapoint)
    (cost_vars : MatrixXd) : outcome VectorXd :=
  let n_dims := length (viapoint_ task) in
  let n_time_steps := rows cost_vars in
  _ ← c_assert (cols cost_vars =? 1 + 4 * n_dims);
  ts ← col cost_vars 0;
  y ← block cost_vars 0 1 n_time_steps n_dims;
  ydd ← block cost_vars 0 (1 + 2 * n_dims) n_time_steps n_dims;
  computeCosts TIME_AT_MINIMUM_DIST task ts y ydd.

Definition getNumberOfCostComponents (task : TaskViapoint) : nat := 3.

Definition setCostFunctionWeighting (viapoint_weight acceleration_weight goal_weight : float)
    (task : TaskViapoint) : TaskViapoint :=
  {| viapoint_ := viapoint_ task; viapoint_time_ := viapoint_time_ task;
     viapoint_radius_ := viapoint_radius_ task;
     goal_ := goal_ task; goal_time_ := goal_time_ task;
     viapoint_weight_ := viapoint_weight;
     acceleration_weight_ := acceleration_weight;
     goal_weight_ := goal_weight |}.

Section io.

(** The sentinel of TaskViapoint.hpp, which is not among the sources. *)
Variable TIME_AT_MINIMUM_DIST : float.

(** [operator<<] on a [double] under a format flag, and the conversion that
    [loadMatrix] applies to the text of one number. *)
Variable show_double : Files.floatfield -> float -> string.
Variable parse_double : string -> float.

Definition readFromFile (filename : string) (fs : Files.FileSystem) : outcome TaskViapoint :=
  let matrix := Files.loadMatrix parse_double filename fs in
  vector ← row matrix 0;
  (* 6 doubles and two vectors of size n_dims *)
  let n_dims := ((Z.of_nat (length vector) - 6) `quot` 2)%Z in
  viapoint ← head vector n_dims;
  viapoint_time ← coeff vector n_dims;
  let viapoint_time :=
    if (viapoint_time <? 0)%float then TIME_AT_MINIMUM_DIST else viapoint_time in
  viapoint_radius ← coeff vector (n_dims + 1);
  goal ← segment vector (n_dims + 2) n_dims;
  goal_time ← coeff vector (2 * n_dims + 2);
  viapoint_weight ← coeff vector (2 * n_dims + 3);
  acceleration_weight ← coeff vector (2 * n_dims + 4);
  goal_weight ← coeff vector (2 * n_dims + 5);
  construct viapoint viapoint_time viapoint_radius goal goal_time
            viapoint_weight acceleration_weight goal_weight.

(** [myfile << x << " "] *)
Definition put_double (x : float) (s : Files.ofstream) (fs : Files.FileSystem)
    : Files.FileSystem :=
  Files.put " " s (Files.put (show_double (Files.format s) x) s fs).

Definition put_doubles (v : VectorXd) (s : Files.ofstream) (fs : Files.FileSystem)
    : Files.FileSystem :=
  fold_left (fun fs x => put_double x s fs) v fs.

Definition writeToFile (task : TaskViapoint) (filename : string) (fs : Files.FileSystem)
    : bool * Files.FileSystem :=
  let '(myfile, fs) := Files.open filename fs in
  let fs := put_doubles (viapoint_ task) myfile fs in
  let fs := put_double (viapoint_time_ task) myfile fs in
  let fs := put_double (viapoint_radius_ task) myfile fs in
  let fs := put_doubles (goal_ task) myfile fs in
  let fs := put_double (goal_time_ task) myfile fs in
  let fs := put_double (viapoint_weight_ task) myfile fs in
  let fs := put_double (acceleration_weight_ task) myfile fs in
  let fs := put_double (goal_weight_ task) myfile fs in
  let myfile := Files.close myfile in
  (true, fs).

Definition endl : string := String (Ascii.ascii_of_nat 10) "".
Definition dquote : string := String (Ascii.ascii_of_nat 34) "".

(** The text between [file << "    viapoint = ["] and the closing bracket. *)
Fixpoint viapoint_list (ii : nat) (v : VectorXd) : list string :=
  match v with
  | [] => []
  | x :: r =>
      (if 0 <? ii then [", "] else []) ++ show_double Files.fixed x
        :: viapoint_list (S ii) r
  end.

Definition plotRollout_script (task : TaskViapoint) : list string :=
  ["import numpy as np"; endl;
   "import matplotlib.pyplot as plt"; endl;
   "import sys, os"; endl;
   "def plotRollout(cost_vars,ax):"; endl;
   "    viapoint = ["]
  ++ viapoint_list 0 (viapoint_ task)
  ++ ["]"; endl;
      "    viapoint_time = "; show_double Files.fixed (viapoint_time_ task); endl;
      "    # y      yd     ydd    1  forcing"; endl;
      "    # n_dofs n_dofs n_dofs ts n_dofs"; endl;
      "    n_dofs = len(viapoint)"; endl;
      "    y = cost_vars[:,0:n_dofs]"; endl;
      "    t = cost_vars[:,3*n_dofs]"; endl]
  ++ (if length (viapoint_ task) =? 1
      then ["    line_handles = ax.plot(t,y,linewidth=0.5)"; endl;
            "    ax.plot(viapoint_time,viapoint,'ok')"; endl]
      else ["    line_handles = ax.plot(y[:,0],y[:,1],linewidth=0.5)"; endl;
            "    ax.plot(viapoint[0],viapoint[1],'ok')"; endl])
  ++ ["    return line_handles"; endl;
      ""; endl;
      "if __name__=='__main__':"; endl;
      "    # See if input directory was passed"; endl;
      "    if (len(sys.argv)==2):"; endl;
      "      directory = str(sys.argv[1])"; endl;
      "    else:"; endl;
      "      print 'Usage: '+sys.argv[0]+' <directory>';"; endl;
      "      sys.exit()"; endl;
      "    cost_vars = np.loadtxt(directory+" +:+ dquote +:+ "/cost_vars.txt" +:+ dquote +:+ ")";
      endl;
      "    fig = plt.figure()"; endl;
      "    ax = fig.gca()"; endl;
      "    plotRollout(cost_vars,ax)"; endl;
      "    plt.show()"; endl].

Definition savePlotRolloutScript (task : TaskViapoint) (directory : string)
    (fs : Files.FileSystem) : bool * Files.FileSystem :=
  let filename := directory +:+ "/plotRollout.py" in
  let '(file, fs) := Files.open filename fs in
  if negb (Files.is_open file) then
    (* the message goes to std::cerr *)
    (false, fs)
  else
    let fs := Files.put_all (plotRollout_script task) file fs in
    let file := Files.close file in
    (true, fs).

End io.

End TaskViapoint.

(** ** The interfaces DmpWithGainSchedules.cpp is written against *)

Module Trajectory.
Import Eigen.

Record Trajectory : Type := {
  ts : VectorXd;
  ys : MatrixXd;
  yds : MatrixXd;
  ydds : MatrixXd;
  misc : MatrixXd
}.

Definition length (trajectory : Trajectory) : nat := List.length (ts trajectory).

Definition set_misc (m : MatrixXd) (trajectory : Trajectory) : Trajectory :=
  {| ts := ts trajectory; ys := ys trajectory; yds := yds trajectory;
     ydds := ydds trajectory; misc := m |}.

End Trajectory.

Module FunctionApproximator.
Import Eigen.

(** functionapproximators/FunctionApproximator.hpp.  [predict(inputs, outputs)]
    overwrites [outputs] with one output per input sample; the training
    methods change the approximator; [clone] gives the state of the copy. *)
Class FunctionApproximator (FA : Type) : Type := {
  isTrained : FA -> bool;
  predict : FA -> MatrixXd -> MatrixXd;
  train : MatrixXd -> VectorXd -> string -> bool -> FA -> FA;
  reTrain : MatrixXd -> VectorXd -> string -> bool -> FA -> FA;
  clone : FA -> FA;
  predict_shape : forall fa inputs,
    rows (predict fa inputs) = rows inputs /\ cols (predict fa inputs) = 1
}.

End FunctionApproximator.

Module Dmp.
Import Eigen.

(** dmp/Dmp.hpp: the base class, of which only the members that
    DmpWithGainSchedules calls are listed.  [integrateStart] and
    [integrateStep] give [(x, xd)] resp. [(x_updated, xd_updated)];
    [analyticalSolution] gives [(xs, xds, forcing_terms, fa_output)]. *)
Class Dmp (D : Type) : Type := {
  dim_orig : D -> nat;
  integrateStart : D -> VectorXd -> VectorXd -> VectorXd * VectorXd;
  integrateStep : D -> float -> VectorXd -> VectorXd * VectorXd;
  analyticalSolution : D -> VectorXd -> MatrixXd * MatrixXd * MatrixXd * MatrixXd;
  statesAsTrajectory : D -> VectorXd -> MatrixXd -> MatrixXd -> Trajectory.Trajectory;
  train : Trajectory.Trajectory -> string -> bool -> D -> D;
  clone : D -> D
}.

End Dmp.

(** ** Pointers to function approximators *)

Module Memory.

Abbreviation loc := positive.

(** A [FunctionApproximator*]; [None] is [NULL]. *)
Abbreviation pointer := (option loc).
Definition NULL : pointer := None.

Section heap.
Context {FA : Type}.

(** [new]: a location that holds no object yet. *)
Definition new (fa : FA) (h : gmap loc FA) : loc * gmap loc FA :=
  let l := fresh (dom h) in (l, <[l := fa]> h).

(** The object a member call through [p] reaches. *)
Definition deref (p : pointer) (h : gmap loc FA) : outcome FA :=
  match p with
  | None => Aborts NullDereference
  | Some l =>
      match h !! l with
      | Some fa => Returns fa
      | None => Aborts InvalidPointer
      end
  end.

(** The same two as steps of a call that works on the heap. *)
Definition allocate (fa : FA) : stateful (gmap loc FA) loc :=
  fun h => let '(l, h) := new fa h in (Returns l, h).

Definition load (p : pointer) : stateful (gmap loc FA) FA :=
  fun h => (deref p h, h).

(** [delete p]: nothing happens for NULL; the object is gone afterwards.
    Deleting through a pointer to no live object is undefined behaviour. *)
Definition free (p : pointer) : stateful (gmap loc FA) unit :=
  fun h =>
    match p with
    | None => (Returns tt, h)
    | Some l =>
        match h !! l with
        | Some _ => (Returns tt, delete l h)
        | None => (Aborts InvalidPointer, h)
        end
    end.

(** [v[i]] on a [std::vector]: the element at an index below [size()].
    The operator checks nothing; at any other index the read is past the end
    of the storage and the behaviour is undefined. *)
Definition at_index {A} (v : list A) (i : nat) : outcome A :=
  match v !! i with
  | Some a => Returns a
  | None => Aborts OutOfBounds
  end.

End heap.
End Memory.

(** ** DmpWithGainSchedules.cpp *)

Module DmpWithGainSchedules.
Import Eigen Memory.

Section DmpWithGainSchedules.
Context {D FA : Type} `{!Dmp.Dmp D} `{!FunctionApproximator.FunctionApproximator FA}.

Record DmpWithGainSchedules : Type := {
  base : D;                                       (* the Dmp subobject *)
  function_approximators_gains_ : list pointer;
  fa_gains_outputs_one_prealloc_ : MatrixXd;      (* mutable *)
  fa_gains_outputs_prealloc_ : MatrixXd;          (* mutable *)
  fa_gains_output_prealloc_ : MatrixXd            (* mutable *)
}.

Definition set_base (d : D) (this : DmpWithGainSchedules) : DmpWithGainSchedules :=
  {| base := d;
     function_approximators_gains_ := function_approximators_gains_ this;
     fa_gains_outputs_one_prealloc_ := fa_gains_outputs_one_prealloc_ this;
     fa_gains_outputs_prealloc_ := fa_gains_outputs_prealloc_ this;
     fa_gains_output_prealloc_ := fa_gains_output_prealloc_ this |}.

Definition set_outputs_one_prealloc (m : MatrixXd) (this : DmpWithGainSchedules)
    : DmpWithGainSchedules :=
  {| base := base this;
     function_approximators_gains_ := function_approximators_gains_ this;
     fa_gains_outputs_one_prealloc_ := m;
     fa_gains_outputs_prealloc_ := fa_gains_outputs_prealloc_ this;
     fa_gains_output_prealloc_ := fa_gains_output_prealloc_ this |}.

Definition set_outputs_prealloc (m : MatrixXd) (this : DmpWithGainSchedules)
    : DmpWithGainSchedules :=
  {| base := base this;
     function_approximators_gains_ := function_approximators_gains_ this;
     fa_gains_outputs_one_prealloc_ := fa_gains_outputs_one_prealloc_ this;
     fa_gains_outputs_prealloc_ := m;
     fa_gains_output_prealloc_ := fa_gains_output_prealloc_ this |}.

(** [x.PHASE]: [segment(3*dim_orig()+0, 1)], copied into a 1 x 1 matrix. *)
Definition PHASE (this : DmpWithGainSchedules) (x : VectorXd) : outcome MatrixXd :=
  phase ← segment x (Z.of_nat (3 * Dmp.dim_orig (base this) + 0)) 1;
  mret (column phase).

(** [xs.PHASEM(T)]: [block(0, 3*dim_orig()+0, T, 1)]. *)
Definition PHASEM (this : DmpWithGainSchedules) (xs : MatrixXd) (T : nat) : outcome MatrixXd :=
  block xs 0 (3 * Dmp.dim_orig (base this) + 0) T 1.

(** The loop of [initFunctionApproximatorsExtDims], slot by slot: a NULL
    slot stays NULL, any other is cloned into a new object. *)
Fixpoint clone_or_NULL (function_approximators_gains : list pointer)
    : stateful (gmap loc FA) (list pointer) :=
  match function_approximators_gains with
  | [] => mret []
  | p :: rest =>
      q ← (match p return stateful (gmap loc FA) pointer with
           | None => mret NULL
           | Some _ =>
               fa ← load p;
               l ← allocate (FunctionApproximator.clone fa);
               mret (Some l)
           end);
      qs ← clone_or_NULL rest;
      mret (q :: qs)
  end.

(** The member [function_approximators_gains_] is empty before the call. *)
Definition initFunctionApproximatorsExtDims (function_approximators_gains : list pointer)
    : stateful (gmap loc FA) (list pointer) :=
  match function_approximators_gains with
  | [] => mret []
  | _ => clone_or_NULL function_approximators_gains
  end.

(** The constructor.  The three buffers are allocated, not filled: their
    coefficients are indeterminate and stand as zeros here. *)
Definition construct (dmp : D) (function_approximators_gains : list pointer)
    : stateful (gmap loc FA) DmpWithGainSchedules :=
  bank ← initFunctionApproximatorsExtDims function_approximators_gains;
  mret {| base := dmp;
          function_approximators_gains_ := bank;
          fa_gains_outputs_one_prealloc_ := Zero 1 (Dmp.dim_orig dmp);
          fa_gains_outputs_prealloc_ := Zero 1 (Dmp.dim_orig dmp);
          fa_gains_output_prealloc_ := Zero 1 (Dmp.dim_orig dmp) |}.

(** The loop of the destructor (lines 137-138): every slot is deleted. *)
Fixpoint delete_each (function_approximators_gains_ : list pointer)
    : stateful (gmap loc FA) unit :=
  match function_approximators_gains_ with
  | [] => mret tt
  | p :: rest => _ ← free p; delete_each rest
  end.

(** ~DmpWithGainSchedules *)
Definition destructor (this : DmpWithGainSchedules) : stateful (gmap loc FA) unit :=
  delete_each (function_approximators_gains_ this).

(** The loop of [clone]: every slot is cloned through its pointer. *)
Fixpoint clone_each (function_approximators_gains_ : list pointer)
    : stateful (gmap loc FA) (list pointer) :=
  match function_approximators_gains_ with
  | [] => mret []
  | p :: rest =>
      fa ← load p;
      l ← allocate (FunctionApproximator.clone fa);
      qs ← clone_each rest;
      mret (Some l :: qs)
  end.

Definition clone (this : DmpWithGainSchedules)
    : stateful (gmap loc FA) DmpWithGainSchedules :=
  function_approximators_gains ← clone_each (function_approximators_gains_ this);
  construct (Dmp.clone (base this)) function_approximators_gains.

(** One round of the loop over [i_dim] in
    [computeFunctionApproximatorOutputExtendedDimensions]. *)
Definition gain_output (h : gmap loc FA) (phase_state : MatrixXd) (i_dim : nat)
    (st : MatrixXd * DmpWithGainSchedules) : outcome (MatrixXd * DmpWithGainSchedules) :=
  let '(fa_output, this) := st in
  let T := rows phase_state in
  p ← at_index (function_approximators_gains_ this) i_dim;
  match p with
  | None => mret (fa_output, this)
  | Some _ =>
      fa ← deref p h;
      if FunctionApproximator.isTrained fa then
        if T =? 1 then
          let this := set_outputs_one_prealloc (FunctionApproximator.predict fa phase_state) this in
          fa_output ← assign_col fa_output i_dim (fa_gains_outputs_one_prealloc_ this);
          mret (fa_output, this)
        else
          let this := set_outputs_prealloc (FunctionApproximator.predict fa phase_state) this in
          fa_output ← assign_col fa_output i_dim (fa_gains_outputs_prealloc_ this);
          mret (fa_output, this)
      else mret (fa_output, this)
  end.

Fixpoint gain_outputs (h : gmap loc FA) (phase_state : MatrixXd) (i_dims : list nat)
    (st : MatrixXd * DmpWithGainSchedules) : outcome (MatrixXd * DmpWithGainSchedules) :=
  match i_dims with
  | [] => mret st
  | i_dim :: later =>
      st ← gain_output h phase_state i_dim st;
      gain_outputs h phase_state later st
  end.

(** A const member: it reads the approximators and writes only the mutable
    buffers of [this].  The result is the new [fa_output]. *)
Definition computeFunctionApproximatorOutputExtendedDimensions
    (h : gmap loc FA) (phase_state : MatrixXd)
    : stateful DmpWithGainSchedules MatrixXd :=
  fun this =>
    let T := rows phase_state in
    let dim_orig := Dmp.dim_orig (base this) in
    let fa_output := Zero T dim_orig in
    let this1 := if 1 <? T then set_outputs_prealloc (Zero T dim_orig) this else this in
    match gain_outputs h phase_state (seq 0 dim_orig) (fa_output, this1) with
    | Returns (fa_output, this2) => (Returns fa_output, this2)
    | Aborts f => (Aborts f, this1)
    end.

Definition integrateStart (h : gmap loc FA) (x xd : VectorXd)
    : stateful DmpWithGainSchedules (VectorXd * VectorXd * VectorXd) :=
  this ← get;
  let '(x, xd) := Dmp.integrateStart (base this) x xd in
  phase ← lift (PHASE this x);
  gains_prealloc ← computeFunctionApproximatorOutputExtendedDimensions h phase;
  gains ← lift (transpose_row gains_prealloc);
  mret (x, xd, gains).

Definition integrateStep (h : gmap loc FA) (dt : float) (x : VectorXd)
    : stateful DmpWithGainSchedules (VectorXd * VectorXd * VectorXd) :=
  this ← get;
  let '(x_updated, xd_updated) := Dmp.integrateStep (base this) dt x in
  phase ← lift (PHASE this x_updated);
  gains_prealloc ← computeFunctionApproximatorOutputExtendedDimensions h phase;
  gains ← lift (transpose_row gains_prealloc);
  mret (x_updated, xd_updated, gains).

(** The overload with five results. *)
Definition analyticalSolution (h : gmap loc FA) (ts : VectorXd)
    : stateful DmpWithGainSchedules (MatrixXd * MatrixXd * MatrixXd * MatrixXd * MatrixXd) :=
  this ← get;
  let '(xs, xds, forcing_terms, fa_output) := Dmp.analyticalSolution (base this) ts in
  phases ← lift (PHASEM this xs (rows xs));
  fa_gains ← computeFunctionApproximatorOutputExtendedDimensions h phases;
  mret (xs, xds, forcing_terms, fa_output, fa_gains).

(** The overload that fills a trajectory. *)
Definition analyticalSolution_trajectory (h : gmap loc FA) (ts : VectorXd)
    : stateful DmpWithGainSchedules Trajectory.Trajectory :=
  this ← get;
  let '(xs, xds, _, _) := Dmp.analyticalSolution (base this) ts in
  let trajectory := Dmp.statesAsTrajectory (base this) ts xs xds in
  phases ← lift (PHASEM this xs (rows xs));
  (* add output fa_gains as misc variables *)
  fa_gains ← computeFunctionApproximatorOutputExtendedDimensions h phases;
  mret (Trajectory.set_misc fa_gains trajectory).

(** The directory one dimension is saved to. *)
Definition save_directory_dim (save_directory : string) (size dd : nat) : string :=
  if bool_decide (save_directory = "") then ""
  else if size =? 1 then save_directory
  else save_directory +:+ "/gains" +:+ pretty dd.

(** The loop of [train] from dimension [dd] on; [slots] are the slots that
    are left.  The warning for a NULL slot goes to std::cerr. *)
Fixpoint train_gains (xs_phase targets : MatrixXd) (save_directory : string)
    (overwrite : bool) (size dd : nat) (slots : list pointer)
    : stateful (gmap loc FA) unit :=
  match slots with
  | [] => mret tt
  | p :: later =>
      cur_target ← lift (col targets dd);
      _ ← (match p return stateful (gmap loc FA) unit with
           | None => mret tt
           | Some l =>
               fa ← load p;
               let dir := save_directory_dim save_directory size dd in
               if FunctionApproximator.isTrained fa
               then modify <[l := FunctionApproximator.reTrain xs_phase cur_target dir overwrite fa]>
               else modify <[l := FunctionApproximator.train xs_phase cur_target dir overwrite fa]>
           end);
      train_gains xs_phase targets save_directory overwrite size (S dd) later
  end.

(** The part of [train] after the base class has been trained. *)
Definition train_function_approximators (trajectory : Trajectory.Trajectory)
    (save_directory : string) (overwrite : bool) (this : DmpWithGainSchedules)
    : stateful (gmap loc FA) unit :=
  (* Integrate analytically to get phase states *)
  let '(xs_ana, xds_ana, _, _) :=
    Dmp.analyticalSolution (base this) (Trajectory.ts trajectory) in
  xs_phase ← lift (PHASEM this xs_ana (Trajectory.length trajectory));
  (* Get targets from trajectory *)
  let targets := Trajectory.misc trajectory in
  _ ← lift (c_assert (cols targets =? length (function_approximators_gains_ this)));
  _ ← lift (c_assert (negb (bool_decide (function_approximators_gains_ this = []))));
  train_gains xs_phase targets save_directory overwrite
    (length (function_approximators_gains_ this)) 0
    (function_approximators_gains_ this).

(** [train] works on the object and on the approximators. *)
Definition train (trajectory : Trajectory.Trajectory) (save_directory : string)
    (overwrite : bool) : stateful (DmpWithGainSchedules * gmap loc FA) unit :=
  fun '(this, h) =>
    (* First, train the DMP *)
    let this :=
      set_base (Dmp.train trajectory save_directory overwrite (base this)) this in
    let '(r, h) :=
      train_function_approximators trajectory save_directory overwrite this h in
    (r, (this, h)).

End DmpWithGainSchedules.

Arguments DmpWithGainSchedules D : clear implicits.

End DmpWithGainSchedules.

(** ** Definitions that follow the words of the specification *)

Module Spec.
Import Eigen TaskViapoint.

(** "the minimum squared-then-rooted distance between the position trajectory
    and the viapoint over all samples" *)
Definition minimum_distance (y : MatrixXd) (viapoint : VectorXd) : outcome float :=
  diffs ← rowwise_sub y viapoint;
  minCoeff (map (fun r => sqrt (squaredNorm r)) (row_data diffs)).

(** "mean of squared accelerations across all samples and dimensions,
    multiplied by the acceleration weight" *)
Definition smoothness (task : TaskViapoint) (ydd : MatrixXd) : float :=
  (acceleration_weight_ task
   * (sum (map pow2 (coefficients ydd)) / of_int (rows ydd * cols ydd)))%float.

(** A rollout of as many samples as [ts] and of the task's dimensionality. *)
Definition rollout_shape (task : TaskViapoint) (ts : VectorXd) (y : MatrixXd) : bool :=
  (rows y =? length ts)
  && (cols y =? length (viapoint_ task))
  && (cols y =? length (goal_ task))
  && forallb (fun r => length r =? cols y) (row_data y).

(** What the caller of [computeCosts] has to guarantee about the viapoint
    time: it is not after the last sample (and there is a sample at all). *)
Definition viapoint_time_in_range (TIME_AT_MINIMUM_DIST : float) (task : TaskViapoint)
    (ts : VectorXd) : bool :=
  (viapoint_weight_ task =? 0)%float
  || (if (viapoint_time_ task =? TIME_AT_MINIMUM_DIST)%float
      then 0 <? length ts
      else time_step_at ts (viapoint_time_ task) <? length ts).

(** The result of writing one number and reading it back. *)
Definition reparse (show_double : Files.floatfield -> float -> string)
    (parse_double : string -> float) (x : float) : float :=
  parse_double (show_double Files.defaultfloat x).

(** The single-row record of a task, field by field. *)
Definition record (task : TaskViapoint) : VectorXd :=
  viapoint_ task ++ [viapoint_time_ task; viapoint_radius_ task]
  ++ goal_ task
  ++ [goal_time_ task; viapoint_weight_ task; acceleration_weight_ task; goal_weight_ task].

(** The chunks that writing a sequence of numbers, each followed by a blank,
    leaves in a file. *)
Definition written (show_double : Files.floatfield -> float -> string) (v : VectorXd)
    : list string :=
  v ≫= fun x => [show_double Files.defaultfloat x; " "].

(** Every present slot among the first [dim_orig()] points to a live
    approximator, and none of these slots is past the end of the bank. *)
Definition bank_usable {D FA : Type} `{!Dmp.Dmp D}
    (h : gmap Memory.loc FA) (this : DmpWithGainSchedules.DmpWithGainSchedules D) : bool :=
  forallb
    (fun i_dim =>
       match DmpWithGainSchedules.function_approximators_gains_ this !! i_dim with
       | Some None => true
       | Some (Some l) => bool_decide (is_Some (h !! l))
       | None => false
       end)
    (seq 0 (Dmp.dim_orig (DmpWithGainSchedules.base this))).

(** Every slot is absent or holds an untrained approximator. *)
Definition all_absent_or_untrained {D FA : Type}
    `{!FunctionApproximator.FunctionApproximator FA}
    (h : gmap Memory.loc FA) (this : DmpWithGainSchedules.DmpWithGainSchedules D) : bool :=
  forallb
    (fun p : Memory.pointer =>
       match p with
       | None => true
       | Some l =>
           match h !! l with
           | Some fa => negb (FunctionApproximator.isTrained fa)
           | None => false
           end
       end)
    (DmpWithGainSchedules.function_approximators_gains_ this).

(** What the loop over the dimensions keeps: the shape of [fa_output], and
    everything of [this] but the buffers. *)
Definition kept {D : Type} (this : DmpWithGainSchedules.DmpWithGainSchedules D)
    (fa_output : MatrixXd)
    (st : MatrixXd * DmpWithGainSchedules.DmpWithGainSchedules D) : Prop :=
  rows st.1 = rows fa_output /\ cols st.1 = cols fa_output
  /\ DmpWithGainSchedules.base st.2 = DmpWithGainSchedules.base this
  /\ DmpWithGainSchedules.function_approximators_gains_ st.2
     = DmpWithGainSchedules.function_approximators_gains_ this.

(** Every slot of the bank is filled with a pointer to a live approximator. *)
Definition all_present {FA : Type} (h : gmap Memory.loc FA) (bank : list Memory.pointer)
    : Prop :=
  Forall (fun p : Memory.pointer => exists l, p = Some l /\ is_Some (h !! l)) bank.

(** Slot by slot, [bank'] holds in [h'] fresh copies, made by [copy], of what
    [bank] holds in [h]. *)
Definition copies {FA : Type} (copy : FA -> FA)
    (h : gmap Memory.loc FA) (bank : list Memory.pointer)
    (h' : gmap Memory.loc FA) (bank' : list Memory.pointer) : Prop :=
  h ⊆ h'
  /\ length bank' = length bank
  /\ forall i l, bank !! i = Some (Some l) ->
       exists l' fa, bank' !! i = Some (Some l')
                     /\ h !! l = Some fa
                     /\ h' !! l' = Some (copy fa)
                     /\ h !! l' = None.

(** What the constructors assert: a radius that is not negative, and a goal of
    the viapoint's dimensionality. *)
Definition task_invariant (task : TaskViapoint) : bool :=
  (0 <=? viapoint_radius_ task)%float
  && (length (viapoint_ task) =? length (goal_ task)).

(** One row of a rollout table: time, positions, velocities, accelerations,
    forcing terms. *)
Record sample : Type := {
  sample_t : float;
  sample_y : VectorXd;
  sample_yd : VectorXd;
  sample_ydd : VectorXd;
  sample_forcing : VectorXd
}.

Definition sample_row (s : sample) : VectorXd :=
  sample_t s :: sample_y s ++ sample_yd s ++ sample_ydd s ++ sample_forcing s.

(** The table of [n_dims]-dimensional samples. *)
Definition rollout_table (n_dims : nat) (samples : list sample) : MatrixXd :=
  Matrix (1 + 4 * n_dims) (map sample_row samples).

Definition sample_shape (n_dims : nat) (s : sample) : bool :=
  (length (sample_y s) =? n_dims) && (length (sample_yd s) =? n_dims)
  && (length (sample_ydd s) =? n_dims) && (length (sample_forcing s) =? n_dims).

(** The numbers of a file, as [loadMatrix] finds them. *)
Definition numbers (parse_double : string -> float) (filename : string)
    (fs : Files.FileSystem) : VectorXd :=
  match Files.files fs !! filename with
  | Some chunks => map parse_double (filter (fun c => Files.is_blank c = false) chunks)
  | None => []
  end.

(** The locations the non-NULL slots of a bank point to. *)
Definition locations (bank : list Memory.pointer) : list Memory.loc := omap id bank.

(** Every non-NULL slot points to a live approximator. *)
Definition slots_live {FA : Type} (h : gmap Memory.loc FA) (bank : list Memory.pointer)
    : bool :=
  forallb
    (fun p : Memory.pointer =>
       match p with
       | None => true
       | Some l => bool_decide (is_Some (h !! l))
       end) bank.

(** The gain of one slot for the phase sample of row [r]: the first column
    of the prediction of a trained approximator, zero otherwise. *)
Definition gain_of {FA : Type} `{!FunctionApproximator.FunctionApproximator FA}
    (h : gmap Memory.loc FA) (phase_state : MatrixXd) (p : Memory.pointer) (r : nat)
    : float :=
  match p with
  | Some l =>
      match h !! l with
      | Some fa =>
          if FunctionApproximator.isTrained fa
          then nth 0 (nth r (row_data (FunctionApproximator.predict fa phase_state)) [])
                 0%float
          else 0%float
      | None => 0%float
      end
  | None => 0%float
  end.

(** The gain matrix after the dimensions below [k] have been filled in. *)
Definition gains_upto {FA : Type} `{!FunctionApproximator.FunctionApproximator FA}
    (h : gmap Memory.loc FA) (phase_state : MatrixXd) (bank : list Memory.pointer)
    (dim_orig k : nat) : MatrixXd :=
  Matrix dim_orig
    (map (fun r =>
            map (fun d => if d <? k
                          then gain_of h phase_state (nth d bank None) r
                          else 0%float)
                (seq 0 dim_orig))
         (seq 0 (rows phase_state))).

(** The [T x dim_orig] gain matrix, coefficient by coefficient. *)
Definition gains {FA : Type} `{!FunctionApproximator.FunctionApproximator FA}
    (h : gmap Memory.loc FA) (phase_state : MatrixXd) (bank : list Memory.pointer)
    (dim_orig : nat) : MatrixXd :=
  Matrix dim_orig
    (map (fun r => map (fun d => gain_of h phase_state (nth d bank None) r)
                       (seq 0 dim_orig))
         (seq 0 (rows phase_state))).

(** The phase of a state vector, as the 1 x 1 batch the gains are computed
    for, and the phase column of a matrix of states. *)
Definition phase_of (dim_orig : nat) (x : VectorXd) : MatrixXd :=
  Matrix 1 [[nth (3 * dim_orig) x 0%float]].

Definition phase_column (dim_orig : nat) (xs : MatrixXd) : MatrixXd :=
  Matrix 1 (map (fun r => take 1 (drop (3 * dim_orig) r)) (row_data xs)).

(** The gains for a single phase sample, one per dimension. *)
Definition gains_at {FA : Type} `{!FunctionApproximator.FunctionApproximator FA}
    (h : gmap Memory.loc FA) (phase_state : MatrixXd) (bank : list Memory.pointer)
    (dim_orig : nat) : VectorXd :=
  map (fun d => gain_of h phase_state (nth d bank None) 0) (seq 0 dim_orig).

(** What training leaves in the approximator of dimension [dd]. *)
Definition trained_on {FA : Type} `{!FunctionApproximator.FunctionApproximator FA}
    (xs_phase targets : MatrixXd) (save_directory : string) (overwrite : bool)
    (size dd : nat) (fa : FA) : FA :=
  let cur_target := map (fun r => nth dd r 0%float) (row_data targets) in
  let dir := DmpWithGainSchedules.save_directory_dim save_directory size dd in
  if FunctionApproximator.isTrained fa
  then FunctionApproximator.reTrain xs_phase cur_target dir overwrite fa
  else FunctionApproximator.train xs_phase cur_target dir overwrite fa.

End Spec.

(** ** Small instances of the interfaces, for concrete runs *)

Module Instances.
Import Eigen.

(** An approximator with one parameter: the output is the phase times
    [slope].  Training sets the slope to the first target. *)
Record Proportional : Type := { trained : bool; slope : float }.

Definition proportional_predict (fa : Proportional) (inputs : MatrixXd) : MatrixXd :=
  Matrix 1 (map (fun r => [(slope fa * nth 0 r 0)%float]) (row_data inputs)).

Definition proportional_train (inputs : MatrixXd) (targets : VectorXd)
    (save_directory : string) (overwrite : bool) (fa : Proportional) : Proportional :=
  {| trained := true; slope := nth 0 targets 0%float |}.

#[global, refine] Instance Proportional_fa
    : FunctionApproximator.FunctionApproximator Proportional := {|
  FunctionApproximator.isTrained := trained;
  FunctionApproximator.predict := proportional_predict;
  FunctionApproximator.train := proportional_train;
  FunctionApproximator.reTrain := proportional_train;
  FunctionApproximator.clone := fun fa => fa
|}.
Proof.
  intros fa inputs. split; [apply length_map | reflexivity].
Defined.

(** A primitive of [dims] dimensions that counts how often it was trained.
    Its state vector is [3*dims+1] long with the phase last; one step adds
    [dt] to the phase; the closed-form solution has the time as phase. *)
Record Counting : Type := { dims : nat; times_trained : nat }.

Definition counting_step (d : Counting) (dt : float) (x : VectorXd) : VectorXd * VectorXd :=
  (take (3 * dims d) x ++ [(nth (3 * dims d) x 0 + dt)%float], replicate (3 * dims d + 1) 0%float).

Definition counting_solution (d : Counting) (ts : VectorXd)
    : MatrixXd * MatrixXd * MatrixXd * MatrixXd :=
  (Matrix (3 * dims d + 1) (map (fun t => replicate (3 * dims d) 0%float ++ [t]) ts),
   Zero (length ts) (3 * dims d + 1),
   Zero (length ts) (dims d),
   Zero (length ts) (dims d)).

#[global] Instance Counting_dmp : Dmp.Dmp Counting := {|
  Dmp.dim_orig := dims;
  Dmp.integrateStart := fun d x xd => (x, xd);
  Dmp.integrateStep := counting_step;
  Dmp.analyticalSolution := counting_solution;
  Dmp.statesAsTrajectory := fun d ts xs xds =>
    {| Trajectory.ts := ts; Trajectory.ys := xs; Trajectory.yds := xds;
       Trajectory.ydds := xds; Trajectory.misc := Matrix 0 [] |};
  Dmp.train := fun trajectory save_directory overwrite d =>
    {| dims := dims d; times_trained := S (times_trained d) |};
  Dmp.clone := fun d => d
|}.

(** Printing and parsing of the five numbers the examples use. *)
Definition show_demo (f : Files.floatfield) (x : float) : string :=
  if (x =? 0)%float then "0"
  else if (x =? 1)%float then "1"
  else if (x =? 2)%float then "2"
  else if (x =? -2)%float then "-2"
  else "0.5".

Definition parse_demo (s : string) : float :=
  if bool_decide (s = "0") then 0%float
  else if bool_decide (s = "1") then 1%float
  else if bool_decide (s = "2") then 2%float
  else if bool_decide (s = "-2") then (-2)%float
  else 0.5%float.

(** A primitive of one dimension, a trained approximator that doubles the
    phase, and an untrained one. *)
Definition primitive : Counting := {| dims := 1; times_trained := 0 |}.
Definition doubling : Proportional := {| trained := true; slope := 2 |}.
Definition untrained : Proportional := {| trained := false; slope := 0 |}.

(** An extension of [primitive] with the given bank. *)
Definition extension (bank : list Memory.pointer)
    : DmpWithGainSchedules.DmpWithGainSchedules Counting :=
  {| DmpWithGainSchedules.base := primitive;
     DmpWithGainSchedules.function_approximators_gains_ := bank;
     DmpWithGainSchedules.fa_gains_outputs_one_prealloc_ := Zero 1 1;
     DmpWithGainSchedules.fa_gains_outputs_prealloc_ := Zero 1 1;
     DmpWithGainSchedules.fa_gains_output_prealloc_ := Zero 1 1 |}.

(** A demonstration of two samples with [columns] auxiliary columns. *)
Definition demonstration (columns : nat) : Trajectory.Trajectory :=
  {| Trajectory.ts := [0; 1]%float;
     Trajectory.ys := Matrix 1 [[0]; [1]]%float;
     Trajectory.yds := Matrix 1 [[1]; [1]]%float;
     Trajectory.ydds := Matrix 1 [[0]; [0]]%float;
     Trajectory.misc := Matrix columns (replicate 2 (replicate columns 3%float)) |}.

(** A file system in which the directory [/missing] does not exist. *)
Definition no_directory : Files.FileSystem :=
  {| Files.files := ∅;
     Files.unwritable := {["/missing/task.txt"; "/missing/plotRollout.py"]} |}.

(** The example tasks. *)
Definition task (viapoint : VectorXd) (viapoint_time : float) (goal : VectorXd)
    (goal_time viapoint_weight acceleration_weight goal_weight : float)
    : TaskViapoint.TaskViapoint :=
  {| TaskViapoint.viapoint_ := viapoint;
     TaskViapoint.viapoint_time_ := viapoint_time;
     TaskViapoint.viapoint_radius_ := 0%float;
     TaskViapoint.goal_ := goal;
     TaskViapoint.goal_time_ := goal_time;
     TaskViapoint.viapoint_weight_ := viapoint_weight;
     TaskViapoint.acceleration_weight_ := acceleration_weight;
     TaskViapoint.goal_weight_ := goal_weight |}.

End Instances.

(** * Properties *)

(** ** Floating-point facts *)

Section floats.
Local Open Scope float_scope.

Lemma eqb_zero_inv (w : float) :
  (w =? 0) = true -> exists s, Prim2SF w = S754_zero s.
Proof.
  rewrite FloatAxioms.eqb_spec.
  change (Prim2SF 0) with (S754_zero false).
  destruct (Prim2SF w) as [s|s| |s m e]; cbn;
    try discriminate; try (destruct s; discriminate).
  eauto.
Qed.

(** A weight that compares equal to zero gives a component that does. *)
Lemma zero_weight_times_zero (w : float) :
  (w =? 0) = true -> (w * 0 =? 0) = true.
Proof.
  intros [s Hs]%eqb_zero_inv.
  rewrite FloatAxioms.eqb_spec, mul_spec, Hs.
  change (Prim2SF 0) with (S754_zero false).
  destruct s; reflexivity.
Qed.

(** A finite weight times zero compares equal to zero. *)
Lemma finite_weight_times_zero (w : float) :
  is_finite w = true -> (w * 0 =? 0) = true.
Proof.
  unfold is_finite, is_nan, is_infinity.
  rewrite !FloatAxioms.eqb_spec, abs_spec, mul_spec.
  change (Prim2SF 0) with (S754_zero false).
  change (Prim2SF infinity) with (S754_infinity false).
  destruct (Prim2SF w) as [s|s| |s m e]; try destruct s; cbn;
    try discriminate; reflexivity.
Qed.

(** The sum of two numbers that compare equal to zero does. *)
Lemma zero_plus_zero (a b : float) :
  (a =? 0) = true -> (b =? 0) = true -> (a + b =? 0) = true.
Proof.
  intros [s Hs]%eqb_zero_inv [t Ht]%eqb_zero_inv.
  rewrite FloatAxioms.eqb_spec, add_spec, Hs, Ht.
  change (Prim2SF 0) with (S754_zero false).
  destruct s, t; reflexivity.
Qed.

End floats.

(** ** The outcome monad *)

Lemma bind_Returns {A B} (m : outcome A) (k : A -> outcome B) (a : A) :
  m = Returns a -> m ≫= k = k a.
Proof. intros ->. reflexivity. Qed.

Lemma eigen_assert_true (b : bool) : b = true -> eigen_assert b = Returns tt.
Proof. intros ->. reflexivity. Qed.

Lemma c_assert_true (b : bool) : b = true -> c_assert b = Returns tt.
Proof. intros ->. reflexivity. Qed.

(** ** TaskViapoint: the cost function *)

Section costs.
Import Eigen TaskViapoint.
Variable TIME_AT_MINIMUM_DIST : float.

Lemma rollout_shape_inv task ts y :
  Spec.rollout_shape task ts y = true ->
  rows y = length ts /\ cols y = length (viapoint_ task)
  /\ cols y = length (goal_ task)
  /\ forall r, r ∈ row_data y -> length r = cols y.
Proof.
  unfold Spec.rollout_shape. intros H.
  apply andb_prop in H as [H Hrows]. apply andb_prop in H as [H Hg].
  apply andb_prop in H as [Ht Hv].
  apply Nat.eqb_eq in Ht, Hv, Hg.
  repeat split; try done.
  intros r Hr. rewrite forallb_forall in Hrows.
  apply Nat.eqb_eq, Hrows, list_elem_of_In, Hr.
Qed.

(** The scan stops at the first sample that is not before [time]. *)
Lemma time_step_at_le ts time : time_step_at ts time <= length ts.
Proof. induction ts as [|t ts IH]; simpl; [lia|]. destruct (t <? time)%float; simpl; lia. Qed.

Lemma time_step_at_all_before ts time :
  Forall (fun t => (t <? time)%float = true) ts -> time_step_at ts time = length ts.
Proof.
  induction 1 as [|t ts Ht _ IH]; simpl; [done|]. by rewrite Ht, IH.
Qed.

Lemma dist_to_viapoint_returns task ts y :
  Spec.rollout_shape task ts y = true ->
  Spec.viapoint_time_in_range TIME_AT_MINIMUM_DIST task ts = true ->
  exists dist, dist_to_viapoint TIME_AT_MINIMUM_DIST task ts y = Returns dist.
Proof.
  intros (Hrows & Hv & _ & Hwide)%rollout_shape_inv Hrange.
  unfold Spec.viapoint_time_in_range in Hrange. unfold dist_to_viapoint.
  destruct (viapoint_weight_ task =? 0)%float; simpl in *; [eauto|].
  destruct (viapoint_time_ task =? TIME_AT_MINIMUM_DIST)%float.
  - apply Nat.ltb_lt in Hrange.
    unfold rowwise_sub. rewrite eigen_assert_true by by apply Nat.eqb_eq.
    simpl. unfold rowwise_squaredNorm. simpl.
    unfold rows in Hrows. destruct (row_data y) as [|r rs]; simpl in *; [lia|].
    eauto.
  - rewrite c_assert_true by done. simpl.
    apply Nat.ltb_lt in Hrange. unfold row.
    destruct (row_data y !! time_step_at ts (viapoint_time_ task)) as [r|] eqn:Hr.
    + simpl. unfold vec_sub. rewrite eigen_assert_true; [simpl; eauto|].
      apply Nat.eqb_eq. rewrite <- Hv. apply Hwide. eapply list_elem_of_lookup_2, Hr.
    + apply lookup_ge_None in Hr. unfold rows in Hrows. lia.
Qed.

Lemma delay_cost_returns task ts y :
  Spec.rollout_shape task ts y = true ->
  exists delay, delay_cost task ts y = Returns delay.
Proof.
  intros (Hrows & _ & Hg & _)%rollout_shape_inv. unfold delay_cost.
  destruct (goal_weight_ task =? 0)%float; simpl; [eauto|].
  unfold bottomRows. rewrite eigen_assert_true by (apply Nat.leb_le; lia).
  simpl. unfold rowwise_sub. simpl.
  rewrite eigen_assert_true by by apply Nat.eqb_eq.
  simpl. eauto.
Qed.

(** [computeCosts] in terms of its three parts. *)
Lemma computeCosts_parts task ts y ydd dist delay :
  dist_to_viapoint TIME_AT_MINIMUM_DIST task ts y = Returns dist ->
  delay_cost task ts y = Returns delay ->
  computeCosts TIME_AT_MINIMUM_DIST task ts y ydd =
  Returns [(viapoint_weight_ task * dist + acceleration_weight_ task * mean_ydd task ts ydd
            + goal_weight_ task * delay)%float;
           (viapoint_weight_ task * dist)%float;
           (acceleration_weight_ task * mean_ydd task ts ydd)%float;
           (goal_weight_ task * delay)%float].
Proof. unfold computeCosts. intros -> ->. reflexivity. Qed.

(** In minimum-distance mode without a radius, the distance that is weighted
    is the least squared norm: no square root is taken. *)
Lemma dist_to_viapoint_minimum_mode task ts y :
  (viapoint_weight_ task =? 0)%float = false ->
  (viapoint_time_ task =? TIME_AT_MINIMUM_DIST)%float = true ->
  (0 <? viapoint_radius_ task)%float = false ->
  dist_to_viapoint TIME_AT_MINIMUM_DIST task ts y =
  (diffs ← rowwise_sub y (viapoint_ task); minCoeff (map squaredNorm (row_data diffs))).
Proof.
  intros Hw Ht Hr. unfold dist_to_viapoint. rewrite Hw, Ht, Hr. simpl.
  destruct (rowwise_sub y (viapoint_ task)) as [diffs|]; simpl; [|done].
  unfold rowwise_squaredNorm. by destruct (minCoeff _).
Qed.

End costs.

Section cost_claims.
Import Eigen TaskViapoint.
Local Open Scope float_scope.

(** C1, evaluated on the code.  The claim: in minimum-distance mode the
    distance is the Euclidean one, the least square root of the squared norm.
    A rollout of two samples [(3,4)] and [(6,8)] with the viapoint at the
    origin is at distance 5 from it.  [computeCosts], with viapoint weight 1 and
    no radius, returns 25 as viapoint component: line 74 takes the least
    squared norm and no root, where the branch for a viapoint time (line 88)
    takes one. *)
Theorem minimum_distance_mode_takes_no_root :
  computeCosts (-1) (Instances.task [0; 0] (-1) [1; 1] 0 1 0 0) [0; 1]
    (Matrix 2 [[3; 4]; [6; 8]]) (Matrix 2 [[0; 0]; [0; 0]])
  = Returns [25; 25; 0; 0]
  /\ Spec.minimum_distance (Matrix 2 [[3; 4]; [6; 8]]) [0; 0] = Returns 5.
Proof. split; vm_compute; reflexivity. Qed.

(** C2 as stated fails: for one sample of two dimensions with accelerations
    [(1,1)] and acceleration weight 1, the mean over the [T*D = 2] entries is
    1, and the component [computeCosts] returns is 2. *)
Lemma smoothness_is_not_the_mean_over_all_entries :
  computeCosts (-1) (Instances.task [0; 0] (-1) [1; 1] 0 0 1 0) [0]
    (Matrix 2 [[0; 0]]) (Matrix 2 [[1; 1]])
  = Returns [2; 0; 2; 0]
  /\ Spec.smoothness (Instances.task [0; 0] (-1) [1; 1] 0 0 1 0) (Matrix 2 [[1; 1]]) = 1
  /\ (2 =? 1) = false.
Proof. repeat split; vm_compute; reflexivity. Qed.

(** C2, amended.  For every rollout of [T] samples that [computeCosts]
    accepts and a nonzero acceleration weight, the smoothness component is the
    acceleration weight times the sum of the squared accelerations over all
    entries divided by the number of samples [T] (not by [T*D]).  The squares
    are added in the order of [coefficients], column by column. *)
Theorem smoothness_component TIME_AT_MINIMUM_DIST task ts y ydd :
  (acceleration_weight_ task =? 0) = false ->
  Spec.rollout_shape task ts y = true ->
  Spec.viapoint_time_in_range TIME_AT_MINIMUM_DIST task ts = true ->
  exists total viapoint_cost goal_cost,
    computeCosts TIME_AT_MINIMUM_DIST task ts y ydd =
    Returns [total; viapoint_cost;
             acceleration_weight_ task
             * (sum (map pow2 (coefficients ydd)) / of_int (length ts));
             goal_cost].
Proof.
  intros Hw Hshape Hrange.
  destruct (dist_to_viapoint_returns _ _ _ _ Hshape Hrange) as [dist Hdist].
  destruct (delay_cost_returns _ _ _ Hshape) as [delay Hdelay].
  rewrite (computeCosts_parts _ _ _ _ _ _ _ Hdist Hdelay).
  unfold mean_ydd. rewrite Hw. simpl. eauto.
Qed.

Lemma smoothness_component_witness :
  exists total viapoint_cost goal_cost,
    computeCosts (-1) (Instances.task [0; 0] (-1) [1; 1] 0 0 1 0) [0; 1]
      (Matrix 2 [[0; 0]; [0; 0]]) (Matrix 2 [[0.1; 0.1]; [0.3; 0.1]])
    = Returns [total; viapoint_cost;
               1 * (sum [0.1 * 0.1; 0.3 * 0.3; 0.1 * 0.1; 0.1 * 0.1] / of_int 2);
               goal_cost].
Proof.
  apply (smoothness_component (-1) (Instances.task [0; 0] (-1) [1; 1] 0 0 1 0) [0; 1]
           (Matrix 2 [[0; 0]; [0; 0]]) (Matrix 2 [[0.1; 0.1]; [0.3; 0.1]]));
    reflexivity.
Defined.

(** The order of the additions shows in the result.  For the accelerations
    [(0.1, 0.1)] and [(0.3, 0.1)] the squares added column by column, as
    line 104 adds them, and the squares added row by row differ in the last
    place. *)
Example smoothness_is_added_column_by_column :
  computeCosts (-1) (Instances.task [0; 0] (-1) [1; 1] 0 0 1 0) [0; 1]
    (Matrix 2 [[0; 0]; [0; 0]]) (Matrix 2 [[0.1; 0.1]; [0.3; 0.1]])
  = Returns [0.060000000000000012; 0; 0.060000000000000012; 0]
  /\ sum (map pow2 (coefficients (Matrix 2 [[0.1; 0.1]; [0.3; 0.1]])))
     = 0.12000000000000002
  /\ sum (map pow2 (concat (row_data (Matrix 2 [[0.1; 0.1]; [0.3; 0.1]])))) = 0.12.
Proof. repeat split; vm_compute; reflexivity. Qed.

End cost_claims.

Section layout_claims.
Import Eigen TaskViapoint.
Local Open Scope float_scope.

Lemma dist_to_viapoint_zero_weight TIME_AT_MINIMUM_DIST task ts y :
  (viapoint_weight_ task =? 0) = true ->
  dist_to_viapoint TIME_AT_MINIMUM_DIST task ts y = Returns 0.
Proof. intros H. unfold dist_to_viapoint. by rewrite H. Qed.

Lemma delay_cost_zero_weight task ts y :
  (goal_weight_ task =? 0) = true -> delay_cost task ts y = Returns 0.
Proof. intros H. unfold delay_cost. by rewrite H. Qed.

(** With all three weights equal to zero no part of the rollout is looked
    at: every input gets four costs that are equal to zero. *)
Lemma all_weights_zero TIME_AT_MINIMUM_DIST task ts y ydd :
  (viapoint_weight_ task =? 0) = true ->
  (acceleration_weight_ task =? 0) = true ->
  (goal_weight_ task =? 0) = true ->
  exists total viapoint_cost acceleration_cost goal_cost,
    computeCosts TIME_AT_MINIMUM_DIST task ts y ydd
    = Returns [total; viapoint_cost; acceleration_cost; goal_cost]
    /\ (total =? 0) = true /\ (viapoint_cost =? 0) = true
    /\ (acceleration_cost =? 0) = true /\ (goal_cost =? 0) = true.
Proof.
  intros Hv Ha Hg.
  rewrite (computeCosts_parts _ _ _ _ _ 0 0)
    by auto using dist_to_viapoint_zero_weight, delay_cost_zero_weight.
  unfold mean_ydd. rewrite Ha. simpl.
  do 4 eexists. split; [done|].
  auto 10 using zero_plus_zero, zero_weight_times_zero.
Qed.

(** C3 as stated fails: not every input gets a cost vector.  With a nonzero
    viapoint weight and a viapoint time (5) after the only sample (at 0), the
    scan leaves the index at [ts.size()] and the assertion of line 85 ends
    the call. *)
Lemma no_costs_when_viapoint_time_is_after_the_samples :
  computeCosts (-1) (Instances.task [0] 5 [1] 0 1 0 0) [0]
    (Matrix 1 [[2]]) (Matrix 1 [[0]])
  = Aborts AssertionFailed
  /\ (forall costs,
        computeCosts (-1) (Instances.task [0] 5 [1] 0 1 0 0) [0]
          (Matrix 1 [[2]]) (Matrix 1 [[0]])
        <> Returns costs).
Proof. split; [vm_compute; reflexivity|]. intros costs. vm_compute. discriminate. Qed.

(** C3, amended.  For every rollout of the task's shape whose viapoint time
    is in range, and for every combination of the three weights,
    [computeCosts] returns a vector of length 4 = 1 +
    [getNumberOfCostComponents()], laid out as [total, viapoint_cost,
    acceleration_cost, goal_cost], where the three components are the
    weighted distance to the viapoint, mean squared acceleration and delay
    cost; the total is the sum of the three components as line 126 adds them;
    a component whose weight compares equal to zero compares equal to zero,
    and so does the total when all three weights do. *)
Theorem cost_vector_layout TIME_AT_MINIMUM_DIST task ts y ydd :
  Spec.rollout_shape task ts y = true ->
  Spec.viapoint_time_in_range TIME_AT_MINIMUM_DIST task ts = true ->
  exists dist delay total viapoint_cost acceleration_cost goal_cost,
    dist_to_viapoint TIME_AT_MINIMUM_DIST task ts y = Returns dist
    /\ delay_cost task ts y = Returns delay
    /\ viapoint_cost = viapoint_weight_ task * dist
    /\ acceleration_cost = acceleration_weight_ task * mean_ydd task ts ydd
    /\ goal_cost = goal_weight_ task * delay
    /\ computeCosts TIME_AT_MINIMUM_DIST task ts y ydd
       = Returns [total; viapoint_cost; acceleration_cost; goal_cost]
    /\ length [total; viapoint_cost; acceleration_cost; goal_cost]
       = (1 + getNumberOfCostComponents task)%nat
    /\ total = viapoint_cost + acceleration_cost + goal_cost
    /\ ((viapoint_weight_ task =? 0) = true -> (viapoint_cost =? 0) = true)
    /\ ((acceleration_weight_ task =? 0) = true -> (acceleration_cost =? 0) = true)
    /\ ((goal_weight_ task =? 0) = true -> (goal_cost =? 0) = true)
    /\ ((viapoint_weight_ task =? 0) = true ->
        (acceleration_weight_ task =? 0) = true ->
        (goal_weight_ task =? 0) = true -> (total =? 0) = true).
Proof.
  intros Hshape Hrange.
  destruct (dist_to_viapoint_returns _ _ _ _ Hshape Hrange) as [dist Hdist].
  destruct (delay_cost_returns _ _ _ Hshape) as [delay Hdelay].
  assert (Hv : (viapoint_weight_ task =? 0) = true ->
               (viapoint_weight_ task * dist =? 0) = true).
  { intros Hw. rewrite (dist_to_viapoint_zero_weight _ _ _ _ Hw) in Hdist.
    injection Hdist as <-. by apply zero_weight_times_zero. }
  assert (Ha : (acceleration_weight_ task =? 0) = true ->
               (acceleration_weight_ task * mean_ydd task ts ydd =? 0) = true).
  { intros Hw. unfold mean_ydd. rewrite Hw. simpl. by apply zero_weight_times_zero. }
  assert (Hg : (goal_weight_ task =? 0) = true ->
               (goal_weight_ task * delay =? 0) = true).
  { intros Hw. rewrite (delay_cost_zero_weight _ _ _ Hw) in Hdelay.
    injection Hdelay as <-. by apply zero_weight_times_zero. }
  exists dist, delay. do 4 eexists.
  split; [exact Hdist|]. split; [exact Hdelay|]. do 3 (split; [reflexivity|]).
  split; [by apply computeCosts_parts|].
  repeat split; try done.
  intros Hwv Hwa Hwg. auto using zero_plus_zero.
Qed.

Lemma cost_vector_layout_witness :
  exists dist delay total viapoint_cost acceleration_cost goal_cost,
    dist_to_viapoint (-1) (Instances.task [1] 2 [2] 5 1 0 1) [0; 2; 5; 6]
      (Matrix 1 [[0]; [1]; [2]; [2]]) = Returns dist
    /\ delay_cost (Instances.task [1] 2 [2] 5 1 0 1) [0; 2; 5; 6]
         (Matrix 1 [[0]; [1]; [2]; [2]]) = Returns delay
    /\ viapoint_cost = 1 * dist
    /\ acceleration_cost
       = 0 * mean_ydd (Instances.task [1] 2 [2] 5 1 0 1) [0; 2; 5; 6]
               (Matrix 1 [[0]; [0]; [0]; [0]])
    /\ goal_cost = 1 * delay
    /\ computeCosts (-1) (Instances.task [1] 2 [2] 5 1 0 1) [0; 2; 5; 6]
         (Matrix 1 [[0]; [1]; [2]; [2]]) (Matrix 1 [[0]; [0]; [0]; [0]])
       = Returns [total; viapoint_cost; acceleration_cost; goal_cost]
    /\ length [total; viapoint_cost; acceleration_cost; goal_cost]
       = (1 + getNumberOfCostComponents (Instances.task [1] 2 [2] 5 1 0 1)%float)%nat
    /\ total = viapoint_cost + acceleration_cost + goal_cost
    /\ ((1 =? 0) = true -> (viapoint_cost =? 0) = true)
    /\ ((0 =? 0) = true -> (acceleration_cost =? 0) = true)
    /\ ((1 =? 0) = true -> (goal_cost =? 0) = true)
    /\ ((1 =? 0) = true -> (0 =? 0) = true -> (1 =? 0) = true -> (total =? 0) = true).
Proof.
  apply (cost_vector_layout (-1) (Instances.task [1] 2 [2] 5 1 0 1) [0; 2; 5; 6]
           (Matrix 1 [[0]; [1]; [2]; [2]]) (Matrix 1 [[0]; [0]; [0]; [0]]));
    reflexivity.
Defined.

(** The scenario of the specification: D = 1, viapoint 1 at time 2, goal 2 at
    time 5, weights (1, 0, 1), a trajectory on the viapoint at time 2 and on the
    goal from time 5 on. *)
Example scenario_total_cost_zero :
  computeCosts (-1) (Instances.task [1] 2 [2] 5 1 0 1) [0; 2; 5; 6]
    (Matrix 1 [[0]; [1]; [2]; [2]]) (Matrix 1 [[0]; [0]; [0]; [0]])
  = Returns [0; 0; 0; 0].
Proof. vm_compute. reflexivity. Qed.

(** C10.  With a nonzero goal weight and a goal time after every sample, the
    scan of line 111 runs to [ts.size()], no row is left after the goal time,
    and the summed squared distance is 0: the goal part of [computeCosts] does
    not fail, and whenever the viapoint part returns, the call returns with
    the goal component [goal_weight * 0], which compares equal to zero for
    every finite weight.  The viapoint lookup, by contrast, ends in the
    assertion of line 85 when its time is after every sample. *)
Theorem goal_time_after_every_sample TIME_AT_MINIMUM_DIST task ts y ydd dist :
  (goal_weight_ task =? 0) = false ->
  Forall (fun t => (t <? goal_time_ task) = true) ts ->
  cols y = length (goal_ task) ->
  dist_to_viapoint TIME_AT_MINIMUM_DIST task ts y = Returns dist ->
  time_step_at ts (goal_time_ task) = length ts
  /\ delay_cost task ts y = Returns 0
  /\ (exists total viapoint_cost acceleration_cost,
        computeCosts TIME_AT_MINIMUM_DIST task ts y ydd
        = Returns [total; viapoint_cost; acceleration_cost; goal_weight_ task * 0])
  /\ (is_finite (goal_weight_ task) = true -> (goal_weight_ task * 0 =? 0) = true)
  /\ (forall task',
        (viapoint_weight_ task' =? 0) = false ->
        (viapoint_time_ task' =? TIME_AT_MINIMUM_DIST) = false ->
        Forall (fun t => (t <? viapoint_time_ task') = true) ts ->
        dist_to_viapoint TIME_AT_MINIMUM_DIST task' ts y = Aborts AssertionFailed).
Proof.
  intros Hw Hts Hcols Hdist.
  pose proof (time_step_at_all_before _ _ Hts) as Hstep.
  assert (Hdelay : delay_cost task ts y = Returns 0).
  { unfold delay_cost. rewrite Hw, Hstep, Nat.sub_diag. simpl.
    unfold bottomRows. simpl. rewrite Nat.sub_0_r. unfold rows at 1.
    rewrite drop_all. unfold rowwise_sub. simpl.
    rewrite eigen_assert_true by by apply Nat.eqb_eq. reflexivity. }
  repeat split; try done.
  - rewrite (computeCosts_parts _ _ _ _ _ _ _ Hdist Hdelay). eauto.
  - apply finite_weight_times_zero.
  - intros task' Hw' Hmode Hts'. unfold dist_to_viapoint.
    rewrite Hw', Hmode, (time_step_at_all_before _ _ Hts'), Nat.ltb_irrefl.
    reflexivity.
Qed.

Lemma goal_time_after_every_sample_witness :
  time_step_at [0; 1] 9 = 2%nat
  /\ delay_cost (Instances.task [1] 1 [2] 9 1 0 1) [0; 1] (Matrix 1 [[0]; [1]]) = Returns 0
  /\ (exists total viapoint_cost acceleration_cost,
        computeCosts (-1) (Instances.task [1] 1 [2] 9 1 0 1) [0; 1]
          (Matrix 1 [[0]; [1]]) (Matrix 1 [[0]; [0]])
        = Returns [total; viapoint_cost; acceleration_cost; 1 * 0])
  /\ (is_finite 1 = true -> (1 * 0 =? 0) = true)
  /\ (forall task',
        (viapoint_weight_ task' =? 0) = false ->
        (viapoint_time_ task' =? -1) = false ->
        Forall (fun t => (t <? viapoint_time_ task') = true) [0; 1] ->
        dist_to_viapoint (-1) task' [0; 1] (Matrix 1 [[0]; [1]]) = Aborts AssertionFailed).
Proof.
  apply (goal_time_after_every_sample (-1) (Instances.task [1] 1 [2] 9 1 0 1) [0; 1]
           (Matrix 1 [[0]; [1]]) (Matrix 1 [[0]; [0]]) 0).
  - reflexivity.
  - repeat constructor.
  - reflexivity.
  - reflexivity.
Defined.

End layout_claims.

(** ** TaskViapoint: files *)

Section files.
Import Eigen TaskViapoint.
Variable TIME_AT_MINIMUM_DIST : float.
Variable show_double : Files.floatfield -> float -> string.
Variable parse_double : string -> float.

Local Abbreviation written := (Spec.written show_double).

Lemma written_app v1 v2 : written (v1 ++ v2) = written v1 ++ written v2.
Proof. apply bind_app. Qed.

Lemma open_writable filename fs :
  filename ∉ Files.unwritable fs ->
  Files.open filename fs =
  ({| Files.attached := Some filename; Files.format := Files.defaultfloat |},
   {| Files.files := <[filename := []]> (Files.files fs);
      Files.unwritable := Files.unwritable fs |}).
Proof. intros H. unfold Files.open. by rewrite decide_False. Qed.

Lemma open_unwritable filename fs :
  filename ∈ Files.unwritable fs ->
  Files.open filename fs =
  ({| Files.attached := None; Files.format := Files.defaultfloat |}, fs).
Proof. intros H. unfold Files.open. by rewrite decide_True. Qed.

Lemma put_double_attached x filename c m u :
  put_double show_double x
    {| Files.attached := Some filename; Files.format := Files.defaultfloat |}
    {| Files.files := <[filename := c]> m; Files.unwritable := u |}
  = {| Files.files := <[filename := c ++ written [x]]> m; Files.unwritable := u |}.
Proof.
  unfold put_double, Files.put. simpl.
  by rewrite !alter_insert_eq, <- app_assoc.
Qed.

Lemma put_doubles_attached v filename c m u :
  put_doubles show_double v
    {| Files.attached := Some filename; Files.format := Files.defaultfloat |}
    {| Files.files := <[filename := c]> m; Files.unwritable := u |}
  = {| Files.files := <[filename := c ++ written v]> m; Files.unwritable := u |}.
Proof.
  unfold put_doubles. revert c.
  induction v as [|x v IH]; intros c; simpl.
  - by rewrite app_nil_r.
  - rewrite put_double_attached, IH. unfold written. simpl.
    by rewrite <- !app_assoc.
Qed.

Lemma put_doubles_unattached v fmt fs :
  put_doubles show_double v {| Files.attached := None; Files.format := fmt |} fs = fs.
Proof. unfold put_doubles. induction v as [|x v IH]; simpl; [done|]. apply IH. Qed.

Lemma put_all_unattached chunks fmt fs :
  Files.put_all chunks {| Files.attached := None; Files.format := fmt |} fs = fs.
Proof. unfold Files.put_all. induction chunks as [|c cs IH]; simpl; [done|]. apply IH. Qed.

(** What [writeToFile] leaves in a file it could open. *)
Lemma writeToFile_writable task filename fs :
  filename ∉ Files.unwritable fs ->
  writeToFile show_double task filename fs =
  (true, {| Files.files := <[filename := written (Spec.record task)]> (Files.files fs);
            Files.unwritable := Files.unwritable fs |}).
Proof.
  intros H. unfold writeToFile. rewrite (open_writable _ _ H).
  rewrite !put_doubles_attached, !put_double_attached, !put_doubles_attached,
    !put_double_attached.
  unfold Spec.record. rewrite !written_app, <- !app_assoc. reflexivity.
Qed.

(** [writeToFile] never looks at whether the file was opened. *)
Lemma writeToFile_unwritable task filename fs :
  filename ∈ Files.unwritable fs ->
  writeToFile show_double task filename fs = (true, fs).
Proof.
  intros H. unfold writeToFile. rewrite (open_unwritable _ _ H).
  unfold put_double. simpl.
  by rewrite !put_doubles_unattached.
Qed.

(** [savePlotRolloutScript] does. *)
Lemma savePlotRolloutScript_unwritable task directory fs :
  directory +:+ "/plotRollout.py" ∈ Files.unwritable fs ->
  savePlotRolloutScript show_double task directory fs = (false, fs).
Proof.
  intros H. unfold savePlotRolloutScript. by rewrite (open_unwritable _ _ H).
Qed.

Lemma numbers_of_written v :
  (forall x, Files.is_blank (show_double Files.defaultfloat x) = false) ->
  map parse_double (filter (fun c => Files.is_blank c = false) (written v))
  = map (Spec.reparse show_double parse_double) v.
Proof.
  intros Hshow.
  induction v as [|x v IH]; [done|].
  change (written (x :: v))
    with (show_double Files.defaultfloat x :: " " :: written v).
  rewrite filter_cons_True by apply Hshow.
  rewrite filter_cons_False by done.
  simpl. by rewrite IH.
Qed.

Lemma loadMatrix_written filename fs v :
  (forall x, Files.is_blank (show_double Files.defaultfloat x) = false) ->
  Files.files fs !! filename = Some (written v) ->
  v <> [] ->
  Files.loadMatrix parse_double filename fs
  = Matrix (length v) [map (Spec.reparse show_double parse_double) v].
Proof.
  intros Hshow Hfile Hv. unfold Files.loadMatrix.
  rewrite Hfile, (numbers_of_written _ Hshow).
  destruct v as [|x v]; [done|]. simpl. by rewrite length_map.
Qed.

Lemma coeff_at (v : VectorXd) (i : Z) (n : nat) x :
  i = Z.of_nat n -> v !! n = Some x -> coeff v i = Returns x.
Proof.
  intros -> Hx. unfold coeff.
  rewrite eigen_assert_true by (apply Z.leb_le; lia). simpl.
  by rewrite Nat2Z.id, Hx.
Qed.

(** The fields of a record, read at the offsets of [readFromFile]. *)
Lemma record_fields (V G : VectorXd) a b c d e f :
  length G = length V ->
  let vector := V ++ [a; b] ++ G ++ [c; d; e; f] in
  let n_dims := Z.of_nat (length V) in
  ((Z.of_nat (length vector) - 6) `quot` 2)%Z = n_dims
  /\ head vector n_dims = Returns V
  /\ coeff vector n_dims = Returns a
  /\ coeff vector (n_dims + 1) = Returns b
  /\ segment vector (n_dims + 2) n_dims = Returns G
  /\ coeff vector (2 * n_dims + 2) = Returns c
  /\ coeff vector (2 * n_dims + 3) = Returns d
  /\ coeff vector (2 * n_dims + 4) = Returns e
  /\ coeff vector (2 * n_dims + 5) = Returns f.
Proof.
  intros HG vector n_dims.
  assert (Hlen : length vector = (2 * length V + 6)%nat).
  { unfold vector. rewrite !length_app. simpl. lia. }
  assert (Hlook : forall k x, ([a; b] ++ G ++ [c; d; e; f]) !! k = Some x ->
                              vector !! (length V + k)%nat = Some x).
  { intros k x Hk. unfold vector. by rewrite lookup_app_r, Nat.add_sub' by lia. }
  assert (Htail : forall k x, [c; d; e; f] !! k = Some x ->
                              vector !! (length V + (2 + (length V + k)))%nat = Some x).
  { intros k x Hk. apply Hlook. simpl.
    rewrite lookup_app_r by lia. by replace (_ - _)%nat with k by lia. }
  repeat split.
  - rewrite Hlen.
    replace (Z.of_nat (2 * length V + 6) - 6)%Z with (n_dims * 2)%Z by lia.
    by apply Z.quot_mul.
  - unfold head. rewrite eigen_assert_true by (apply andb_true_intro; split; apply Z.leb_le; lia).
    simpl. unfold n_dims, vector. by rewrite Nat2Z.id, take_app_length.
  - apply (coeff_at _ _ (length V + 0)); [lia|]. by apply Hlook.
  - apply (coeff_at _ _ (length V + 1)); [lia|]. by apply Hlook.
  - unfold segment.
    rewrite eigen_assert_true
      by (repeat (apply andb_true_intro; split); apply Z.leb_le; lia).
    simpl. unfold vector, n_dims.
    replace (Z.to_nat (Z.of_nat (length V) + 2)) with (length (V ++ [a; b]))
      by (rewrite length_app; simpl; lia).
    by rewrite Nat2Z.id, (app_assoc V), drop_app_length, <- HG, take_app_length.
  - apply (coeff_at _ _ (length V + (2 + (length V + 0)))); [lia|]. by apply Htail.
  - apply (coeff_at _ _ (length V + (2 + (length V + 1)))); [lia|]. by apply Htail.
  - apply (coeff_at _ _ (length V + (2 + (length V + 2)))); [lia|]. by apply Htail.
  - apply (coeff_at _ _ (length V + (2 + (length V + 3)))); [lia|]. by apply Htail.
Qed.

(** C9.  A task whose viapoint and goal have the same dimensionality [D] (the
    claim takes [D = 2]), written by [writeToFile] to a file that can be
    opened and read back by [readFromFile]: the file holds the single row
    [viapoint(D), viapoint_time, viapoint_radius, goal(D), goal_time,
    viapoint_weight, acceleration_weight, goal_weight], each number followed by
    a blank; [(total_fields - 6) / 2] is [D]; and every field of the task read
    back is the field written, up to writing and parsing one number -- except
    that a viapoint time which parses as negative is read as the sentinel
    [TIME_AT_MINIMUM_DIST].  The radius read back passes the assertion of the
    constructor. *)
Theorem write_then_read task filename fs :
  let reparse := Spec.reparse show_double parse_double in
  filename ∉ Files.unwritable fs ->
  (forall x, Files.is_blank (show_double Files.defaultfloat x) = false) ->
  length (viapoint_ task) = length (goal_ task) ->
  (0 <=? reparse (viapoint_radius_ task))%float = true ->
  exists fs',
    writeToFile show_double task filename fs = (true, fs')
    /\ Files.files fs' !! filename = Some (Spec.written show_double (Spec.record task))
    /\ ((Z.of_nat (length (Spec.record task)) - 6) `quot` 2)%Z
       = Z.of_nat (length (viapoint_ task))
    /\ readFromFile TIME_AT_MINIMUM_DIST parse_double filename fs'
       = Returns
           {| viapoint_ := map reparse (viapoint_ task);
              viapoint_time_ :=
                if (reparse (viapoint_time_ task) <? 0)%float
                then TIME_AT_MINIMUM_DIST
                else reparse (viapoint_time_ task);
              viapoint_radius_ := reparse (viapoint_radius_ task);
              goal_ := map reparse (goal_ task);
              goal_time_ := reparse (goal_time_ task);
              viapoint_weight_ := reparse (viapoint_weight_ task);
              acceleration_weight_ := reparse (acceleration_weight_ task);
              goal_weight_ := reparse (goal_weight_ task) |}.
Proof.
  intros reparse Hopen Hshow Hdims Hradius.
  eexists. split; [by apply writeToFile_writable|]. simpl.
  split; [by rewrite lookup_insert_eq|].
  destruct (record_fields (viapoint_ task) (goal_ task) (viapoint_time_ task)
              (viapoint_radius_ task) (goal_time_ task) (viapoint_weight_ task)
              (acceleration_weight_ task) (goal_weight_ task) (eq_sym Hdims))
    as (Hn & _).
  split; [exact Hn|].
  unfold readFromFile.
  rewrite (loadMatrix_written filename _ (Spec.record task) Hshow);
    [|by simpl; rewrite lookup_insert_eq
     |by unfold Spec.record; destruct (viapoint_ task)].
  unfold row. simpl.
  unfold Spec.record. rewrite !map_app. simpl. fold reparse.
  destruct (record_fields (map reparse (viapoint_ task)) (map reparse (goal_ task))
              (reparse (viapoint_time_ task)) (reparse (viapoint_radius_ task))
              (reparse (goal_time_ task)) (reparse (viapoint_weight_ task))
              (reparse (acceleration_weight_ task)) (reparse (goal_weight_ task)))
    as (Hq & Hhead & Hvt & Hr & Hgoal & Hgt & Hwv & Hwa & Hwg).
  { by rewrite !length_map. }
  simpl in Hq, Hhead, Hvt, Hr, Hgoal, Hgt, Hwv, Hwa, Hwg.
  rewrite Hq, Hhead. simpl. rewrite Hvt. simpl. rewrite Hr. simpl.
  rewrite Hgoal. simpl. rewrite Hgt. simpl. rewrite Hwv. simpl.
  rewrite Hwa. simpl. rewrite Hwg. simpl.
  unfold construct. rewrite Hradius. simpl.
  rewrite !length_map, Hdims, Nat.eqb_refl. reflexivity.
Qed.

End files.

Lemma show_demo_not_blank x :
  Files.is_blank (Instances.show_demo Files.defaultfloat x) = false.
Proof. unfold Instances.show_demo. by repeat case_match. Qed.

(** A task with [D = 2], written and read back with the demonstration
    printer, for which every number of the task survives the round trip. *)
Lemma write_then_read_witness :
  exists fs',
    TaskViapoint.writeToFile Instances.show_demo
      (Instances.task [1; 2] 0.5 [2; 0] 1 1 0 0.5)%float "task.txt"
      {| Files.files := ∅; Files.unwritable := ∅ |} = (true, fs')
    /\ Files.files fs' !! "task.txt"
       = Some ["1"; " "; "2"; " "; "0.5"; " "; "0"; " "; "2"; " "; "0"; " ";
               "1"; " "; "1"; " "; "0"; " "; "0.5"; " "]
    /\ ((10 - 6) `quot` 2)%Z = 2%Z
    /\ TaskViapoint.readFromFile (-1)%float Instances.parse_demo "task.txt" fs'
       = Returns (Instances.task [1; 2] 0.5 [2; 0] 1 1 0 0.5)%float.
Proof.
  apply (write_then_read (-1)%float Instances.show_demo Instances.parse_demo
           (Instances.task [1; 2] 0.5 [2; 0] 1 1 0 0.5)%float "task.txt"
           {| Files.files := ∅; Files.unwritable := ∅ |}).
  - simpl. apply not_elem_of_empty.
  - apply show_demo_not_blank.
  - reflexivity.
  - reflexivity.
Defined.

(** A stored viapoint time that is negative is read as the sentinel, here
    for a file written by hand. *)
Example negative_time_is_read_as_sentinel :
  TaskViapoint.readFromFile (-1)%float Instances.parse_demo "task.txt"
    {| Files.files := {["task.txt" := ["1"; " "; "-2"; " "; "0"; " "; "2"; " ";
                                        "1"; " "; "1"; " "; "0"; " "; "0.5"; " "]]};
       Files.unwritable := ∅ |}
  = Returns (Instances.task [1] (-1) [2] 1 1 0 0.5)%float.
Proof. vm_compute. reflexivity. Qed.

(** C8, evaluated on the code.  The claim: a file-writing operation that
    cannot open its file returns false.  In a file system without the
    directory [/missing], [writeToFile] on [/missing/task.txt] returns true and
    writes nothing: lines 207-220 never test the stream.
    [savePlotRolloutScript], which tests [is_open()] (line 230), returns false
    there. *)
Theorem writeToFile_returns_true_without_a_file :
  TaskViapoint.writeToFile Instances.show_demo
    (Instances.task [1; 2] 0.5 [2; 0] 1 1 0 0.5)%float "/missing/task.txt"
    Instances.no_directory
  = (true, Instances.no_directory)
  /\ TaskViapoint.savePlotRolloutScript Instances.show_demo
       (Instances.task [1; 2] 0.5 [2; 0] 1 1 0 0.5)%float "/missing"
       Instances.no_directory
     = (false, Instances.no_directory).
Proof.
  split.
  - apply writeToFile_unwritable. unfold Instances.no_directory. simpl. set_solver.
  - apply savePlotRolloutScript_unwritable. unfold Instances.no_directory. simpl.
    set_solver.
Qed.

(** ** DmpWithGainSchedules: the gain outputs *)

Section gains.
Import Eigen Memory DmpWithGainSchedules Spec.
Context {D FA : Type} `{!Dmp.Dmp D} `{!FunctionApproximator.FunctionApproximator FA}.
Implicit Types (this : DmpWithGainSchedules D) (h : gmap loc FA).
Implicit Types (phase_state fa_output : MatrixXd).

Lemma kept_refl this fa_output : kept this fa_output (fa_output, this).
Proof. by repeat split. Qed.

Lemma kept_trans this fa_output st st' :
  kept this fa_output st -> kept st.2 st.1 st' -> kept this fa_output st'.
Proof.
  intros (? & ? & ? & ?) (? & ? & ? & ?). repeat split; congruence.
Qed.

Lemma assign_col_returns fa_output i_dim src :
  i_dim < cols fa_output -> rows src = rows fa_output -> cols src = 1 ->
  exists out, assign_col fa_output i_dim src = Returns out
              /\ rows out = rows fa_output /\ cols out = cols fa_output.
Proof.
  intros Hi Hrows Hcols. unfold assign_col.
  rewrite eigen_assert_true.
  - simpl. eexists. split; [done|]. split; [|done].
    unfold rows in *. simpl. rewrite length_zip_with. lia.
  - apply andb_true_intro. split; [apply andb_true_intro; split|].
    + by apply Nat.ltb_lt.
    + by apply Nat.eqb_eq.
    + by apply Nat.eqb_eq.
Qed.

(** One round of the loop returns when the slot exists and, if present,
    points to a live approximator. *)
Lemma gain_output_returns h phase_state i_dim this fa_output :
  rows fa_output = rows phase_state ->
  i_dim < cols fa_output ->
  match function_approximators_gains_ this !! i_dim with
  | Some None => true
  | Some (Some l) => bool_decide (is_Some (h !! l))
  | None => false
  end = true ->
  exists st, gain_output h phase_state i_dim (fa_output, this) = Returns st
             /\ kept this fa_output st.
Proof.
  intros Hrows Hi Hslot. unfold gain_output, at_index.
  destruct (function_approximators_gains_ this !! i_dim) as [[l|]|]; [| |done].
  - apply bool_decide_eq_true in Hslot as [fa Hfa]. simpl. unfold deref.
    rewrite Hfa. simpl.
    destruct (FunctionApproximator.isTrained fa);
      [|eexists; split; [done|apply kept_refl]].
    destruct (FunctionApproximator.predict_shape fa phase_state) as [Hr Hc].
    destruct (assign_col_returns fa_output i_dim
                (FunctionApproximator.predict fa phase_state))
      as (out & Hout & ? & ?); [done|congruence|done|].
    destruct (rows phase_state =? 1); simpl; rewrite Hout; simpl;
      eexists; (split; [done|by repeat split]).
  - simpl. eexists. split; [done|apply kept_refl].
Qed.

Lemma gain_outputs_returns h phase_state i_dims : forall this fa_output,
  rows fa_output = rows phase_state ->
  Forall (fun i_dim => i_dim < cols fa_output) i_dims ->
  forallb
    (fun i_dim =>
       match function_approximators_gains_ this !! i_dim with
       | Some None => true
       | Some (Some l) => bool_decide (is_Some (h !! l))
       | None => false
       end) i_dims = true ->
  exists st, gain_outputs h phase_state i_dims (fa_output, this) = Returns st
             /\ kept this fa_output st.
Proof.
  induction i_dims as [|i_dim later IH]; intros this fa_output Hrows Hin Hslots;
    cbn [gain_outputs].
  - eexists. split; [done|apply kept_refl].
  - simpl in Hslots. apply andb_prop in Hslots as [Hslot Hslots].
    apply Forall_cons in Hin as [Hi Hin].
    destruct (gain_output_returns h phase_state i_dim this fa_output)
      as ([out this1] & -> & Hkept); [done..|].
    simpl. pose proof Hkept as (Hr & Hc & Hb & Hbank). simpl in *.
    destruct (IH this1 out) as (st & -> & Hkept'); [congruence| | |].
    + by rewrite Hc.
    + by rewrite Hbank.
    + eexists. split; [done|]. by eapply kept_trans.
Qed.

(** [computeFunctionApproximatorOutputExtendedDimensions] returns a
    [T x dim_orig()] matrix when the bank is usable. *)
Lemma gains_return h phase_state this :
  Spec.bank_usable h this = true ->
  exists fa_output this',
    computeFunctionApproximatorOutputExtendedDimensions h phase_state this
    = (Returns fa_output, this')
    /\ rows fa_output = rows phase_state
    /\ cols fa_output = Dmp.dim_orig (base this)
    /\ base this' = base this
    /\ function_approximators_gains_ this' = function_approximators_gains_ this.
Proof.
  intros Husable. unfold computeFunctionApproximatorOutputExtendedDimensions.
  set (T := rows phase_state). set (dim := Dmp.dim_orig (base this)).
  set (this1 := if 1 <? T then _ else this).
  assert (Hbase : base this1 = base this) by (unfold this1; by destruct (1 <? T)).
  assert (Hbank : function_approximators_gains_ this1 = function_approximators_gains_ this)
    by (unfold this1; by destruct (1 <? T)).
  destruct (gain_outputs_returns h phase_state (seq 0 dim) this1 (Zero T dim))
    as ([out this2] & -> & Hr & Hc & Hb & Hk).
  - unfold rows, Zero. simpl. by rewrite length_replicate.
  - apply Forall_forall. intros i Hi%elem_of_seq. simpl. lia.
  - by rewrite Hbank.
  - simpl in *. exists out, this2. repeat split; try congruence.
    + rewrite Hr. unfold rows, Zero. simpl. by rewrite length_replicate.
Qed.

(** A slot that is absent or untrained leaves [fa_output] as it is. *)
Lemma gain_output_absent_or_untrained h phase_state i_dim this fa_output p :
  function_approximators_gains_ this !! i_dim = Some p ->
  match p with
  | None => true
  | Some l =>
      match h !! l with
      | Some fa => negb (FunctionApproximator.isTrained fa)
      | None => false
      end
  end = true ->
  gain_output h phase_state i_dim (fa_output, this) = Returns (fa_output, this).
Proof.
  intros Hp Hslot. unfold gain_output, at_index. cbv beta iota. rewrite Hp. simpl.
  destruct p as [l|]; [|done]. unfold deref.
  destruct (h !! l) as [fa|]; [|done]. simpl.
  by destruct (FunctionApproximator.isTrained fa).
Qed.

(** The valid part of C4: with a bank of at least [dim_orig()] slots, all
    absent or untrained, the gains are the [T x dim_orig()] zero matrix, no
    approximator is asked for a prediction, and only the scratch buffer is
    resized (for [T > 1]). *)
Lemma zero_gains_when_absent_or_untrained h phase_state this :
  Dmp.dim_orig (base this) <= length (function_approximators_gains_ this) ->
  Spec.all_absent_or_untrained h this = true ->
  computeFunctionApproximatorOutputExtendedDimensions h phase_state this
  = (Returns (Zero (rows phase_state) (Dmp.dim_orig (base this))),
     if 1 <? rows phase_state
     then set_outputs_prealloc (Zero (rows phase_state) (Dmp.dim_orig (base this))) this
     else this).
Proof.
  intros Hlen Hall. unfold computeFunctionApproximatorOutputExtendedDimensions.
  set (T := rows phase_state). set (dim := Dmp.dim_orig (base this)).
  set (this1 := if 1 <? T then _ else this).
  assert (Hbank : function_approximators_gains_ this1 = function_approximators_gains_ this)
    by (unfold this1; by destruct (1 <? T)).
  assert (Hloop : forall i_dims, Forall (fun i => i < dim) i_dims ->
            gain_outputs h phase_state i_dims (Zero T dim, this1)
            = Returns (Zero T dim, this1)).
  { induction i_dims as [|i later IH]; intros Hin; [done|].
    apply Forall_cons in Hin as [Hi Hin]. cbn [gain_outputs].
    destruct (lookup_lt_is_Some_2 (function_approximators_gains_ this) i) as [p Hp];
      [unfold dim in Hi; lia|].
    rewrite (bind_Returns _ _ (Zero T dim, this1)); [by apply IH|].
    apply (gain_output_absent_or_untrained _ _ _ _ _ p); [by rewrite Hbank|].
    unfold Spec.all_absent_or_untrained in Hall.
    rewrite forallb_forall in Hall. apply Hall.
    apply list_elem_of_In. by eapply list_elem_of_lookup_2. }
  rewrite Hloop; [done|].
  apply Forall_forall. intros i Hi%elem_of_seq. lia.
Qed.

(** The defect behind C4: with an empty bank and a primitive of at least one
    dimension, the first round of the loop indexes the empty vector. *)
Lemma empty_bank_is_indexed h phase_state this :
  function_approximators_gains_ this = [] ->
  0 < Dmp.dim_orig (base this) ->
  (computeFunctionApproximatorOutputExtendedDimensions h phase_state this).1
  = Aborts OutOfBounds.
Proof.
  intros Hbank Hdim. unfold computeFunctionApproximatorOutputExtendedDimensions.
  destruct (Dmp.dim_orig (base this)) as [|n]; [lia|]. simpl.
  unfold gain_output, at_index. cbv beta iota.
  assert (Hnil : forall b : bool,
            function_approximators_gains_
              (if b then set_outputs_prealloc (Zero (rows phase_state) (S n)) this else this)
            = []) by (by intros []).
  by rewrite Hnil.
Qed.

End gains.

Lemma zero_gains_when_absent_or_untrained_witness :
  DmpWithGainSchedules.computeFunctionApproximatorOutputExtendedDimensions
    {[1%positive := Instances.untrained]} (Eigen.Matrix 1 [[0.25]; [0.5]]%float)
    (Instances.extension [Some 1%positive])
  = (Returns (Eigen.Zero 2 1),
     DmpWithGainSchedules.set_outputs_prealloc (Eigen.Zero 2 1)
       (Instances.extension [Some 1%positive])).
Proof.
  exact (zero_gains_when_absent_or_untrained {[1%positive := Instances.untrained]}
           (Eigen.Matrix 1 [[0.25]; [0.5]]%float) (Instances.extension [Some 1%positive])
           (le_n 1) eq_refl).
Defined.

Section steps.
Import Eigen Memory DmpWithGainSchedules.
Context {D FA : Type} `{!Dmp.Dmp D} `{!FunctionApproximator.FunctionApproximator FA}.
Implicit Types (this : DmpWithGainSchedules D) (h : gmap loc FA).

(** [x.PHASE] is the coefficient at offset [3*dim_orig()]. *)
Lemma PHASE_returns this (x : VectorXd) :
  3 * Dmp.dim_orig (base this) < length x ->
  PHASE this x = Returns (Matrix 1 [[nth (3 * Dmp.dim_orig (base this)) x 0%float]]).
Proof.
  intros Hlen. unfold PHASE. rewrite Nat.add_0_r. unfold segment.
  rewrite (bind_Returns _ _ tt)
    by (apply eigen_assert_true; repeat (apply andb_true_intro; split);
        apply Z.leb_le; lia).
  rewrite Nat2Z.id.
  destruct (lookup_lt_is_Some_2 x (3 * Dmp.dim_orig (base this))) as [v Hv]; [lia|].
  rewrite (nth_lookup_Some _ _ _ _ Hv), (drop_S _ _ _ Hv).
  reflexivity.
Qed.

Lemma transpose_row_returns (m : MatrixXd) :
  rows m = 1 -> exists v, transpose_row m = Returns v.
Proof.
  intros Hrows. unfold transpose_row. rewrite Hrows. simpl. unfold row.
  unfold rows in Hrows. destruct (row_data m) as [|r rs]; [done|]. simpl. eauto.
Qed.

(** C7.  For every [dt] and state [x] (with a usable bank, and a state vector
    that has the phase coefficient), [integrateStep] returns the state and the
    derivative that one step of the base primitive gives, and its gains are
    the gain outputs for the phase coefficient -- the one at offset
    [3*dim_orig()] -- of the updated state [x_updated], not of [x]. *)
Theorem integrateStep_gains_of_updated_phase h this (dt : float) (x : VectorXd) :
  Spec.bank_usable h this = true ->
  3 * Dmp.dim_orig (base this) < length (Dmp.integrateStep (base this) dt x).1 ->
  exists fa_output gains this',
    computeFunctionApproximatorOutputExtendedDimensions h
      (Matrix 1 [[nth (3 * Dmp.dim_orig (base this))
                      (Dmp.integrateStep (base this) dt x).1 0%float]]) this
    = (Returns fa_output, this')
    /\ transpose_row fa_output = Returns gains
    /\ integrateStep h dt x this
       = (Returns ((Dmp.integrateStep (base this) dt x).1,
                   (Dmp.integrateStep (base this) dt x).2, gains), this').
Proof.
  intros Husable Hlen.
  destruct (gains_return h
              (Matrix 1 [[nth (3 * Dmp.dim_orig (base this))
                              (Dmp.integrateStep (base this) dt x).1 0%float]])
              this Husable)
    as (fa_output & this' & Hgains & Hrows & _).
  destruct (transpose_row_returns fa_output Hrows) as [gains Hgains'].
  exists fa_output, gains, this'. repeat split; [done..|].
  unfold integrateStep, mbind, stateful_bind, get, lift. cbv beta iota.
  destruct (Dmp.integrateStep (base this) dt x) as [x_updated xd_updated].
  cbn [fst snd] in *. rewrite (PHASE_returns this x_updated Hlen).
  rewrite Hgains, Hgains'. reflexivity.
Qed.

End steps.

Lemma integrateStep_gains_of_updated_phase_witness :
  exists fa_output gains this',
    DmpWithGainSchedules.computeFunctionApproximatorOutputExtendedDimensions
      {[1%positive := Instances.doubling]}
      (Eigen.Matrix 1 [[nth 3 [0; 0; 0; 0.25 + 0.5]%float 0%float]])
      (Instances.extension [Some 1%positive])
    = (Returns fa_output, this')
    /\ Eigen.transpose_row fa_output = Returns gains
    /\ DmpWithGainSchedules.integrateStep {[1%positive := Instances.doubling]}
         0.5%float [0; 0; 0; 0.25]%float (Instances.extension [Some 1%positive])
       = (Returns ([0; 0; 0; 0.25 + 0.5]%float, [0; 0; 0; 0]%float, gains), this').
Proof.
  exact (integrateStep_gains_of_updated_phase {[1%positive := Instances.doubling]}
           (Instances.extension [Some 1%positive]) 0.5%float [0; 0; 0; 0.25]%float
           eq_refl ltac:(simpl; lia)).
Defined.

(** The same step, computed: the phase goes from 0.25 to 0.75 and the gain is
    2 * 0.75, where the gain for the phase before the step is 2 * 0.25. *)
Example integrateStep_computed :
  (DmpWithGainSchedules.integrateStep {[1%positive := Instances.doubling]}
     0.5%float [0; 0; 0; 0.25]%float (Instances.extension [Some 1%positive])).1
  = Returns ([0; 0; 0; 0.75]%float, [0; 0; 0; 0]%float, [1.5]%float)
  /\ (DmpWithGainSchedules.computeFunctionApproximatorOutputExtendedDimensions
        {[1%positive := Instances.doubling]} (Eigen.Matrix 1 [[0.25%float]])
        (Instances.extension [Some 1%positive])).1
     = Returns (Eigen.Matrix 1 [[0.5%float]]).
Proof. split; vm_compute; reflexivity. Qed.

(** C4, evaluated on the code.  The claim: with an empty bank the gain
    computation is a no-op that returns zeros.  The extension constructed from
    an empty list over a primitive of one dimension has a bank of length 0;
    the loop of [computeFunctionApproximatorOutputExtendedDimensions] runs to
    [dim_orig()] = 1 and reads [function_approximators_gains_[0]] (line 163)
    of the empty vector, so the code defines no matrix; [integrateStep] and
    [integrateStart] end the same way. *)
Theorem empty_bank_gains_read_past_the_end :
  exists this,
    DmpWithGainSchedules.construct Instances.primitive []
      (∅ : gmap Memory.loc Instances.Proportional)
    = (Returns this, ∅)
    /\ length (DmpWithGainSchedules.function_approximators_gains_ this) = 0
    /\ DmpWithGainSchedules.computeFunctionApproximatorOutputExtendedDimensions
         (∅ : gmap Memory.loc Instances.Proportional)
         (Eigen.Matrix 1 [[0.25%float]]) this
       = (Aborts OutOfBounds, this)
    /\ DmpWithGainSchedules.integrateStep (∅ : gmap Memory.loc Instances.Proportional)
         0.5%float [0; 0; 0; 0.25]%float this
       = (Aborts OutOfBounds, this)
    /\ DmpWithGainSchedules.integrateStart (∅ : gmap Memory.loc Instances.Proportional)
         [0; 0; 0; 0.25]%float [0; 0; 0; 0]%float this
       = (Aborts OutOfBounds, this).
Proof. eexists. repeat split; vm_compute; reflexivity. Qed.

(** ** DmpWithGainSchedules: training and cloning *)

(** C6 as stated fails: the two checks come after the base primitive has
    been trained.  Training an extension with one slot on a demonstration
    with two auxiliary columns ends in the assertion of line 248, and
    training an extension with an empty bank ends in the assertion of line
    252; in both runs the primitive has counted one training when the call
    ends. *)
Lemma base_primitive_is_trained_before_the_checks :
  DmpWithGainSchedules.train (Instances.demonstration 2) "" false
    (Instances.extension [Some 1%positive], {[1%positive := Instances.untrained]})
  = (Aborts AssertionFailed,
     (DmpWithGainSchedules.set_base
        {| Instances.dims := 1; Instances.times_trained := 1 |}
        (Instances.extension [Some 1%positive]),
      {[1%positive := Instances.untrained]}))
  /\ DmpWithGainSchedules.train (Instances.demonstration 0) "" false
       (Instances.extension [], (∅ : gmap Memory.loc Instances.Proportional))
     = (Aborts AssertionFailed,
        (DmpWithGainSchedules.set_base
           {| Instances.dims := 1; Instances.times_trained := 1 |}
           (Instances.extension []),
         ∅))
  /\ Instances.times_trained
       (DmpWithGainSchedules.base (Instances.extension [Some 1%positive])) = 0
  /\ Instances.times_trained (DmpWithGainSchedules.base (Instances.extension [])) = 0.
Proof. repeat split; vm_compute; reflexivity. Qed.

Section training.
Import Eigen Memory DmpWithGainSchedules.
Context {D FA : Type} `{!Dmp.Dmp D} `{!FunctionApproximator.FunctionApproximator FA}.
Implicit Types (this : DmpWithGainSchedules D) (h : gmap loc FA).

(** C6, amended.  When [train] is called with an auxiliary matrix whose
    column count differs from the number of slots, or with an empty bank,
    the violation is detected by an assertion after the base primitive has
    been trained (and its closed-form phase computed) and before any
    approximator is trained or retrained: the call ends with the base
    primitive trained, and with the bank and every approximator as they
    were. *)
Theorem train_checks_follow_base_training
    (trajectory : Trajectory.Trajectory) (save_directory : string) (overwrite : bool)
    this h :
  returns
    (PHASEM (set_base (Dmp.train trajectory save_directory overwrite (base this)) this)
       (Dmp.analyticalSolution
          (Dmp.train trajectory save_directory overwrite (base this))
          (Trajectory.ts trajectory)).1.1.1
       (Trajectory.length trajectory)) = true ->
  cols (Trajectory.misc trajectory) <> length (function_approximators_gains_ this)
  \/ function_approximators_gains_ this = [] ->
  train trajectory save_directory overwrite (this, h)
  = (Aborts AssertionFailed,
     (set_base (Dmp.train trajectory save_directory overwrite (base this)) this, h)).
Proof.
  intros Hphase Hbad. unfold train, train_function_approximators.
  cbn [base set_base function_approximators_gains_].
  destruct (Dmp.analyticalSolution _ _) as [[[xs_ana xds_ana] forcing] fa_output].
  cbn [fst] in Hphase. unfold mbind, stateful_bind, lift.
  destruct (PHASEM _ xs_ana _) as [xs_phase|]; [|done].
  destruct (cols (Trajectory.misc trajectory)
            =? length (function_approximators_gains_ this)) eqn:Hcols; [|done].
  cbn [c_assert].
  destruct Hbad as [Hbad | ->]; [by apply Nat.eqb_eq in Hcols|done].
Qed.

End training.

Lemma train_checks_follow_base_training_witness :
  DmpWithGainSchedules.train (Instances.demonstration 2) "gains" true
    (Instances.extension [Some 1%positive], {[1%positive := Instances.doubling]})
  = (Aborts AssertionFailed,
     (DmpWithGainSchedules.set_base
        (Dmp.train (Instances.demonstration 2) "gains" true Instances.primitive)
        (Instances.extension [Some 1%positive]),
      {[1%positive := Instances.doubling]})).
Proof.
  apply (train_checks_follow_base_training (Instances.demonstration 2) "gains" true
           (Instances.extension [Some 1%positive]) {[1%positive := Instances.doubling]}).
  - reflexivity.
  - left. simpl. lia.
Defined.

(** Training that passes the checks, computed: the untrained approximator of
    the single slot is trained on the auxiliary column. *)
Example train_computed :
  DmpWithGainSchedules.train (Instances.demonstration 1) "" false
    (Instances.extension [Some 1%positive], {[1%positive := Instances.untrained]})
  = (Returns tt,
     (DmpWithGainSchedules.set_base
        {| Instances.dims := 1; Instances.times_trained := 1 |}
        (Instances.extension [Some 1%positive]),
      {[1%positive := {| Instances.trained := true; Instances.slope := 3 |}]})).
Proof. vm_compute. reflexivity. Qed.

(** C5, evaluated on the code.  The claim: cloning succeeds for every bank,
    absent slots staying absent.  The constructor keeps an absent slot absent
    (line 127), here for the bank [(approximator, NULL)]; [clone] on the
    extension it made calls [clone()] through every slot without a test
    (line 145) and ends at the NULL one. *)
Theorem clone_calls_through_an_absent_slot :
  exists this h,
    DmpWithGainSchedules.construct Instances.primitive [Some 1%positive; Memory.NULL]
      {[1%positive := Instances.doubling]}
    = (Returns this, h)
    /\ DmpWithGainSchedules.function_approximators_gains_ this
       = [Some 2%positive; Memory.NULL]
    /\ h = {[1%positive := Instances.doubling; 2%positive := Instances.doubling]}
    /\ (DmpWithGainSchedules.clone this h).1 = Aborts NullDereference.
Proof. do 2 eexists. repeat split; vm_compute; reflexivity. Qed.

(** ** DmpWithGainSchedules: what [clone] does for a bank without absent slots *)

Section cloning.
Import Eigen Memory DmpWithGainSchedules Spec.
Context {D FA : Type} `{!Dmp.Dmp D} `{!FunctionApproximator.FunctionApproximator FA}.
Implicit Types (this : DmpWithGainSchedules D) (h : gmap loc FA).
Implicit Types (bank : list pointer).

Lemma stateful_bind_Returns {S A B} (m : stateful S A) (k : A -> stateful S B) s a s' :
  m s = (Returns a, s') -> (m ≫= k) s = k a s'.
Proof. intros Hm. unfold mbind, stateful_bind. by rewrite Hm. Qed.

Lemma new_is_fresh (fa : FA) h :
  h !! (new fa h).1 = None /\ (new fa h).2 = <[(new fa h).1 := fa]> h.
Proof.
  unfold new. simpl. split; [|done].
  apply not_elem_of_dom, is_fresh.
Qed.

Lemma all_present_weaken h h' bank :
  h ⊆ h' -> all_present h bank -> all_present h' bank.
Proof.
  intros Hsub Hall. eapply Forall_impl; [exact Hall|].
  intros p (l & -> & [fa Hfa]). exists l. split; [done|].
  exists fa. by eapply lookup_weaken.
Qed.

Lemma clone_each_copies bank : forall h,
  all_present h bank ->
  exists bank' h',
    clone_each bank h = (Returns bank', h')
    /\ copies FunctionApproximator.clone h bank h' bank'
    /\ all_present h' bank'.
Proof.
  induction bank as [|p rest IH]; intros h Hall.
  - exists [], h. repeat split; [done|by intros i l Hi|constructor].
  - apply Forall_cons in Hall as [(l & -> & [fa Hfa]) Hrest].
    destruct (new_is_fresh (FunctionApproximator.clone fa) h) as [Hfresh Hnew].
    set (l1 := (new (FunctionApproximator.clone fa) h).1) in *.
    set (h1 := (new (FunctionApproximator.clone fa) h).2) in *.
    assert (Hsub1 : h ⊆ h1) by (rewrite Hnew; by apply insert_subseteq).
    destruct (IH h1 (all_present_weaken _ _ _ Hsub1 Hrest))
      as (rest' & h' & Hrun & (Hsub & Hlen & Hslots) & Hall').
    assert (Hl1 : h' !! l1 = Some (FunctionApproximator.clone fa)).
    { eapply lookup_weaken; [|exact Hsub]. rewrite Hnew. apply lookup_insert_eq. }
    exists (Some l1 :: rest'), h'. split; [|split].
    + cbn [clone_each].
      rewrite (stateful_bind_Returns _ _ h fa h) by (unfold load, deref; by rewrite Hfa).
      rewrite (stateful_bind_Returns _ _ h l1 h1)
        by (unfold allocate; fold l1 h1; by destruct (new _ h)).
      by rewrite (stateful_bind_Returns _ _ h1 rest' h').
    + split; [by etrans|]. split; [simpl; by rewrite Hlen|].
      intros [|i] l0 Hi; simpl in Hi.
      * injection Hi as <-. by exists l1, fa.
      * destruct (Hslots i l0 Hi) as (l' & fa' & ? & Hfa' & ? & Hnone).
        exists l', fa'. repeat split; [done| |done|].
        -- destruct (proj1 (Forall_lookup _ _) Hrest i (Some l0) Hi)
             as (? & [= <-] & [fa0 Hfa0]).
           rewrite Hfa0. rewrite (lookup_weaken _ _ _ _ Hfa0 Hsub1) in Hfa'. done.
        -- by eapply lookup_weaken_None.
    + constructor; [|done]. exists l1. split; [done|]. by exists (FunctionApproximator.clone fa).
Qed.

Lemma clone_or_NULL_copies bank : forall h,
  all_present h bank ->
  exists bank' h',
    clone_or_NULL bank h = (Returns bank', h')
    /\ copies FunctionApproximator.clone h bank h' bank'.
Proof.
  induction bank as [|p rest IH]; intros h Hall.
  - exists [], h. repeat split; [done|by intros i l Hi].
  - apply Forall_cons in Hall as [(l & -> & [fa Hfa]) Hrest].
    destruct (new_is_fresh (FunctionApproximator.clone fa) h) as [Hfresh Hnew].
    set (l1 := (new (FunctionApproximator.clone fa) h).1) in *.
    set (h1 := (new (FunctionApproximator.clone fa) h).2) in *.
    assert (Hsub1 : h ⊆ h1) by (rewrite Hnew; by apply insert_subseteq).
    destruct (IH h1 (all_present_weaken _ _ _ Hsub1 Hrest))
      as (rest' & h' & Hrun & Hsub & Hlen & Hslots).
    assert (Hl1 : h' !! l1 = Some (FunctionApproximator.clone fa)).
    { eapply lookup_weaken; [|exact Hsub]. rewrite Hnew. apply lookup_insert_eq. }
    exists (Some l1 :: rest'), h'. split.
    + cbn [clone_or_NULL].
      rewrite (stateful_bind_Returns _ _ h (Some l1) h1).
      * by rewrite (stateful_bind_Returns _ _ h1 rest' h').
      * rewrite (stateful_bind_Returns _ _ h fa h) by (unfold load, deref; by rewrite Hfa).
        rewrite (stateful_bind_Returns _ _ h l1 h1)
          by (unfold allocate; fold l1 h1; by destruct (new _ h)).
        done.
    + split; [by etrans|]. split; [simpl; by rewrite Hlen|].
      intros [|i] l0 Hi; simpl in Hi.
      * injection Hi as <-. by exists l1, fa.
      * destruct (Hslots i l0 Hi) as (l' & fa' & ? & Hfa' & ? & Hnone).
        exists l', fa'. repeat split; [done| |done|].
        -- destruct (proj1 (Forall_lookup _ _) Hrest i (Some l0) Hi)
             as (? & [= <-] & [fa0 Hfa0]).
           rewrite Hfa0. rewrite (lookup_weaken _ _ _ _ Hfa0 Hsub1) in Hfa'. done.
        -- by eapply lookup_weaken_None.
Qed.

Lemma copies_twice (c1 c2 : FA -> FA) h bank h1 bank1 h2 bank2 :
  copies c1 h bank h1 bank1 -> copies c2 h1 bank1 h2 bank2 ->
  copies (fun fa => c2 (c1 fa)) h bank h2 bank2.
Proof.
  intros (Hsub1 & Hlen1 & Hslots1) (Hsub2 & Hlen2 & Hslots2).
  split; [by etrans|]. split; [congruence|].
  intros i l Hi.
  destruct (Hslots1 i l Hi) as (l1 & fa & Hi1 & Hfa & Hfa1 & Hnone1).
  destruct (Hslots2 i l1 Hi1) as (l2 & fa1 & Hi2 & Hfa1' & Hfa2 & Hnone2).
  exists l2, fa. repeat split; [done..| |].
  - rewrite Hfa1 in Hfa1'. by injection Hfa1' as <-.
  - by eapply lookup_weaken_None.
Qed.

(** For a bank without absent slots [clone] returns, and the bank of the
    clone holds new approximators, copies of the ones of the original. *)
Lemma clone_copies this h :
  all_present h (function_approximators_gains_ this) ->
  exists this' h',
    clone this h = (Returns this', h')
    /\ base this' = Dmp.clone (base this)
    /\ copies (fun fa => FunctionApproximator.clone (FunctionApproximator.clone fa))
         h (function_approximators_gains_ this)
         h' (function_approximators_gains_ this').
Proof.
  intros Hall.
  destruct (clone_each_copies _ h Hall) as (bank1 & h1 & Hrun1 & Hcopies1 & Hall1).
  destruct (clone_or_NULL_copies _ h1 Hall1) as (bank2 & h2 & Hrun2 & Hcopies2).
  eexists _, h2. split; [|split].
  - unfold clone. rewrite (stateful_bind_Returns _ _ h bank1 h1 Hrun1).
    unfold construct. rewrite (stateful_bind_Returns _ _ h1 bank2 h2); [done|].
    unfold initFunctionApproximatorsExtDims. by destruct bank1.
  - done.
  - by eapply copies_twice.
Qed.

(** The gain outputs read the heap only at the locations of the bank. *)
Lemma gain_output_bank h phase_state i_dim
    (st st' : MatrixXd * DmpWithGainSchedules D) :
  gain_output h phase_state i_dim st = Returns st' ->
  function_approximators_gains_ st'.2 = function_approximators_gains_ st.2.
Proof.
  destruct st as [fa_output this]. unfold gain_output, at_index. cbv beta iota.
  destruct (function_approximators_gains_ this !! i_dim) as [[l|]|]; simpl;
    [| by intros [= <-] | done].
  unfold deref. destruct (h !! l) as [fa|]; simpl; [|done].
  destruct (FunctionApproximator.isTrained fa); [|by intros [= <-]].
  destruct (rows phase_state =? 1); simpl;
    destruct (assign_col _ _ _); simpl; try done; by intros [= <-].
Qed.

Lemma gain_output_ext h1 h2 phase_state i_dim (st : MatrixXd * DmpWithGainSchedules D) :
  (forall l, Some l ∈ function_approximators_gains_ st.2 -> h1 !! l = h2 !! l) ->
  gain_output h1 phase_state i_dim st = gain_output h2 phase_state i_dim st.
Proof.
  destruct st as [fa_output this]. intros Hagree.
  unfold gain_output, at_index. cbv beta iota.
  destruct (function_approximators_gains_ this !! i_dim) as [[l|]|] eqn:Hslot;
    simpl; [|done..].
  unfold deref. rewrite (Hagree l); [done|].
  by eapply list_elem_of_lookup_2.
Qed.

Lemma gain_outputs_ext h1 h2 phase_state i_dims :
  forall st : MatrixXd * DmpWithGainSchedules D,
  (forall l, Some l ∈ function_approximators_gains_ st.2 -> h1 !! l = h2 !! l) ->
  gain_outputs h1 phase_state i_dims st = gain_outputs h2 phase_state i_dims st.
Proof.
  induction i_dims as [|i_dim later IH]; intros st Hagree; [done|].
  cbn [gain_outputs]. rewrite (gain_output_ext h1 h2) by done.
  destruct (gain_output h2 phase_state i_dim st) as [st'|] eqn:Hst; [|done].
  simpl. apply IH. by rewrite (gain_output_bank _ _ _ _ _ Hst).
Qed.

Lemma gains_ext h1 h2 phase_state this :
  (forall l, Some l ∈ function_approximators_gains_ this -> h1 !! l = h2 !! l) ->
  computeFunctionApproximatorOutputExtendedDimensions h1 phase_state this
  = computeFunctionApproximatorOutputExtendedDimensions h2 phase_state this.
Proof.
  intros Hagree. unfold computeFunctionApproximatorOutputExtendedDimensions.
  rewrite (gain_outputs_ext h1 h2); [done|].
  simpl. by destruct (1 <? rows phase_state).
Qed.

(** The valid part of C5: the clone of an extension without absent slots
    shares no approximator with it.  Whatever is stored in an approximator
    of the clone (training, retraining), the gain outputs of the original are
    those from before the clone was made, and whatever is stored in an
    approximator of the original, the gain outputs of the clone stay. *)
Lemma clone_shares_no_approximator this h this' h' :
  all_present h (function_approximators_gains_ this) ->
  clone this h = (Returns this', h') ->
  (forall l' fa' phase_state,
     Some l' ∈ function_approximators_gains_ this' ->
     computeFunctionApproximatorOutputExtendedDimensions (<[l' := fa']> h') phase_state this
     = computeFunctionApproximatorOutputExtendedDimensions h phase_state this)
  /\ (forall l fa' phase_state,
        Some l ∈ function_approximators_gains_ this ->
        computeFunctionApproximatorOutputExtendedDimensions (<[l := fa']> h') phase_state this'
        = computeFunctionApproximatorOutputExtendedDimensions h' phase_state this').
Proof.
  intros Hall Hclone.
  destruct (clone_copies this h Hall) as (this0 & h0 & Hrun & _ & Hsub & Hlen & Hslots).
  rewrite Hclone in Hrun. injection Hrun as <- <-.
  assert (Hlive : forall l, Some l ∈ function_approximators_gains_ this -> is_Some (h !! l)).
  { intros l Hl. destruct (proj1 (Forall_forall _ _) Hall _ Hl) as (? & [= <-] & ?).
    done. }
  assert (Hnew : forall l', Some l' ∈ function_approximators_gains_ this' -> h !! l' = None).
  { intros l' [i Hi]%list_elem_of_lookup_1.
    destruct (lookup_lt_is_Some_2 (function_approximators_gains_ this) i) as [p Hp].
    { rewrite <- Hlen. by eapply lookup_lt_Some. }
    destruct (proj1 (Forall_lookup _ _) Hall i p Hp) as (l & -> & _).
    destruct (Hslots i l Hp) as (l'' & fa & Hi' & _ & _ & Hnone).
    rewrite Hi in Hi'. by injection Hi' as <-. }
  split.
  - intros l' fa' phase_state Hl'. apply gains_ext. intros l Hl.
    destruct (Hlive l Hl) as [fa Hfa].
    rewrite lookup_insert_ne by (intros ->; rewrite (Hnew _ Hl') in Hfa; done).
    rewrite Hfa. by eapply lookup_weaken.
  - intros l fa' phase_state Hl. apply gains_ext. intros l' Hl'.
    destruct (Hlive l Hl) as [fa Hfa].
    by rewrite lookup_insert_ne by (intros ->; rewrite (Hnew _ Hl') in Hfa; done).
Qed.

End cloning.

Lemma clone_shares_no_approximator_witness :
  (forall l' fa' phase_state,
     Some l' ∈ DmpWithGainSchedules.function_approximators_gains_
                 (Instances.extension [Some 3%positive]) ->
     DmpWithGainSchedules.computeFunctionApproximatorOutputExtendedDimensions
       (<[l' := fa']> {[1%positive := Instances.doubling; 2%positive := Instances.doubling;
                        3%positive := Instances.doubling]})
       phase_state (Instances.extension [Some 1%positive])
     = DmpWithGainSchedules.computeFunctionApproximatorOutputExtendedDimensions
         {[1%positive := Instances.doubling]} phase_state
         (Instances.extension [Some 1%positive]))
  /\ (forall l fa' phase_state,
        Some l ∈ DmpWithGainSchedules.function_approximators_gains_
                   (Instances.extension [Some 1%positive]) ->
        DmpWithGainSchedules.computeFunctionApproximatorOutputExtendedDimensions
          (<[l := fa']> {[1%positive := Instances.doubling; 2%positive := Instances.doubling;
                          3%positive := Instances.doubling]})
          phase_state (Instances.extension [Some 3%positive])
        = DmpWithGainSchedules.computeFunctionApproximatorOutputExtendedDimensions
            {[1%positive := Instances.doubling; 2%positive := Instances.doubling;
              3%positive := Instances.doubling]}
            phase_state (Instances.extension [Some 3%positive])).
Proof.
  apply (clone_shares_no_approximator (Instances.extension [Some 1%positive])
           {[1%positive := Instances.doubling]}).
  - repeat constructor. exists 1%positive. split; [reflexivity|]. by eexists.
  - vm_compute. reflexivity.
Defined.

(** Cloning an extension with one trained approximator, computed: the clone
    points to a new approximator; retraining it leaves the gain of the
    original at 2 * 0.25. *)
Example clone_computed :
  DmpWithGainSchedules.clone (Instances.extension [Some 1%positive])
    {[1%positive := Instances.doubling]}
  = (Returns (Instances.extension [Some 3%positive]),
     {[1%positive := Instances.doubling; 2%positive := Instances.doubling;
       3%positive := Instances.doubling]})
  /\ (DmpWithGainSchedules.computeFunctionApproximatorOutputExtendedDimensions
        {[1%positive := Instances.doubling; 2%positive := Instances.doubling;
          3%positive := {| Instances.trained := true; Instances.slope := 3 |}]}
        (Eigen.Matrix 1 [[0.25%float]]) (Instances.extension [Some 1%positive])).1
     = Returns (Eigen.Matrix 1 [[0.5%float]]).
Proof. split; vm_compute; reflexivity. Qed.

(** * Further properties of the two files *)

(** ** More floating-point facts *)

Section more_floats.
Local Open Scope float_scope.

(** A finite number minus itself is [+0.0]. *)
Lemma sub_self_finite (x : float) : is_finite x = true -> x - x = 0.
Proof.
  intros Hfin. apply Prim2SF_inj. rewrite sub_spec.
  change (Prim2SF 0) with (S754_zero false).
  revert Hfin. unfold is_finite, is_nan, is_infinity.
  rewrite !FloatAxioms.eqb_spec, abs_spec.
  change (Prim2SF infinity) with (S754_infinity false).
  destruct (Prim2SF x) as [s|s| |s m e]; try destruct s; cbn; try discriminate;
    intros _; try reflexivity.
  all: unfold SF64sub, SFsub; rewrite Z.min_id; unfold shl_align;
    rewrite Z.sub_diag; cbn [fst cond_Zopp]; reflexivity.
Qed.

(** Zero minus a positive radius is below zero. *)
Lemma zero_sub_positive (r : float) : (0 <? r) = true -> (0 - r <? 0) = true.
Proof.
  rewrite !ltb_spec, sub_spec.
  change (Prim2SF 0) with (S754_zero false).
  destruct (Prim2SF r) as [s|s| |s m e]; try destruct s; cbn; try discriminate;
    reflexivity.
Qed.

End more_floats.

(** ** TaskViapoint: the scan, the tolerance, the rollout table *)

Section more_costs.
Import Eigen TaskViapoint.
Local Open Scope float_scope.

(** The forward scan of lines 81-83 and 110-112 stops at the first sample
    that is not before [time]: every sample in front of the index it leaves is
    before [time], the sample at the index (if there is one) is not, and the
    index is [ts.size()] at most. *)
Theorem scan_stops_at_first_sample_not_before ts time :
  (forall j t, (j < time_step_at ts time)%nat -> ts !! j = Some t -> (t <? time) = true)
  /\ (forall t, ts !! time_step_at ts time = Some t -> (t <? time) = false)
  /\ (time_step_at ts time <= length ts)%nat.
Proof.
  induction ts as [|t0 ts (IH1 & IH2 & IH3)]; simpl.
  - repeat split; [lia | done | lia].
  - destruct (t0 <? time) eqn:Ht0; repeat split.
    + intros [|j] t Hj Ht; simpl in Ht; [by injection Ht as <-|].
      apply (IH1 j); [lia|done].
    + done.
    + lia.
    + lia.
    + simpl. by intros t [= <-].
    + lia.
Qed.

Lemma sub_self_vector (v : VectorXd) :
  Forall (fun x => is_finite x = true) v ->
  zip_with PrimFloat.sub v v = replicate (length v) 0.
Proof.
  induction 1 as [|x v Hx _ IH]; simpl; [done|]. by rewrite sub_self_finite, IH.
Qed.

Lemma sum_of_squared_zeros n : sum (map pow2 (replicate n 0)) = 0.
Proof.
  destruct n as [|n]; [done|]. simpl.
  change (pow2 0) with 0.
  induction n as [|n IH]; [done|]. simpl. change (pow2 0) with 0.
  change (0 + 0) with 0. exact IH.
Qed.

(** A trajectory that is on the viapoint at the sample the scan finds costs
    nothing there (lines 81-97): with finite viapoint coordinates the distance
    is exactly [0.0], with any radius or none, and the viapoint component of
    the costs is the weight times [0.0]. *)
Theorem on_the_viapoint_the_distance_is_zero TIME_AT_MINIMUM_DIST task ts y :
  (viapoint_weight_ task =? 0) = false ->
  (viapoint_time_ task =? TIME_AT_MINIMUM_DIST) = false ->
  (time_step_at ts (viapoint_time_ task) < length ts)%nat ->
  row_data y !! time_step_at ts (viapoint_time_ task) = Some (viapoint_ task) ->
  Forall (fun x => is_finite x = true) (viapoint_ task) ->
  dist_to_viapoint TIME_AT_MINIMUM_DIST task ts y = Returns 0
  /\ (forall ydd delay,
        delay_cost task ts y = Returns delay ->
        exists total acceleration_cost goal_cost,
          computeCosts TIME_AT_MINIMUM_DIST task ts y ydd
          = Returns [total; viapoint_weight_ task * 0; acceleration_cost; goal_cost]).
Proof.
  intros Hw Hmode Hstep Hrow Hfin.
  assert (Hdist : dist_to_viapoint TIME_AT_MINIMUM_DIST task ts y = Returns 0).
  { unfold dist_to_viapoint. rewrite Hw, Hmode. cbn [negb].
    rewrite (bind_Returns _ _ 0).
    - cbn [mret outcome_ret].
      destruct (0 <? viapoint_radius_ task) eqn:Hr; [|done].
      by rewrite (zero_sub_positive _ Hr).
    - rewrite (bind_Returns _ _ tt) by (apply c_assert_true; by apply Nat.ltb_lt).
      unfold row. rewrite Hrow. cbn [mbind outcome_bind].
      unfold vec_sub. rewrite Nat.eqb_refl. cbn [eigen_assert mbind outcome_bind mret outcome_ret].
      by rewrite (sub_self_vector _ Hfin), sum_of_squared_zeros. }
  split; [exact Hdist|].
  intros ydd delay Hdelay.
  rewrite (computeCosts_parts _ _ _ _ _ _ _ Hdist Hdelay). eauto.
Qed.

Lemma on_the_viapoint_the_distance_is_zero_witness :
  dist_to_viapoint (-1) (Instances.task [1; 3] 2 [2; 2] 5 1 0 1) [0; 2; 5]
    (Matrix 2 [[0; 0]; [1; 3]; [2; 2]]) = Returns 0
  /\ (forall ydd delay,
        delay_cost (Instances.task [1; 3] 2 [2; 2] 5 1 0 1) [0; 2; 5]
          (Matrix 2 [[0; 0]; [1; 3]; [2; 2]]) = Returns delay ->
        exists total acceleration_cost goal_cost,
          computeCosts (-1) (Instances.task [1; 3] 2 [2; 2] 5 1 0 1) [0; 2; 5]
            (Matrix 2 [[0; 0]; [1; 3]; [2; 2]]) ydd
          = Returns [total; 1 * 0; acceleration_cost; goal_cost]).
Proof.
  apply (on_the_viapoint_the_distance_is_zero (-1)
           (Instances.task [1; 3] 2 [2; 2] 5 1 0 1) [0; 2; 5]
           (Matrix 2 [[0; 0]; [1; 3]; [2; 2]])).
  - reflexivity.
  - reflexivity.
  - simpl. lia.
  - reflexivity.
  - repeat constructor.
Defined.

Lemma all_weights_zero_witness :
  exists total viapoint_cost acceleration_cost goal_cost,
    computeCosts (-1) (Instances.task [1] 9 [2; 2] 9 0 (-0) 0) [0; 1]
      (Matrix 3 []) (Matrix 1 [[1]])
    = Returns [total; viapoint_cost; acceleration_cost; goal_cost]
    /\ (total =? 0) = true /\ (viapoint_cost =? 0) = true
    /\ (acceleration_cost =? 0) = true /\ (goal_cost =? 0) = true.
Proof.
  apply (all_weights_zero (-1) (Instances.task [1] 9 [2; 2] 9 0 (-0) 0) [0; 1]
           (Matrix 3 []) (Matrix 1 [[1]])); reflexivity.
Defined.

End more_costs.

Section rollouts.
Import Eigen TaskViapoint.

Lemma sample_shape_inv n s :
  Spec.sample_shape n s = true ->
  length (Spec.sample_y s) = n /\ length (Spec.sample_yd s) = n
  /\ length (Spec.sample_ydd s) = n /\ length (Spec.sample_forcing s) = n.
Proof.
  unfold Spec.sample_shape. intros H.
  apply andb_prop in H as [H H4]. apply andb_prop in H as [H H3].
  apply andb_prop in H as [H1 H2].
  by apply Nat.eqb_eq in H1, H2, H3, H4.
Qed.

(** [evaluateRollout] on a table of samples of the task's dimensionality is
    [computeCosts] on the time column, the position columns and the
    acceleration columns (lines 142-145): the velocity and the forcing columns
    do not reach the costs.  A table with another number of columns than
    [1 + 4*n_dims] ends in the assertion of line 139. *)
Theorem evaluateRollout_unpacks_the_table TIME_AT_MINIMUM_DIST task samples :
  Forall (fun s => Spec.sample_shape (length (viapoint_ task)) s = true) samples ->
  evaluateRollout TIME_AT_MINIMUM_DIST task
    (Spec.rollout_table (length (viapoint_ task)) samples)
  = computeCosts TIME_AT_MINIMUM_DIST task
      (map Spec.sample_t samples)
      (Matrix (length (viapoint_ task)) (map Spec.sample_y samples))
      (Matrix (length (viapoint_ task)) (map Spec.sample_ydd samples))
  /\ (forall cost_vars,
        cols cost_vars <> 1 + 4 * length (viapoint_ task) ->
        evaluateRollout TIME_AT_MINIMUM_DIST task cost_vars = Aborts AssertionFailed).
Proof.
  intros Hshape. set (n := length (viapoint_ task)) in *. split.
  - unfold evaluateRollout, Spec.rollout_table. fold n. cbn [cols row_data].
    rewrite Nat.eqb_refl. cbn [c_assert mbind outcome_bind].
    unfold col. cbn [cols row_data].
    rewrite (bind_Returns _ _ tt) by (apply eigen_assert_true, Nat.ltb_lt; lia).
    cbn [mret outcome_ret mbind outcome_bind].
    unfold block, rows. cbn [cols row_data].
    rewrite (bind_Returns _ _ tt)
      by (apply eigen_assert_true, andb_true_intro; split; apply Nat.leb_le; lia).
    cbn [mret outcome_ret mbind outcome_bind].
    rewrite (bind_Returns _ _ tt)
      by (apply eigen_assert_true, andb_true_intro; split; apply Nat.leb_le; lia).
    cbn [mret outcome_ret mbind outcome_bind].
    rewrite drop_0, firstn_all, !map_map.
    assert (Hys : map (fun s => take n (drop 1 (Spec.sample_row s))) samples
                  = map Spec.sample_y samples).
    { apply map_ext_Forall. eapply Forall_impl; [exact Hshape|].
      intros s (Hy & _)%sample_shape_inv.
      unfold Spec.sample_row. cbn [drop]. by rewrite drop_0, take_app_length'. }
    assert (Hydds : map (fun s => take n (drop (1 + 2 * n) (Spec.sample_row s))) samples
                    = map Spec.sample_ydd samples).
    { apply map_ext_Forall. eapply Forall_impl; [exact Hshape|].
      intros s (Hy & Hyd & Hydd & _)%sample_shape_inv.
      unfold Spec.sample_row.
      replace (1 + 2 * n) with (S (n + n)) by lia. cbn [drop].
      rewrite <- drop_drop, drop_app_length', drop_app_length' by done.
      by rewrite take_app_length'. }
    by rewrite Hys, Hydds.
  - intros cost_vars Hcols. unfold evaluateRollout. fold n.
    by rewrite (proj2 (Nat.eqb_neq _ _) Hcols).
Qed.

Lemma evaluateRollout_unpacks_the_table_witness :
  evaluateRollout (-1) (Instances.task [1] 2 [2] 5 1 0 1)%float
    (Spec.rollout_table 1
       [ {| Spec.sample_t := 0; Spec.sample_y := [0]; Spec.sample_yd := [7];
            Spec.sample_ydd := [0]; Spec.sample_forcing := [8] |};
         {| Spec.sample_t := 2; Spec.sample_y := [1]; Spec.sample_yd := [7];
            Spec.sample_ydd := [0]; Spec.sample_forcing := [9] |} ]%float)
  = computeCosts (-1) (Instances.task [1] 2 [2] 5 1 0 1)%float
      [0; 2]%float (Matrix 1 [[0]; [1]]%float) (Matrix 1 [[0]; [0]]%float)
  /\ (forall cost_vars,
        cols cost_vars <> 1 + 4 * 1 ->
        evaluateRollout (-1) (Instances.task [1] 2 [2] 5 1 0 1)%float cost_vars
        = Aborts AssertionFailed).
Proof.
  apply (evaluateRollout_unpacks_the_table (-1)
           (Instances.task [1] 2 [2] 5 1 0 1)%float
           [ {| Spec.sample_t := 0; Spec.sample_y := [0]; Spec.sample_yd := [7];
                Spec.sample_ydd := [0]; Spec.sample_forcing := [8] |};
             {| Spec.sample_t := 2; Spec.sample_y := [1]; Spec.sample_yd := [7];
                Spec.sample_ydd := [0]; Spec.sample_forcing := [9] |} ]%float).
  repeat constructor.
Defined.

(** The constructors return exactly when their assertions hold, and then
    the task has a radius that is not negative and a goal of the viapoint's
    dimensionality; [setCostFunctionWeighting] keeps both, and so does every
    task that [readFromFile] returns. *)
Theorem tasks_keep_the_asserted_invariant :
  (forall viapoint viapoint_time viapoint_radius,
     returns (construct_radius viapoint viapoint_time viapoint_radius)
     = (0 <=? viapoint_radius)%float
     /\ forall task, construct_radius viapoint viapoint_time viapoint_radius = Returns task ->
                     Spec.task_invariant task = true)
  /\ (forall viapoint viapoint_time goal goal_time,
        returns (construct_goal viapoint viapoint_time goal goal_time)
        = (length viapoint =? length goal)
        /\ forall task, construct_goal viapoint viapoint_time goal goal_time = Returns task ->
                        Spec.task_invariant task = true)
  /\ (forall viapoint viapoint_time viapoint_radius goal goal_time
             viapoint_weight acceleration_weight goal_weight,
        returns (construct viapoint viapoint_time viapoint_radius goal goal_time
                   viapoint_weight acceleration_weight goal_weight)
        = (0 <=? viapoint_radius)%float && (length viapoint =? length goal)
        /\ forall task,
             construct viapoint viapoint_time viapoint_radius goal goal_time
               viapoint_weight acceleration_weight goal_weight = Returns task ->
             Spec.task_invariant task = true)
  /\ (forall viapoint_weight acceleration_weight goal_weight task,
        Spec.task_invariant
          (setCostFunctionWeighting viapoint_weight acceleration_weight goal_weight task)
        = Spec.task_invariant task)
  /\ (forall TIME_AT_MINIMUM_DIST parse_double filename fs task,
        readFromFile TIME_AT_MINIMUM_DIST parse_double filename fs = Returns task ->
        Spec.task_invariant task = true).
Proof.
  assert (Hconstruct : forall viapoint viapoint_time viapoint_radius goal goal_time
             viapoint_weight acceleration_weight goal_weight task,
             construct viapoint viapoint_time viapoint_radius goal goal_time
               viapoint_weight acceleration_weight goal_weight = Returns task ->
             Spec.task_invariant task = true).
  { intros v vt r g gt wv wa wg task. unfold construct, Spec.task_invariant.
    destruct (0 <=? r)%float eqn:Hr; [|done].
    destruct (length v =? length g) eqn:Hlen; [|done].
    simpl. intros [= <-]. simpl. by rewrite Hr, Hlen. }
  split; [|split; [|split; [|split]]].
  - intros v vt r. unfold construct_radius, Spec.task_invariant.
    destruct (0 <=? r)%float eqn:Hr; simpl; (split; [done|]); [|done].
    intros task [= <-]. simpl. by rewrite Hr, length_replicate, Nat.eqb_refl.
  - intros v vt g gt. unfold construct_goal, Spec.task_invariant.
    destruct (length v =? length g) eqn:Hlen; simpl; (split; [done|]); [|done].
    intros task [= <-]. simpl. by rewrite Hlen.
  - intros v vt r g gt wv wa wg. split; [|apply Hconstruct].
    unfold construct.
    by destruct (0 <=? r)%float, (length v =? length g).
  - done.
  - intros tmd parse filename fs task. unfold readFromFile.
    repeat (match goal with
            | |- mbind _ ?m = Returns _ -> _ =>
                destruct m; cbn [mbind outcome_bind]; [|discriminate]
            end).
    apply Hconstruct.
Qed.

End rollouts.

(** ** TaskViapoint: reading any file, writing over a file *)

Section more_files.
Import Eigen TaskViapoint.
Variable TIME_AT_MINIMUM_DIST : float.
Variable show_double : Files.floatfield -> float -> string.
Variable parse_double : string -> float.

Lemma loadMatrix_numbers filename fs :
  Files.loadMatrix parse_double filename fs
  = match Spec.numbers parse_double filename fs with
    | [] => Matrix 0 []
    | x :: v => Matrix (length (x :: v)) [x :: v]
    end.
Proof.
  unfold Files.loadMatrix, Spec.numbers.
  destruct (Files.files fs !! filename) as [chunks|]; [|done].
  by destruct (map parse_double _).
Qed.

(** The fields of a record that is followed by at most one more number. *)
Lemma record_fields_with_tail (V G tail : VectorXd) a b c d e f :
  length G = length V ->
  length tail <= 1 ->
  let vector := V ++ [a; b] ++ G ++ [c; d; e; f] ++ tail in
  let n_dims := Z.of_nat (length V) in
  ((Z.of_nat (length vector) - 6) `quot` 2)%Z = n_dims
  /\ head vector n_dims = Returns V
  /\ coeff vector n_dims = Returns a
  /\ coeff vector (n_dims + 1) = Returns b
  /\ segment vector (n_dims + 2) n_dims = Returns G
  /\ coeff vector (2 * n_dims + 2) = Returns c
  /\ coeff vector (2 * n_dims + 3) = Returns d
  /\ coeff vector (2 * n_dims + 4) = Returns e
  /\ coeff vector (2 * n_dims + 5) = Returns f.
Proof.
  intros HG Htail vector n_dims.
  assert (Hlen : length vector = (2 * length V + 6 + length tail)%nat).
  { unfold vector. rewrite !length_app. simpl. lia. }
  assert (Hlook : forall k x, ([a; b] ++ G ++ [c; d; e; f] ++ tail) !! k = Some x ->
                              vector !! (length V + k)%nat = Some x).
  { intros k x Hk. unfold vector. by rewrite lookup_app_r, Nat.add_sub' by lia. }
  assert (Htl : forall k x, ([c; d; e; f] ++ tail) !! k = Some x ->
                            vector !! (length V + (2 + (length V + k)))%nat = Some x).
  { intros k x Hk. apply Hlook. simpl.
    rewrite lookup_app_r by lia. by replace (_ - _)%nat with k by lia. }
  repeat split.
  - rewrite Hlen.
    replace (Z.of_nat (2 * length V + 6 + length tail) - 6)%Z
      with (n_dims * 2 + Z.of_nat (length tail))%Z by lia.
    rewrite Z.quot_div_nonneg by lia.
    rewrite Z.div_add_l by lia. rewrite Z.div_small by lia. lia.
  - unfold head. rewrite eigen_assert_true by (apply andb_true_intro; split; apply Z.leb_le; lia).
    simpl. unfold n_dims, vector. by rewrite Nat2Z.id, take_app_length.
  - apply (coeff_at _ _ (length V + 0)); [lia|]. by apply Hlook.
  - apply (coeff_at _ _ (length V + 1)); [lia|]. by apply Hlook.
  - unfold segment.
    rewrite eigen_assert_true
      by (repeat (apply andb_true_intro; split); apply Z.leb_le; lia).
    simpl. unfold vector, n_dims.
    replace (Z.to_nat (Z.of_nat (length V) + 2)) with (length (V ++ [a; b]))
      by (rewrite length_app; simpl; lia).
    by rewrite Nat2Z.id, (app_assoc V), drop_app_length, <- HG, take_app_length.
  - apply (coeff_at _ _ (length V + (2 + (length V + 0)))); [lia|]. by apply Htl.
  - apply (coeff_at _ _ (length V + (2 + (length V + 1)))); [lia|]. by apply Htl.
  - apply (coeff_at _ _ (length V + (2 + (length V + 2)))); [lia|]. by apply Htl.
  - apply (coeff_at _ _ (length V + (2 + (length V + 3)))); [lia|]. by apply Htl.
Qed.

(** [readFromFile] on any file of [2*D + 6] numbers, or of one more: the
    first [D] are the viapoint, then come the viapoint time (a negative one
    read as the sentinel) and the radius, [D] numbers of the goal, the goal
    time and the three weights; a number after these is not looked at; and
    the task is what the constructor makes of the fields, so a negative
    radius ends in its assertion (line 59). *)
Theorem readFromFile_decodes filename fs (V G tail : VectorXd) a b c d e f :
  Spec.numbers parse_double filename fs = V ++ [a; b] ++ G ++ [c; d; e; f] ++ tail ->
  length G = length V ->
  length tail <= 1 ->
  readFromFile TIME_AT_MINIMUM_DIST parse_double filename fs
  = construct V (if (a <? 0)%float then TIME_AT_MINIMUM_DIST else a) b G c d e f.
Proof.
  intros Hnumbers HG Htail. unfold readFromFile.
  rewrite loadMatrix_numbers, Hnumbers.
  destruct (record_fields_with_tail V G tail a b c d e f HG Htail)
    as (Hq & Hhead & Hvt & Hr & Hgoal & Hgt & Hwv & Hwa & Hwg).
  cbv zeta in Hq, Hhead, Hvt, Hr, Hgoal, Hgt, Hwv, Hwa, Hwg.
  set (vector := V ++ [a; b] ++ G ++ [c; d; e; f] ++ tail) in *.
  assert (Hrow : forall A (k : VectorXd -> outcome A),
            (row match vector with
                 | [] => Matrix 0 []
                 | x :: v => Matrix (length (x :: v)) [x :: v]
                 end 0 ≫= k) = k vector).
  { intros A k. destruct vector as [|x v] eqn:Hv; [|done].
    apply (f_equal length) in Hv. unfold vector in Hv.
    rewrite !length_app in Hv. simpl in Hv. lia. }
  rewrite Hrow. cbv zeta. rewrite Hq, Hhead. cbn [mbind outcome_bind].
  rewrite Hvt. cbn [mbind outcome_bind]. rewrite Hr. cbn [mbind outcome_bind].
  rewrite Hgoal. cbn [mbind outcome_bind]. rewrite Hgt. cbn [mbind outcome_bind].
  rewrite Hwv. cbn [mbind outcome_bind]. rewrite Hwa. cbn [mbind outcome_bind].
  rewrite Hwg. reflexivity.
Qed.

(** A missing file, and a file of fewer than six numbers, end in an
    assertion of Eigen: the row, the head or a weight is out of range. *)
Theorem readFromFile_needs_six_numbers filename fs :
  length (Spec.numbers parse_double filename fs) < 6 ->
  readFromFile TIME_AT_MINIMUM_DIST parse_double filename fs = Aborts EigenAssertion.
Proof.
  intros Hshort. unfold readFromFile. rewrite loadMatrix_numbers.
  destruct (Spec.numbers parse_double filename fs) as [|a [|b [|c [|d [|e [|f v]]]]]];
    [reflexivity..|simpl in Hshort; lia].
Qed.

Lemma put_all_attached chunks filename c m u :
  Files.put_all chunks
    {| Files.attached := Some filename; Files.format := Files.defaultfloat |}
    {| Files.files := <[filename := c]> m; Files.unwritable := u |}
  = {| Files.files := <[filename := c ++ chunks]> m; Files.unwritable := u |}.
Proof.
  unfold Files.put_all. revert c.
  induction chunks as [|chunk chunks IH]; intros c; simpl.
  - by rewrite app_nil_r.
  - unfold Files.put at 2. simpl. rewrite alter_insert_eq, IH.
    by rewrite <- app_assoc.
Qed.

(** [savePlotRolloutScript] returns true exactly when the file
    [directory/plotRollout.py] could be opened: then the file holds the
    script and nothing else, and no other file has changed; otherwise the
    file system is as it was (lines 226-234, 279-281). *)
Theorem savePlotRolloutScript_reports_the_open task directory fs :
  savePlotRolloutScript show_double task directory fs
  = if decide (directory +:+ "/plotRollout.py" ∈ Files.unwritable fs)
    then (false, fs)
    else (true,
          {| Files.files :=
               <[directory +:+ "/plotRollout.py" := plotRollout_script show_double task]>
                 (Files.files fs);
             Files.unwritable := Files.unwritable fs |}).
Proof.
  unfold savePlotRolloutScript.
  destruct (decide (directory +:+ "/plotRollout.py" ∈ Files.unwritable fs)) as [Hin|Hout].
  - by rewrite (open_unwritable _ _ Hin).
  - rewrite (open_writable _ _ Hout). cbn [Files.is_open Files.attached negb].
    by rewrite put_all_attached.
Qed.

(** [writeToFile] on a file that can be opened replaces what the file held:
    of two writes the second one wins, no other file changes, and the
    numbers then found in the file are those of the record, each printed and
    parsed. *)
Theorem writeToFile_replaces_the_file filename fs :
  filename ∉ Files.unwritable fs ->
  (forall task1 task2,
     writeToFile show_double task2 filename
       (writeToFile show_double task1 filename fs).2
     = writeToFile show_double task2 filename fs)
  /\ (forall task other,
        other <> filename ->
        Files.files (writeToFile show_double task filename fs).2 !! other
        = Files.files fs !! other)
  /\ (forall task,
        (forall x, Files.is_blank (show_double Files.defaultfloat x) = false) ->
        Spec.numbers parse_double filename (writeToFile show_double task filename fs).2
        = map (Spec.reparse show_double parse_double) (Spec.record task)).
Proof.
  intros Hopen. repeat split.
  - intros task1 task2.
    rewrite (writeToFile_writable _ task1 _ _ Hopen). cbn [snd].
    rewrite !writeToFile_writable by done. cbn [Files.files Files.unwritable].
    by rewrite insert_insert_eq.
  - intros task other Hother.
    rewrite (writeToFile_writable _ task _ _ Hopen). cbn [snd Files.files].
    by rewrite lookup_insert_ne.
  - intros task Hshow.
    rewrite (writeToFile_writable _ task _ _ Hopen). unfold Spec.numbers.
    cbn [snd Files.files]. rewrite lookup_insert_eq.
    by apply numbers_of_written.
Qed.

End more_files.

(** A file of nine numbers: a task of one dimension and a number too many. *)
Lemma readFromFile_decodes_witness :
  TaskViapoint.readFromFile (-1)%float Instances.parse_demo "task.txt"
    {| Files.files :=
         {["task.txt" := ["1"; " "; "-2"; " "; "0"; " "; "2"; " "; "1"; " ";
                          "1"; " "; "0"; " "; "0.5"; " "; "2"; " "]]};
       Files.unwritable := ∅ |}
  = TaskViapoint.construct [1]%float (if (-2 <? 0)%float then (-1)%float else (-2)%float)
      0%float [2]%float 1%float 1%float 0%float 0.5%float.
Proof.
  apply (readFromFile_decodes (-1)%float Instances.parse_demo "task.txt"
           {| Files.files :=
                {["task.txt" := ["1"; " "; "-2"; " "; "0"; " "; "2"; " "; "1"; " ";
                                 "1"; " "; "0"; " "; "0.5"; " "; "2"; " "]]};
              Files.unwritable := ∅ |}
           [1]%float [2]%float [2]%float (-2)%float 0%float 1%float 1%float 0%float
           0.5%float).
  - vm_compute. reflexivity.
  - reflexivity.
  - simpl. lia.
Defined.

Lemma readFromFile_needs_six_numbers_witness :
  TaskViapoint.readFromFile (-1)%float Instances.parse_demo "task.txt"
    {| Files.files := {["task.txt" := ["1"; " "; "2"; " "; "0"; " "; "2"; " "; "1"; " "]]};
       Files.unwritable := ∅ |}
  = Aborts EigenAssertion.
Proof.
  apply (readFromFile_needs_six_numbers (-1)%float Instances.parse_demo "task.txt"
           {| Files.files :=
                {["task.txt" := ["1"; " "; "2"; " "; "0"; " "; "2"; " "; "1"; " "]]};
              Files.unwritable := ∅ |}).
  vm_compute. lia.
Defined.

Lemma writeToFile_replaces_the_file_witness :
  (forall task1 task2,
     TaskViapoint.writeToFile Instances.show_demo task2 "task.txt"
       (TaskViapoint.writeToFile Instances.show_demo task1 "task.txt"
          {| Files.files := {["other.txt" := ["1"]]}; Files.unwritable := ∅ |}).2
     = TaskViapoint.writeToFile Instances.show_demo task2 "task.txt"
         {| Files.files := {["other.txt" := ["1"]]}; Files.unwritable := ∅ |})
  /\ (forall task other,
        other <> "task.txt" ->
        Files.files
          (TaskViapoint.writeToFile Instances.show_demo task "task.txt"
             {| Files.files := {["other.txt" := ["1"]]}; Files.unwritable := ∅ |}).2
          !! other
        = Files.files
            {| Files.files := {["other.txt" := ["1"]]}; Files.unwritable := ∅ |} !! other)
  /\ (forall task,
        (forall x, Files.is_blank (Instances.show_demo Files.defaultfloat x) = false) ->
        Spec.numbers Instances.parse_demo "task.txt"
          (TaskViapoint.writeToFile Instances.show_demo task "task.txt"
             {| Files.files := {["other.txt" := ["1"]]}; Files.unwritable := ∅ |}).2
        = map (Spec.reparse Instances.show_demo Instances.parse_demo) (Spec.record task)).
Proof.
  apply (writeToFile_replaces_the_file Instances.show_demo Instances.parse_demo "task.txt"
           {| Files.files := {["other.txt" := ["1"]]}; Files.unwritable := ∅ |}).
  simpl. apply not_elem_of_empty.
Defined.

(** ** DmpWithGainSchedules: the gain matrix, coefficient by coefficient *)

Section gain_matrix.
Import Eigen Memory DmpWithGainSchedules Spec.
Context {D FA : Type} `{!Dmp.Dmp D} `{!FunctionApproximator.FunctionApproximator FA}.
Implicit Types (this : DmpWithGainSchedules D) (h : gmap loc FA).
Implicit Types (phase_state fa_output : MatrixXd) (bank : list pointer).

Lemma map_const_seq {A} (c : A) a n : map (fun _ => c) (seq a n) = replicate n c.
Proof. revert a. induction n as [|n IH]; intros a; simpl; [done|]. by rewrite IH. Qed.

Lemma insert_map_seq {A} (g : nat -> A) v n : forall a k,
  k < n ->
  <[k := v]> (map g (seq a n)) = map (fun d => if d =? a + k then v else g d) (seq a n).
Proof.
  induction n as [|n IH]; intros a k Hk; [lia|]. simpl.
  destruct k as [|k]; simpl.
  - rewrite Nat.add_0_r, Nat.eqb_refl. f_equal.
    apply map_ext_in. intros d Hd%in_seq.
    by rewrite (proj2 (Nat.eqb_neq d a)) by lia.
  - rewrite (proj2 (Nat.eqb_neq a (a + S k))) by lia. f_equal.
    rewrite IH by lia. apply map_ext. intros d.
    by replace (S a + k) with (a + S k) by lia.
Qed.

Lemma zip_with_map_seq {A B C} (f : A -> B -> C) (F : nat -> A) (d0 : B) n :
  forall a (srcs : list B),
  length srcs = n ->
  zip_with f (map F (seq a n)) srcs
  = map (fun r => f (F r) (nth (r - a) srcs d0)) (seq a n).
Proof.
  induction n as [|n IH]; intros a srcs Hlen; [done|].
  destruct srcs as [|s srcs]; [done|]. simpl. rewrite Nat.sub_diag. f_equal.
  rewrite IH by (simpl in Hlen; lia).
  apply map_ext_in. intros r Hr%in_seq.
  by replace (r - a) with (S (r - S a)) by lia.
Qed.

Lemma gains_upto_0 h phase_state bank dim_orig :
  gains_upto h phase_state bank dim_orig 0 = Zero (rows phase_state) dim_orig.
Proof.
  unfold gains_upto, Zero. f_equal.
  rewrite <- (map_const_seq (replicate dim_orig 0%float) 0).
  apply map_ext. intros r. rewrite <- (map_const_seq 0%float 0 dim_orig).
  by apply map_ext.
Qed.

Lemma gains_upto_all h phase_state bank dim_orig :
  gains_upto h phase_state bank dim_orig dim_orig = gains h phase_state bank dim_orig.
Proof.
  unfold gains_upto, gains. f_equal. apply map_ext. intros r.
  apply map_ext_in. intros d Hd%in_seq.
  by rewrite (proj2 (Nat.ltb_lt d dim_orig)) by lia.
Qed.

(** Filling in dimension [k] with the values [v r]. *)
Lemma gains_upto_S h phase_state bank dim_orig k (v : nat -> float) :
  (forall r, v r = gain_of h phase_state (nth k bank None) r) ->
  map (fun r =>
         map (fun d => if d =? k then v r
                       else if d <? k then gain_of h phase_state (nth d bank None) r
                            else 0%float)
             (seq 0 dim_orig))
      (seq 0 (rows phase_state))
  = row_data (gains_upto h phase_state bank dim_orig (S k)).
Proof.
  intros Hv. unfold gains_upto. cbn [row_data].
  apply map_ext. intros r. apply map_ext. intros d.
  destruct (d =? k) eqn:Hdk.
  - apply Nat.eqb_eq in Hdk as ->. by rewrite (proj2 (Nat.ltb_lt k (S k))), Hv by lia.
  - apply Nat.eqb_neq in Hdk.
    destruct (d <? k) eqn:Hlt.
    + apply Nat.ltb_lt in Hlt. by rewrite (proj2 (Nat.ltb_lt d (S k))) by lia.
    + apply Nat.ltb_ge in Hlt. by rewrite (proj2 (Nat.ltb_ge d (S k))) by lia.
Qed.

Lemma gains_upto_S_zero h phase_state bank dim_orig k :
  (forall r, gain_of h phase_state (nth k bank None) r = 0%float) ->
  gains_upto h phase_state bank dim_orig k = gains_upto h phase_state bank dim_orig (S k).
Proof.
  intros Hzero. unfold gains_upto. f_equal.
  apply map_ext. intros r. apply map_ext. intros d.
  destruct (d <? k) eqn:Hlt.
  - apply Nat.ltb_lt in Hlt. by rewrite (proj2 (Nat.ltb_lt d (S k))) by lia.
  - apply Nat.ltb_ge in Hlt. destruct (d <? S k) eqn:Hlt'; [|done].
    apply Nat.ltb_lt in Hlt'. assert (d = k) as -> by lia. by rewrite Hzero.
Qed.

(** One round of the loop fills in its dimension. *)
Lemma gain_output_fills h phase_state this k :
  k < Dmp.dim_orig (base this) ->
  match function_approximators_gains_ this !! k with
  | Some None => true
  | Some (Some l) => bool_decide (is_Some (h !! l))
  | None => false
  end = true ->
  forall this1,
    base this1 = base this ->
    function_approximators_gains_ this1 = function_approximators_gains_ this ->
    exists this2,
      gain_output h phase_state k
        (gains_upto h phase_state (function_approximators_gains_ this)
           (Dmp.dim_orig (base this)) k, this1)
      = Returns (gains_upto h phase_state (function_approximators_gains_ this)
                   (Dmp.dim_orig (base this)) (S k), this2)
      /\ base this2 = base this
      /\ function_approximators_gains_ this2 = function_approximators_gains_ this.
Proof.
  intros Hk Hslot this1 Hbase Hbank.
  unfold gain_output, at_index. cbv beta iota. rewrite Hbank.
  destruct (function_approximators_gains_ this !! k) as [[l|]|] eqn:Hp; [| |done].
  - apply bool_decide_eq_true in Hslot as [fa Hfa].
    cbn [mbind outcome_bind]. unfold deref. rewrite Hfa. cbn [mbind outcome_bind].
    assert (Hnth : nth k (function_approximators_gains_ this) None = Some l)
      by by apply nth_lookup_Some.
    destruct (FunctionApproximator.isTrained fa) eqn:Htrained.
    + destruct (FunctionApproximator.predict_shape fa phase_state) as [Hr Hc].
      assert (Hassign :
        assign_col (gains_upto h phase_state (function_approximators_gains_ this)
                      (Dmp.dim_orig (base this)) k) k
          (FunctionApproximator.predict fa phase_state)
        = Returns (gains_upto h phase_state (function_approximators_gains_ this)
                     (Dmp.dim_orig (base this)) (S k))).
      { unfold assign_col. rewrite eigen_assert_true.
        - cbn [mbind outcome_bind mret outcome_ret].
          set (bank := function_approximators_gains_ this) in *.
          set (dim := Dmp.dim_orig (base this)) in *.
          change (gains_upto h phase_state bank dim (S k))
            with (Matrix dim (row_data (gains_upto h phase_state bank dim (S k)))).
          change (cols (gains_upto h phase_state bank dim k)) with dim.
          do 2 f_equal.
          rewrite <- (gains_upto_S h phase_state bank dim k
                        (fun r => nth 0 (nth r (row_data
                                   (FunctionApproximator.predict fa phase_state)) []) 0%float)).
          + unfold gains_upto. cbn [row_data].
            rewrite (zip_with_map_seq _ _ []) by exact Hr.
            apply map_ext. intros r. rewrite Nat.sub_0_r.
            by rewrite insert_map_seq by done.
          + intros r. unfold gain_of. by rewrite Hnth, Hfa, Htrained.
        - apply andb_true_intro. split; [apply andb_true_intro; split|].
          + by apply Nat.ltb_lt.
          + apply Nat.eqb_eq. rewrite Hr. unfold rows, gains_upto. cbn [row_data].
            by rewrite length_map, length_seq.
          + by apply Nat.eqb_eq. }
      destruct (rows phase_state =? 1); cbn [fa_gains_outputs_one_prealloc_
        fa_gains_outputs_prealloc_ set_outputs_one_prealloc set_outputs_prealloc];
        rewrite Hassign; cbn [mbind outcome_bind mret outcome_ret];
        eexists; (split; [reflexivity|by split]).
    + exists this1. split; [|by split].
      rewrite (gains_upto_S_zero h phase_state _ _ k); [done|].
      intros r. unfold gain_of. by rewrite Hnth, Hfa, Htrained.
  - exists this1. split; [|by split]. cbn [mbind outcome_bind mret outcome_ret].
    rewrite (gains_upto_S_zero h phase_state _ _ k); [done|].
    intros r. unfold gain_of. by rewrite (nth_lookup_Some _ _ _ _ Hp).
Qed.

Lemma gain_outputs_fill h phase_state this n : forall k this1,
  k + n = Dmp.dim_orig (base this) ->
  Spec.bank_usable h this = true ->
  base this1 = base this ->
  function_approximators_gains_ this1 = function_approximators_gains_ this ->
  exists this2,
    gain_outputs h phase_state (seq k n)
      (gains_upto h phase_state (function_approximators_gains_ this)
         (Dmp.dim_orig (base this)) k, this1)
    = Returns (gains_upto h phase_state (function_approximators_gains_ this)
                 (Dmp.dim_orig (base this)) (k + n), this2)
    /\ base this2 = base this
    /\ function_approximators_gains_ this2 = function_approximators_gains_ this.
Proof.
  induction n as [|n IH]; intros k this1 Hkn Husable Hbase Hbank; cbn [seq gain_outputs].
  - exists this1. by rewrite Nat.add_0_r.
  - destruct (gain_output_fills h phase_state this k) with (this1 := this1)
      as (this2 & -> & Hbase2 & Hbank2); [lia| |done..|].
    { unfold Spec.bank_usable in Husable. rewrite forallb_forall in Husable.
      apply Husable, in_seq. lia. }
    cbn [mbind outcome_bind].
    destruct (IH (S k) this2) as (this3 & Hrun & ? & ?); [lia|done..|].
    exists this3. by replace (k + S n) with (S k + n) by lia.
Qed.

(** With a usable bank the loop computes [Spec.gains]. *)
Lemma gains_computed_by_the_loop h phase_state this :
  Spec.bank_usable h this = true ->
  exists this',
    computeFunctionApproximatorOutputExtendedDimensions h phase_state this
    = (Returns (Spec.gains h phase_state (function_approximators_gains_ this)
                  (Dmp.dim_orig (base this))), this')
    /\ base this' = base this
    /\ function_approximators_gains_ this' = function_approximators_gains_ this.
Proof.
  intros Husable. unfold computeFunctionApproximatorOutputExtendedDimensions.
  set (this1 := if 1 <? rows phase_state then _ else this).
  assert (Hbase : base this1 = base this)
    by (unfold this1; by destruct (1 <? rows phase_state)).
  assert (Hbank : function_approximators_gains_ this1 = function_approximators_gains_ this)
    by (unfold this1; by destruct (1 <? rows phase_state)).
  destruct (gain_outputs_fill h phase_state this (Dmp.dim_orig (base this)) 0 this1)
    as (this2 & Hrun & Hbase2 & Hbank2); [done..|].
  rewrite gains_upto_0 in Hrun. rewrite Hrun. cbn [Nat.add].
  rewrite gains_upto_all. by exists this2.
Qed.

Lemma nth_map_seq {A} (f : nat -> A) (n r : nat) (default : A) :
  r < n -> nth r (map f (seq 0 n)) default = f r.
Proof.
  intros Hr. rewrite (nth_indep _ default (f 0)) by (rewrite length_map, length_seq; lia).
  by rewrite map_nth, seq_nth by lia.
Qed.

(** With a usable bank the gain matrix is [T x dim_orig()], and its
    coefficient in row [r] and column [d] is the prediction of the
    approximator of slot [d] for the phase batch, at row [r], when that
    approximator is present and trained, and zero otherwise (lines 153-179).
    Slots after the first [dim_orig()] are not looked at.  The object keeps
    its base and its bank. *)
Theorem gains_are_predictions_or_zero h phase_state this :
  Spec.bank_usable h this = true ->
  exists fa_output this',
    computeFunctionApproximatorOutputExtendedDimensions h phase_state this
    = (Returns fa_output, this')
    /\ base this' = base this
    /\ function_approximators_gains_ this' = function_approximators_gains_ this
    /\ rows fa_output = rows phase_state
    /\ cols fa_output = Dmp.dim_orig (base this)
    /\ (forall r d, r < rows phase_state -> d < Dmp.dim_orig (base this) ->
          nth d (nth r (row_data fa_output) []) 0%float
          = Spec.gain_of h phase_state (nth d (function_approximators_gains_ this) None) r).
Proof.
  intros Husable.
  destruct (gains_computed_by_the_loop h phase_state this Husable)
    as (this' & Hrun & Hbase & Hbank).
  eexists _, this'. split; [exact Hrun|]. repeat split; try done.
  - unfold Spec.gains, rows. cbn [row_data]. by rewrite length_map, length_seq.
  - intros r d Hr Hd. unfold Spec.gains. cbn [row_data].
    rewrite (nth_map_seq _ _ _ _ Hr). by rewrite (nth_map_seq _ _ _ _ Hd).
Qed.

End gain_matrix.

Lemma gains_are_predictions_or_zero_witness :
  exists fa_output this',
    DmpWithGainSchedules.computeFunctionApproximatorOutputExtendedDimensions
      {[1%positive := Instances.doubling]} (Eigen.Matrix 1 [[0.25]; [0.5]]%float)
      (Instances.extension [Some 1%positive])
    = (Returns fa_output, this')
    /\ DmpWithGainSchedules.base this' = Instances.primitive
    /\ DmpWithGainSchedules.function_approximators_gains_ this' = [Some 1%positive]
    /\ Eigen.rows fa_output = 2
    /\ Eigen.cols fa_output = 1
    /\ (forall r d, r < 2 -> d < 1 ->
          nth d (nth r (Eigen.row_data fa_output) []) 0%float
          = Spec.gain_of {[1%positive := Instances.doubling]}
              (Eigen.Matrix 1 [[0.25]; [0.5]]%float) (nth d [Some 1%positive] None) r).
Proof.
  exact (gains_are_predictions_or_zero {[1%positive := Instances.doubling]}
           (Eigen.Matrix 1 [[0.25]; [0.5]]%float) (Instances.extension [Some 1%positive])
           eq_refl).
Defined.

(** The gain matrix of the witness, computed: one column, 2 * phase. *)
Example gains_computed :
  Spec.gains {[1%positive := Instances.doubling]}
    (Eigen.Matrix 1 [[0.25]; [0.5]]%float) [Some 1%positive] 1
  = Eigen.Matrix 1 [[0.5]; [1]]%float.
Proof. vm_compute. reflexivity. Qed.

Section short_bank.
Import Eigen Memory DmpWithGainSchedules Spec.
Context {D FA : Type} `{!Dmp.Dmp D} `{!FunctionApproximator.FunctionApproximator FA}.
Implicit Types (this : DmpWithGainSchedules D) (h : gmap loc FA).

Lemma gain_outputs_app h phase_state (i_dims1 i_dims2 : list nat)
    (st : MatrixXd * DmpWithGainSchedules D) :
  gain_outputs h phase_state (i_dims1 ++ i_dims2) st
  = gain_outputs h phase_state i_dims1 st ≫= gain_outputs h phase_state i_dims2.
Proof.
  revert st. induction i_dims1 as [|i later IH]; intros st; [done|].
  cbn [app gain_outputs].
  destruct (gain_output h phase_state i st) as [st'|]; [|done].
  cbn [mbind outcome_bind]. apply IH.
Qed.

Lemma slots_live_lookup h (bank : list pointer) i :
  slots_live h bank = true ->
  i < length bank ->
  match bank !! i with
  | Some None => true
  | Some (Some l) => bool_decide (is_Some (h !! l))
  | None => false
  end = true.
Proof.
  intros Hlive Hi. destruct (lookup_lt_is_Some_2 bank i Hi) as [p Hp]. rewrite Hp.
  unfold slots_live in Hlive. rewrite forallb_forall in Hlive.
  specialize (Hlive p). destruct p; apply Hlive, list_elem_of_In;
    by eapply list_elem_of_lookup_2.
Qed.

(** The bank may have any length (line 121), and the loop of the gain
    computation runs to [dim_orig()]: with fewer slots than dimensions, all
    of them NULL or live, the rounds for the slots there are go through, and
    the round for dimension [function_approximators_gains_.size()] reads
    the bank past its end (line 163).  That read is undefined behaviour: the
    code defines no gain matrix for such a bank, and what a run returns, if
    it returns, depends on what the memory after the vector holds. *)
Theorem short_bank_is_indexed_past_its_end h phase_state this :
  slots_live h (function_approximators_gains_ this) = true ->
  length (function_approximators_gains_ this) < Dmp.dim_orig (base this) ->
  (computeFunctionApproximatorOutputExtendedDimensions h phase_state this).1
  = Aborts OutOfBounds.
Proof.
  intros Hlive Hshort. unfold computeFunctionApproximatorOutputExtendedDimensions.
  set (this1 := if 1 <? rows phase_state then _ else this).
  assert (Hbase : base this1 = base this)
    by (unfold this1; by destruct (1 <? rows phase_state)).
  assert (Hbank : function_approximators_gains_ this1 = function_approximators_gains_ this)
    by (unfold this1; by destruct (1 <? rows phase_state)).
  set (n := length (function_approximators_gains_ this)) in *.
  assert (Hseq : seq 0 (Dmp.dim_orig (base this))
                 = seq 0 n ++ seq (0 + n) (S (Dmp.dim_orig (base this) - S n))).
  { rewrite <- seq_app. f_equal. lia. }
  rewrite Hseq, gain_outputs_app.
  assert (Hprefix : exists st,
            gain_outputs h phase_state (seq 0 n)
              (Zero (rows phase_state) (Dmp.dim_orig (base this)), this1) = Returns st
            /\ function_approximators_gains_ st.2 = function_approximators_gains_ this).
  { destruct (gain_outputs_returns h phase_state (seq 0 n) this1
                (Zero (rows phase_state) (Dmp.dim_orig (base this))))
      as (st & Hst & _ & _ & _ & Hk).
    - unfold rows, Zero. simpl. by rewrite length_replicate.
    - apply Forall_forall. intros i Hi%elem_of_seq. simpl. lia.
    - apply forallb_forall. intros i Hi%in_seq. rewrite Hbank.
      apply slots_live_lookup; [done|]. fold n. lia.
    - exists st. split; [done|]. by rewrite Hk. }
  destruct Hprefix as ([out this2] & -> & Hbank2). cbn [mbind outcome_bind seq gain_outputs].
  unfold gain_output at 1, at_index. cbv beta iota. simpl in Hbank2. rewrite Hbank2.
  rewrite Nat.add_0_l. by rewrite (proj2 (lookup_ge_None _ _)) by (fold n; lia).
Qed.

End short_bank.

Lemma short_bank_is_indexed_past_its_end_witness :
  (DmpWithGainSchedules.computeFunctionApproximatorOutputExtendedDimensions
     {[1%positive := Instances.doubling]} (Eigen.Matrix 1 [[0.25%float]])
     {| DmpWithGainSchedules.base :=
          {| Instances.dims := 2; Instances.times_trained := 0 |};
        DmpWithGainSchedules.function_approximators_gains_ := [Some 1%positive];
        DmpWithGainSchedules.fa_gains_outputs_one_prealloc_ := Eigen.Zero 1 2;
        DmpWithGainSchedules.fa_gains_outputs_prealloc_ := Eigen.Zero 1 2;
        DmpWithGainSchedules.fa_gains_output_prealloc_ := Eigen.Zero 1 2 |}).1
  = Aborts OutOfBounds.
Proof.
  exact (short_bank_is_indexed_past_its_end {[1%positive := Instances.doubling]}
           (Eigen.Matrix 1 [[0.25%float]])
           {| DmpWithGainSchedules.base :=
                {| Instances.dims := 2; Instances.times_trained := 0 |};
              DmpWithGainSchedules.function_approximators_gains_ := [Some 1%positive];
              DmpWithGainSchedules.fa_gains_outputs_one_prealloc_ := Eigen.Zero 1 2;
              DmpWithGainSchedules.fa_gains_outputs_prealloc_ := Eigen.Zero 1 2;
              DmpWithGainSchedules.fa_gains_output_prealloc_ := Eigen.Zero 1 2 |}
           eq_refl (le_n 2)).
Defined.

(** ** DmpWithGainSchedules: integration and closed-form solution *)

Section integration.
Import Eigen Memory DmpWithGainSchedules Spec.
Context {D FA : Type} `{!Dmp.Dmp D} `{!FunctionApproximator.FunctionApproximator FA}.
Implicit Types (this : DmpWithGainSchedules D) (h : gmap loc FA).

Lemma transpose_row_gains h (v : float) (bank : list pointer) dim_orig :
  transpose_row (gains h (Matrix 1 [[v]]) bank dim_orig)
  = Returns (gains_at h (Matrix 1 [[v]]) bank dim_orig).
Proof. reflexivity. Qed.

(** [integrateStart] and [integrateStep] pass on the state and the
    derivative of the base primitive and add a gains vector of
    [dim_orig()] entries (whatever the size of the bank, lines 186 and 198):
    entry [d] is the prediction of slot [d] for the phase of the state the
    base primitive has just produced, or zero for an absent or untrained
    slot. *)
Theorem integration_adds_the_gains_of_the_new_phase h this :
  bank_usable h this = true ->
  (forall x xd,
     3 * Dmp.dim_orig (base this) < length (Dmp.integrateStart (base this) x xd).1 ->
     exists this',
       integrateStart h x xd this
       = (Returns ((Dmp.integrateStart (base this) x xd).1,
                   (Dmp.integrateStart (base this) x xd).2,
                   gains_at h
                     (phase_of (Dmp.dim_orig (base this))
                        (Dmp.integrateStart (base this) x xd).1)
                     (function_approximators_gains_ this) (Dmp.dim_orig (base this))),
          this'))
  /\ (forall dt x,
        3 * Dmp.dim_orig (base this) < length (Dmp.integrateStep (base this) dt x).1 ->
        exists this',
          integrateStep h dt x this
          = (Returns ((Dmp.integrateStep (base this) dt x).1,
                      (Dmp.integrateStep (base this) dt x).2,
                      gains_at h
                        (phase_of (Dmp.dim_orig (base this))
                           (Dmp.integrateStep (base this) dt x).1)
                        (function_approximators_gains_ this) (Dmp.dim_orig (base this))),
             this'))
  /\ (forall phase_state,
        length (gains_at h phase_state (function_approximators_gains_ this)
                  (Dmp.dim_orig (base this)))
        = Dmp.dim_orig (base this)).
Proof.
  intros Husable. split; [|split].
  - intros x xd Hlen.
    destruct (gains_computed_by_the_loop h
                (phase_of (Dmp.dim_orig (base this)) (Dmp.integrateStart (base this) x xd).1)
                this Husable) as (this' & Hgains & _).
    exists this'. unfold integrateStart, mbind, stateful_bind, get, lift. cbv beta iota.
    destruct (Dmp.integrateStart (base this) x xd) as [x0 xd0]. cbn [fst snd] in *.
    rewrite (PHASE_returns this x0 Hlen). unfold phase_of in Hgains.
    rewrite Hgains, transpose_row_gains. reflexivity.
  - intros dt x Hlen.
    destruct (gains_computed_by_the_loop h
                (phase_of (Dmp.dim_orig (base this)) (Dmp.integrateStep (base this) dt x).1)
                this Husable) as (this' & Hgains & _).
    exists this'. unfold integrateStep, mbind, stateful_bind, get, lift. cbv beta iota.
    destruct (Dmp.integrateStep (base this) dt x) as [x0 xd0]. cbn [fst snd] in *.
    rewrite (PHASE_returns this x0 Hlen). unfold phase_of in Hgains.
    rewrite Hgains, transpose_row_gains. reflexivity.
  - intros phase_state. unfold gains_at. by rewrite length_map, length_seq.
Qed.

Lemma PHASEM_returns this (xs : MatrixXd) :
  3 * Dmp.dim_orig (base this) + 1 <= cols xs ->
  PHASEM this xs (rows xs) = Returns (phase_column (Dmp.dim_orig (base this)) xs).
Proof.
  intros Hcols. unfold PHASEM, block. rewrite Nat.add_0_r.
  rewrite (bind_Returns _ _ tt)
    by (apply eigen_assert_true, andb_true_intro; split; apply Nat.leb_le; lia).
  cbv beta. unfold phase_column, rows. by rewrite drop_0, firstn_all.
Qed.

(** Both overloads of [analyticalSolution] compute the gains for the whole
    phase column of the states of the base primitive at once: a matrix with
    one row per state and [dim_orig()] columns, which the overload for a
    trajectory stores as the trajectory's misc (lines 207-223). *)
Theorem analyticalSolution_adds_the_gains_of_the_phase_column h (ts : VectorXd) this :
  bank_usable h this = true ->
  3 * Dmp.dim_orig (base this) + 1 <= cols (Dmp.analyticalSolution (base this) ts).1.1.1 ->
  exists this',
    analyticalSolution h ts this
    = (Returns (Dmp.analyticalSolution (base this) ts,
                gains h
                  (phase_column (Dmp.dim_orig (base this))
                     (Dmp.analyticalSolution (base this) ts).1.1.1)
                  (function_approximators_gains_ this) (Dmp.dim_orig (base this))),
       this')
    /\ analyticalSolution_trajectory h ts this
       = (Returns
            (Trajectory.set_misc
               (gains h
                  (phase_column (Dmp.dim_orig (base this))
                     (Dmp.analyticalSolution (base this) ts).1.1.1)
                  (function_approximators_gains_ this) (Dmp.dim_orig (base this)))
               (Dmp.statesAsTrajectory (base this) ts
                  (Dmp.analyticalSolution (base this) ts).1.1.1
                  (Dmp.analyticalSolution (base this) ts).1.1.2)),
          this')
    /\ rows (gains h
               (phase_column (Dmp.dim_orig (base this))
                  (Dmp.analyticalSolution (base this) ts).1.1.1)
               (function_approximators_gains_ this) (Dmp.dim_orig (base this)))
       = rows (Dmp.analyticalSolution (base this) ts).1.1.1.
Proof.
  intros Husable Hcols.
  destruct (gains_computed_by_the_loop h
              (phase_column (Dmp.dim_orig (base this))
                 (Dmp.analyticalSolution (base this) ts).1.1.1)
              this Husable) as (this' & Hgains & _).
  exists this'.
  unfold analyticalSolution, analyticalSolution_trajectory, mbind, stateful_bind, get, lift.
  destruct (Dmp.analyticalSolution (base this) ts) as [[[xs xds] forcing_terms] fa_output].
  cbn [fst snd] in *. cbv beta iota.
  rewrite (PHASEM_returns this xs Hcols), Hgains.
  repeat split.
  unfold gains, phase_column, rows. cbn [row_data].
  by rewrite length_map, length_seq, length_map.
Qed.

End integration.

Lemma integration_adds_the_gains_of_the_new_phase_witness :
  (forall x xd,
     3 * 1 < length (Dmp.integrateStart Instances.primitive x xd).1 ->
     exists this',
       DmpWithGainSchedules.integrateStart {[1%positive := Instances.doubling]} x xd
         (Instances.extension [Some 1%positive])
       = (Returns ((Dmp.integrateStart Instances.primitive x xd).1,
                   (Dmp.integrateStart Instances.primitive x xd).2,
                   Spec.gains_at {[1%positive := Instances.doubling]}
                     (Spec.phase_of 1 (Dmp.integrateStart Instances.primitive x xd).1)
                     [Some 1%positive] 1),
          this'))
  /\ (forall dt x,
        3 * 1 < length (Dmp.integrateStep Instances.primitive dt x).1 ->
        exists this',
          DmpWithGainSchedules.integrateStep {[1%positive := Instances.doubling]} dt x
            (Instances.extension [Some 1%positive])
          = (Returns ((Dmp.integrateStep Instances.primitive dt x).1,
                      (Dmp.integrateStep Instances.primitive dt x).2,
                      Spec.gains_at {[1%positive := Instances.doubling]}
                        (Spec.phase_of 1 (Dmp.integrateStep Instances.primitive dt x).1)
                        [Some 1%positive] 1),
             this'))
  /\ (forall phase_state,
        length (Spec.gains_at {[1%positive := Instances.doubling]} phase_state
                  [Some 1%positive] 1) = 1).
Proof.
  exact (integration_adds_the_gains_of_the_new_phase {[1%positive := Instances.doubling]}
           (Instances.extension [Some 1%positive]) eq_refl).
Defined.

Lemma analyticalSolution_adds_the_gains_of_the_phase_column_witness :
  exists this',
    DmpWithGainSchedules.analyticalSolution {[1%positive := Instances.doubling]}
      [0; 0.5; 1]%float (Instances.extension [Some 1%positive])
    = (Returns (Dmp.analyticalSolution Instances.primitive [0; 0.5; 1]%float,
                Spec.gains {[1%positive := Instances.doubling]}
                  (Spec.phase_column 1
                     (Dmp.analyticalSolution Instances.primitive [0; 0.5; 1]%float).1.1.1)
                  [Some 1%positive] 1),
       this')
    /\ DmpWithGainSchedules.analyticalSolution_trajectory
         {[1%positive := Instances.doubling]} [0; 0.5; 1]%float
         (Instances.extension [Some 1%positive])
       = (Returns
            (Trajectory.set_misc
               (Spec.gains {[1%positive := Instances.doubling]}
                  (Spec.phase_column 1
                     (Dmp.analyticalSolution Instances.primitive [0; 0.5; 1]%float).1.1.1)
                  [Some 1%positive] 1)
               (Dmp.statesAsTrajectory Instances.primitive [0; 0.5; 1]%float
                  (Dmp.analyticalSolution Instances.primitive [0; 0.5; 1]%float).1.1.1
                  (Dmp.analyticalSolution Instances.primitive [0; 0.5; 1]%float).1.1.2)),
          this')
    /\ Eigen.rows
         (Spec.gains {[1%positive := Instances.doubling]}
            (Spec.phase_column 1
               (Dmp.analyticalSolution Instances.primitive [0; 0.5; 1]%float).1.1.1)
            [Some 1%positive] 1)
       = Eigen.rows (Dmp.analyticalSolution Instances.primitive [0; 0.5; 1]%float).1.1.1.
Proof.
  exact (analyticalSolution_adds_the_gains_of_the_phase_column
           {[1%positive := Instances.doubling]} [0; 0.5; 1]%float
           (Instances.extension [Some 1%positive]) eq_refl (le_n 4)).
Defined.

(** The closed-form gains of the witness, computed: 2 * time. *)
Example analyticalSolution_computed :
  (DmpWithGainSchedules.analyticalSolution_trajectory {[1%positive := Instances.doubling]}
     [0; 0.5; 1]%float (Instances.extension [Some 1%positive])).1
  = Returns
      {| Trajectory.ts := [0; 0.5; 1]%float;
         Trajectory.ys := Eigen.Matrix 4 [[0; 0; 0; 0]; [0; 0; 0; 0.5]; [0; 0; 0; 1]]%float;
         Trajectory.yds := Eigen.Zero 3 4;
         Trajectory.ydds := Eigen.Zero 3 4;
         Trajectory.misc := Eigen.Matrix 1 [[0]; [1]; [2]]%float |}.
Proof. vm_compute. reflexivity. Qed.

(** ** DmpWithGainSchedules: where training saves, and what it trains *)

(** Training saves nothing when no directory is given (the empty name
    stays empty), saves the single approximator of a bank of one slot to the
    directory itself, and otherwise saves every dimension to a directory of
    its own, [save_directory/gains<dd>]: two dimensions never share one
    (lines 257-264). *)
Theorem dimensions_are_saved_to_separate_directories :
  (forall size dd, DmpWithGainSchedules.save_directory_dim "" size dd = "")
  /\ (forall save_directory dd,
        DmpWithGainSchedules.save_directory_dim save_directory 1 dd = save_directory)
  /\ (forall save_directory size dd1 dd2,
        save_directory <> "" ->
        size <> 1 ->
        DmpWithGainSchedules.save_directory_dim save_directory size dd1
        = DmpWithGainSchedules.save_directory_dim save_directory size dd2 ->
        dd1 = dd2).
Proof.
  unfold DmpWithGainSchedules.save_directory_dim. repeat split.
  - intros save_directory dd. by case_bool_decide.
  - intros save_directory size dd1 dd2 Hdir Hsize.
    rewrite bool_decide_eq_false_2 by done.
    rewrite (proj2 (Nat.eqb_neq size 1)) by done.
    intros Heq. by repeat (apply (inj _) in Heq).
Qed.

(** ** DmpWithGainSchedules: construction, destruction, and what [clone] leaves *)

#[local] Set Warnings "-clear-no-such-hyp".

Section lifetime.
Import Eigen Memory DmpWithGainSchedules Spec.
Context {D FA : Type} `{!Dmp.Dmp D} `{!FunctionApproximator.FunctionApproximator FA}.
Implicit Types (this : DmpWithGainSchedules D) (h : gmap loc FA).
Implicit Types (bank : list pointer).

Lemma slots_live_weaken h h' bank :
  h ⊆ h' -> slots_live h bank = true -> slots_live h' bank = true.
Proof.
  intros Hsub. unfold slots_live. rewrite !forallb_forall.
  intros Hlive p Hp. specialize (Hlive p Hp). destruct p as [l|]; [|done].
  apply bool_decide_eq_true in Hlive as [fa Hfa]. apply bool_decide_eq_true.
  exists fa. by eapply lookup_weaken.
Qed.

Lemma slots_live_cons h p bank :
  slots_live h (p :: bank) = true ->
  match p with None => True | Some l => is_Some (h !! l) end
  /\ slots_live h bank = true.
Proof.
  unfold slots_live. simpl. intros [Hp Hbank]%andb_prop. split; [|done].
  destruct p; [by apply bool_decide_eq_true in Hp|done].
Qed.

Lemma elem_of_locations bank l : l ∈ locations bank <-> Some l ∈ bank.
Proof.
  unfold locations. rewrite list_elem_of_omap. split.
  - by intros ([l'|] & Hin & [= <-]).
  - intros Hin. by exists (Some l).
Qed.

(** What the loop of the constructor leaves, exactly. *)
Lemma clone_or_NULL_exact bank : forall h,
  slots_live h bank = true ->
  exists bank' h',
    clone_or_NULL bank h = (Returns bank', h')
    /\ h ⊆ h'
    /\ length bank' = length bank
    /\ (forall i, bank !! i = Some None -> bank' !! i = Some None)
    /\ (forall i l, bank !! i = Some (Some l) ->
          exists l' fa, bank' !! i = Some (Some l')
                        /\ h !! l = Some fa
                        /\ h' !! l' = Some (FunctionApproximator.clone fa))
    /\ NoDup (locations bank')
    /\ (forall l, l ∈ locations bank' -> h !! l = None)
    /\ dom h' = dom h ∪ list_to_set (locations bank').
Proof.
  induction bank as [|p rest IH]; intros h Hlive.
  - exists [], h. repeat split; try done; [constructor | set_solver | set_solver].
  - apply slots_live_cons in Hlive as [Hp Hrest]. destruct p as [l|].
    + destruct Hp as [fa Hfa].
      destruct (new_is_fresh (FunctionApproximator.clone fa) h) as [Hfresh Hnew].
      set (l1 := (new (FunctionApproximator.clone fa) h).1) in *.
      set (h1 := (new (FunctionApproximator.clone fa) h).2) in *.
      assert (Hsub1 : h ⊆ h1) by (rewrite Hnew; by apply insert_subseteq).
      destruct (IH h1 (slots_live_weaken _ _ _ Hsub1 Hrest))
        as (rest' & h' & Hrun & Hsub & Hlen & Hnull & Hsome & Hnodup & Hnone & Hdom).
      assert (Hl1 : h1 !! l1 = Some (FunctionApproximator.clone fa))
        by (rewrite Hnew; apply lookup_insert_eq).
      exists (Some l1 :: rest'), h'. split; [|repeat split].
      * cbn [clone_or_NULL].
        rewrite (stateful_bind_Returns _ _ h (Some l1) h1).
        -- by rewrite (stateful_bind_Returns _ _ h1 rest' h').
        -- rewrite (stateful_bind_Returns _ _ h fa h) by (unfold load, deref; by rewrite Hfa).
           rewrite (stateful_bind_Returns _ _ h l1 h1)
             by (unfold allocate; fold l1 h1; by destruct (new _ h)).
           done.
      * by etrans.
      * simpl. by rewrite Hlen.
      * intros [|i] Hi; [done|]. by apply Hnull.
      * intros [|i] l0 Hi; simpl in Hi.
        -- injection Hi as <-. exists l1, fa. repeat split; [done|].
           by eapply lookup_weaken.
        -- destruct (Hsome i l0 Hi) as (l' & fa' & ? & Hfa' & ?).
           exists l', fa'. repeat split; [done| |done].
           pose proof (slots_live_lookup h rest i Hrest (lookup_lt_Some _ _ _ Hi)) as Hl0.
           rewrite Hi in Hl0. apply bool_decide_eq_true in Hl0 as [fa0 Hfa0].
           rewrite Hfa0. by rewrite (lookup_weaken _ _ _ _ Hfa0 Hsub1) in Hfa'.
      * cbn. apply NoDup_cons. split; [|done].
        intros Hin. pose proof (Hnone _ Hin) as Hc.
        change (h1 !! l1 = None) in Hc. by rewrite Hl1 in Hc.
      * intros l0. cbn. intros [->|Hin]%elem_of_cons; [done|].
        eapply lookup_weaken_None; [by apply Hnone|done].
      * rewrite Hdom, Hnew, dom_insert_L. cbn. set_solver.
    + destruct (IH h Hrest)
        as (rest' & h' & Hrun & Hsub & Hlen & Hnull & Hsome & Hnodup & Hnone & Hdom).
      exists (None :: rest'), h'. split; [|repeat split; try done].
      * cbn [clone_or_NULL].
        rewrite (stateful_bind_Returns _ _ h NULL h) by done.
        by rewrite (stateful_bind_Returns _ _ h rest' h').
      * simpl. by rewrite Hlen.
      * intros [|i] Hi; [done|]. by apply Hnull.
      * intros [|i] l0 Hi; [done|]. by apply Hsome.
Qed.

(** What the loop of the destructor leaves: the heap without the objects
    of the bank. *)
Lemma delete_each_exact bank : forall h,
  NoDup (locations bank) ->
  (forall l, l ∈ locations bank -> is_Some (h !! l)) ->
  exists h',
    delete_each bank h = (Returns tt, h')
    /\ forall k, h' !! k = if decide (k ∈ locations bank) then None else h !! k.
Proof.
  induction bank as [|p rest IH]; intros h Hnodup Hlive.
  - exists h. split; [done|]. intros k. rewrite decide_False; [done|]. set_solver.
  - destruct p as [l|]; cbn in Hnodup, Hlive.
    + apply NoDup_cons in Hnodup as [Hl Hnodup].
      destruct (Hlive l) as [fa Hfa]; [set_solver|].
      destruct (IH (delete l h) Hnodup) as (h' & Hrun & Hh').
      { intros l0 Hl0. rewrite lookup_delete_ne by (intros ->; done).
        apply Hlive. set_solver. }
      exists h'. split.
      * cbn [delete_each].
        by rewrite (stateful_bind_Returns _ _ h tt (delete l h)) by (unfold free; by rewrite Hfa).
      * intros k. rewrite Hh'. cbn.
        destruct (decide (k ∈ locations rest)) as [Hin|Hout].
        -- rewrite decide_True; [done|set_solver].
        -- destruct (decide (k = l)) as [->|Hne].
           ++ rewrite decide_True by set_solver. apply lookup_delete_eq.
           ++ rewrite decide_False by set_solver. by apply lookup_delete_ne.
    + destruct (IH h Hnodup Hlive) as (h' & Hrun & Hh').
      exists h'. split; [|done].
      cbn [delete_each]. by rewrite (stateful_bind_Returns _ _ h tt h).
Qed.

(** Deleting exactly the objects that were added gives the heap back. *)
Lemma delete_each_restores bank h h' :
  h ⊆ h' ->
  NoDup (locations bank) ->
  (forall l, l ∈ locations bank -> h !! l = None) ->
  dom h' = dom h ∪ list_to_set (locations bank) ->
  delete_each bank h' = (Returns tt, h).
Proof.
  intros Hsub Hnodup Hnone Hdom.
  destruct (delete_each_exact bank h' Hnodup) as (h'' & -> & Hh'').
  { intros l Hl. apply elem_of_dom. rewrite Hdom. set_solver. }
  f_equal. apply map_eq. intros k. rewrite Hh''.
  destruct (decide (k ∈ locations bank)) as [Hin|Hout]; [by rewrite Hnone|].
  destruct (h !! k) as [fa|] eqn:Hk; [by eapply lookup_weaken|].
  apply not_elem_of_dom. rewrite Hdom.
  apply not_elem_of_dom in Hk. set_solver.
Qed.

Lemma construct_eq dmp (fas : list pointer) h :
  construct dmp fas h
  = match clone_or_NULL fas h with
    | (Returns bank, h') =>
        (Returns {| base := dmp;
                    function_approximators_gains_ := bank;
                    fa_gains_outputs_one_prealloc_ := Zero 1 (Dmp.dim_orig dmp);
                    fa_gains_outputs_prealloc_ := Zero 1 (Dmp.dim_orig dmp);
                    fa_gains_output_prealloc_ := Zero 1 (Dmp.dim_orig dmp) |}, h')
    | (Aborts f, h') => (Aborts f, h')
    end.
Proof.
  unfold construct, initFunctionApproximatorsExtDims, mbind, stateful_bind.
  by destruct fas.
Qed.

(** The constructor, for a list whose non-NULL pointers are live: the bank
    has the length of the list, NULL where the list has NULL and elsewhere a
    pointer to a new object, the clone of the approximator given; the new
    objects are distinct, and every object that existed is left as it was
    (lines 52-63, 116-133). *)
Theorem constructor_clones_the_approximators_given dmp (fas : list pointer) h :
  slots_live h fas = true ->
  exists this h',
    construct dmp fas h = (Returns this, h')
    /\ base this = dmp
    /\ length (function_approximators_gains_ this) = length fas
    /\ (forall i, fas !! i = Some None ->
                  function_approximators_gains_ this !! i = Some None)
    /\ (forall i l, fas !! i = Some (Some l) ->
          exists l' fa, function_approximators_gains_ this !! i = Some (Some l')
                        /\ h !! l = Some fa
                        /\ h' !! l' = Some (FunctionApproximator.clone fa)
                        /\ h !! l' = None)
    /\ NoDup (locations (function_approximators_gains_ this))
    /\ h ⊆ h'.
Proof.
  intros Hlive.
  destruct (clone_or_NULL_exact fas h Hlive)
    as (bank & h' & Hrun & Hsub & Hlen & Hnull & Hsome & Hnodup & Hnone & Hdom).
  eexists _, h'. rewrite construct_eq, Hrun. split; [reflexivity|].
  cbn [base function_approximators_gains_]. repeat split; try done.
  intros i l Hi. destruct (Hsome i l Hi) as (l' & fa & Hi' & ? & ?).
  exists l', fa. repeat split; try done.
  apply Hnone, elem_of_locations. by eapply list_elem_of_lookup_2.
Qed.

(** The destructor deletes exactly what the constructor has made: after
    constructing an extension and destroying it, the approximators are those
    from before (lines 52-63, 116-133, 135-139). *)
Theorem destructor_frees_what_the_constructor_cloned dmp (fas : list pointer) h :
  slots_live h fas = true ->
  (this ← construct dmp fas; destructor this) h = (Returns tt, h).
Proof.
  intros Hlive.
  destruct (clone_or_NULL_exact fas h Hlive)
    as (bank & h1 & Hrun & Hsub & Hlen & Hnull & Hsome & Hnodup & Hnone & Hdom).
  rewrite (stateful_bind_Returns _ _ h
             {| base := dmp;
                function_approximators_gains_ := bank;
                fa_gains_outputs_one_prealloc_ := Zero 1 (Dmp.dim_orig dmp);
                fa_gains_outputs_prealloc_ := Zero 1 (Dmp.dim_orig dmp);
                fa_gains_output_prealloc_ := Zero 1 (Dmp.dim_orig dmp) |} h1)
    by (by rewrite construct_eq, Hrun).
  unfold destructor. cbn [function_approximators_gains_].
  by apply delete_each_restores.
Qed.

Lemma all_present_slots_live h bank : all_present h bank -> slots_live h bank = true.
Proof.
  intros Hall. unfold slots_live. apply forallb_forall. intros p Hp%list_elem_of_In.
  destruct (proj1 (Forall_forall _ _) Hall p Hp) as (l & -> & Hl).
  by apply bool_decide_eq_true.
Qed.

Lemma clone_each_all_present bank : forall h,
  all_present h bank -> clone_each bank h = clone_or_NULL bank h.
Proof.
  induction bank as [|p rest IH]; intros h Hall; [done|].
  apply Forall_cons in Hall as [(l & -> & [fa Hfa]) Hrest].
  cbn [clone_each clone_or_NULL]. unfold mbind, stateful_bind, load, deref.
  rewrite Hfa. unfold allocate.
  destruct (new (FunctionApproximator.clone fa) h) as [l1 h1] eqn:Hnew.
  rewrite IH; [done|].
  eapply all_present_weaken; [|done].
  pose proof (new_is_fresh (FunctionApproximator.clone fa) h) as [Hfresh Heq].
  rewrite Hnew in Hfresh, Heq. simpl in Hfresh, Heq. rewrite Heq.
  by apply insert_subseteq.
Qed.

Lemma locations_all_present h bank :
  all_present h bank -> length (locations bank) = length bank.
Proof.
  induction 1 as [|p rest (l & -> & _) _ IH]; [done|]. cbn. f_equal. exact IH.
Qed.

(** [clone] leaves objects behind.  For a bank without absent slots it
    clones every approximator once into a temporary list (line 145) and the
    constructor clones the temporaries again (line 130); no one deletes the
    temporaries: after the clone has been made and destroyed again, there is
    one approximator more than before for every slot, which neither the
    original nor the clone points to. *)
Theorem clone_leaves_its_temporaries_behind this h :
  all_present h (function_approximators_gains_ this) ->
  exists this' h' h'' leaked,
    clone this h = (Returns this', h')
    /\ destructor this' h' = (Returns tt, h'')
    /\ NoDup leaked
    /\ length leaked = length (function_approximators_gains_ this)
    /\ dom h'' = dom h ∪ list_to_set leaked
    /\ h ⊆ h''
    /\ forall l, l ∈ leaked ->
         h !! l = None
         /\ (Some l ∉ function_approximators_gains_ this)
         /\ (Some l ∉ function_approximators_gains_ this').
Proof.
  intros Hall. set (bank := function_approximators_gains_ this) in *.
  destruct (clone_or_NULL_exact bank h (all_present_slots_live _ _ Hall))
    as (bank1 & h1 & Hrun1 & Hsub1 & Hlen1 & _ & Hsome1 & Hnodup1 & Hnone1 & Hdom1).
  assert (Hall1 : all_present h1 bank1).
  { apply Forall_lookup. intros i p Hp.
    destruct (lookup_lt_is_Some_2 bank i) as [q Hq];
      [rewrite <- Hlen1; by eapply lookup_lt_Some|].
    destruct (proj1 (Forall_lookup _ _) Hall i q Hq) as (l & -> & _).
    destruct (Hsome1 i l Hq) as (l' & fa & Hp' & _ & Hfa').
    rewrite Hp in Hp'. injection Hp' as ->. exists l'. split; [done|]. by eexists. }
  destruct (clone_or_NULL_exact bank1 h1 (all_present_slots_live _ _ Hall1))
    as (bank2 & h2 & Hrun2 & Hsub2 & Hlen2 & _ & _ & Hnodup2 & Hnone2 & Hdom2).
  eexists _, h2, h1, (locations bank1).
  split; [|split; [|split; [|split; [|split; [|split]]]]].
  - unfold clone. fold bank.
    rewrite (stateful_bind_Returns _ _ h bank1 h1)
      by (by rewrite clone_each_all_present).
    by rewrite construct_eq, Hrun2.
  - unfold destructor. cbn [function_approximators_gains_].
    by apply delete_each_restores.
  - done.
  - by rewrite (locations_all_present _ _ Hall1).
  - done.
  - done.
  - intros l Hl. split; [by apply Hnone1|]. split.
    + intros Hin. destruct (proj1 (Forall_forall _ _) Hall _ Hin) as (l0 & [= <-] & [fa Hfa]).
      by rewrite (Hnone1 _ Hl) in Hfa.
    + cbn [function_approximators_gains_]. intros Hin%elem_of_locations.
      assert (l ∈ dom h1) as [fa Hfa]%elem_of_dom by (rewrite Hdom1; set_solver).
      by rewrite (Hnone2 _ Hin) in Hfa.
Qed.

End lifetime.

Lemma constructor_clones_the_approximators_given_witness :
  exists this h',
    DmpWithGainSchedules.construct Instances.primitive [Some 1%positive; None]
      {[1%positive := Instances.doubling]} = (Returns this, h')
    /\ DmpWithGainSchedules.base this = Instances.primitive
    /\ length (DmpWithGainSchedules.function_approximators_gains_ this) = 2
    /\ (forall i, [Some 1%positive; None] !! i = Some None ->
          DmpWithGainSchedules.function_approximators_gains_ this !! i = Some None)
    /\ (forall i l, [Some 1%positive; None] !! i = Some (Some l) ->
          exists l' fa,
            DmpWithGainSchedules.function_approximators_gains_ this !! i = Some (Some l')
            /\ ({[1%positive := Instances.doubling]} : gmap Memory.loc _) !! l = Some fa
            /\ h' !! l' = Some (FunctionApproximator.clone fa)
            /\ ({[1%positive := Instances.doubling]} : gmap Memory.loc _) !! l' = None)
    /\ NoDup (Spec.locations (DmpWithGainSchedules.function_approximators_gains_ this))
    /\ {[1%positive := Instances.doubling]} ⊆ h'.
Proof.
  exact (constructor_clones_the_approximators_given Instances.primitive
           [Some 1%positive; None] {[1%positive := Instances.doubling]} eq_refl).
Defined.

Lemma destructor_frees_what_the_constructor_cloned_witness :
  (this ← DmpWithGainSchedules.construct Instances.primitive [Some 1%positive; None];
   DmpWithGainSchedules.destructor this) {[1%positive := Instances.doubling]}
  = (Returns tt, {[1%positive := Instances.doubling]}).
Proof.
  exact (destructor_frees_what_the_constructor_cloned Instances.primitive
           [Some 1%positive; None] {[1%positive := Instances.doubling]} eq_refl).
Defined.

Lemma clone_leaves_its_temporaries_behind_witness :
  exists this' h' h'' leaked,
    DmpWithGainSchedules.clone (Instances.extension [Some 1%positive])
      {[1%positive := Instances.doubling]} = (Returns this', h')
    /\ DmpWithGainSchedules.destructor this' h' = (Returns tt, h'')
    /\ NoDup leaked
    /\ length leaked = 1
    /\ dom h'' = dom ({[1%positive := Instances.doubling]} : gmap Memory.loc _)
                  ∪ list_to_set leaked
    /\ {[1%positive := Instances.doubling]} ⊆ h''
    /\ forall l, l ∈ leaked ->
         ({[1%positive := Instances.doubling]} : gmap Memory.loc _) !! l = None
         /\ (Some l ∉ [Some 1%positive])
         /\ (Some l ∉ DmpWithGainSchedules.function_approximators_gains_ this').
Proof.
  apply (clone_leaves_its_temporaries_behind (Instances.extension [Some 1%positive])
           {[1%positive := Instances.doubling]}).
  repeat constructor. exists 1%positive. split; [reflexivity|].
  exists Instances.doubling. reflexivity.
Defined.

(** ** DmpWithGainSchedules: what [train] does to the approximators *)

Section training_effect.
Import Eigen Memory DmpWithGainSchedules Spec.
Context {D FA : Type} `{!Dmp.Dmp D} `{!FunctionApproximator.FunctionApproximator FA}.
Implicit Types (this : DmpWithGainSchedules D) (h : gmap loc FA).
Implicit Types (slots : list pointer).

Lemma slots_live_insert h l (fa : FA) slots :
  slots_live h slots = true -> slots_live (<[l := fa]> h) slots = true.
Proof.
  unfold slots_live. rewrite !forallb_forall. intros Hlive p Hp.
  specialize (Hlive p Hp). destruct p as [k|]; [|done].
  apply bool_decide_eq_true in Hlive. apply bool_decide_eq_true.
  apply lookup_insert_is_Some. destruct (decide (l = k)); auto.
Qed.

(** The loop of [train], from dimension [dd] on. *)
Lemma train_gains_exact (xs_phase targets : MatrixXd) (save_directory : string)
    (overwrite : bool) (size : nat) slots : forall dd h,
  dd + length slots <= cols targets ->
  slots_live h slots = true ->
  NoDup (locations slots) ->
  exists h',
    train_gains xs_phase targets save_directory overwrite size dd slots h = (Returns tt, h')
    /\ (forall i l fa, slots !! i = Some (Some l) -> h !! l = Some fa ->
          h' !! l = Some (trained_on xs_phase targets save_directory overwrite
                            size (dd + i) fa))
    /\ (forall k, Some k ∉ slots -> h' !! k = h !! k).
Proof.
  induction slots as [|p later IH]; intros dd h Hcols Hlive Hnodup.
  - exists h. by repeat split.
  - cbn [List.length] in Hcols.
    apply slots_live_cons in Hlive as [Hp Hlater].
    assert (Hcol : col targets dd
                   = Returns (map (fun r => nth dd r 0%float) (row_data targets))).
    { unfold col. rewrite (bind_Returns _ _ tt); [done|].
      apply eigen_assert_true, Nat.ltb_lt. lia. }
    destruct p as [l|].
    + destruct Hp as [fa Hfa]. cbn in Hnodup. apply NoDup_cons in Hnodup as [Hl Hnodup].
      set (fa' := trained_on xs_phase targets save_directory overwrite size dd fa).
      destruct (IH (S dd) (<[l := fa']> h)) as (h' & Hrun & Htrained & Hkept);
        [lia | by apply slots_live_insert | done |].
      exists h'. split; [|split].
      * cbn [train_gains].
        rewrite (stateful_bind_Returns _ _ h _ h) by (unfold lift; by rewrite Hcol).
        rewrite (stateful_bind_Returns _ _ h tt (<[l := fa']> h)); [done|].
        rewrite (stateful_bind_Returns _ _ h fa h) by (unfold load, deref; by rewrite Hfa).
        unfold fa', trained_on, modify.
        by destruct (FunctionApproximator.isTrained fa).
      * intros [|i] k fa0 Hi Hk; simpl in Hi.
        -- injection Hi as <-. rewrite Hfa in Hk. injection Hk as <-.
           rewrite Nat.add_0_r, Hkept by (by rewrite <- elem_of_locations).
           apply lookup_insert_eq.
        -- replace (dd + S i) with (S dd + i) by lia.
           apply (Htrained i k fa0 Hi).
           rewrite lookup_insert_ne; [done|].
           intros <-. apply Hl, elem_of_locations. by eapply list_elem_of_lookup_2.
      * intros k Hk. rewrite Hkept by set_solver.
        apply lookup_insert_ne. set_solver.
    + destruct (IH (S dd) h) as (h' & Hrun & Htrained & Hkept); [lia|done|done|].
      exists h'. split; [|split].
      * cbn [train_gains].
        rewrite (stateful_bind_Returns _ _ h _ h) by (unfold lift; by rewrite Hcol).
        by rewrite (stateful_bind_Returns _ _ h tt h).
      * intros [|i] k fa0 Hi Hk; [done|].
        replace (dd + S i) with (S dd + i) by lia. by apply (Htrained i k fa0).
      * intros k Hk. apply Hkept. set_solver.
Qed.

(** When the checks of [train] pass and the pointers of the bank are live
    and distinct, [train] returns; the base primitive is trained first, then
    the approximator of every dimension [dd] whose slot is not NULL is
    retrained if it was trained and trained if it was not, on the phase column
    of the closed-form solution and on column [dd] of the trajectory's misc;
    every other approximator is left as it was (lines 230-282). *)
Theorem train_trains_each_present_approximator
    (trajectory : Trajectory.Trajectory) (save_directory : string) (overwrite : bool)
    (xs_phase : MatrixXd) this h :
  PHASEM (set_base (Dmp.train trajectory save_directory overwrite (base this)) this)
    (Dmp.analyticalSolution
       (Dmp.train trajectory save_directory overwrite (base this))
       (Trajectory.ts trajectory)).1.1.1
    (Trajectory.length trajectory) = Returns xs_phase ->
  cols (Trajectory.misc trajectory) = length (function_approximators_gains_ this) ->
  function_approximators_gains_ this <> [] ->
  slots_live h (function_approximators_gains_ this) = true ->
  NoDup (locations (function_approximators_gains_ this)) ->
  exists h',
    train trajectory save_directory overwrite (this, h)
    = (Returns tt,
       (set_base (Dmp.train trajectory save_directory overwrite (base this)) this, h'))
    /\ (forall dd l fa,
          function_approximators_gains_ this !! dd = Some (Some l) ->
          h !! l = Some fa ->
          h' !! l = Some (trained_on xs_phase (Trajectory.misc trajectory) save_directory
                            overwrite (length (function_approximators_gains_ this)) dd fa))
    /\ (forall k, Some k ∉ function_approximators_gains_ this -> h' !! k = h !! k).
Proof.
  intros Hphase Hcols Hbank Hlive Hnodup.
  destruct (train_gains_exact xs_phase (Trajectory.misc trajectory) save_directory overwrite
              (length (function_approximators_gains_ this))
              (function_approximators_gains_ this) 0 h)
    as (h' & Hrun & Htrained & Hkept); [lia|done|done|].
  exists h'. split; [|by split].
  unfold train, train_function_approximators.
  cbn [base set_base function_approximators_gains_].
  destruct (Dmp.analyticalSolution _ _) as [[[xs_ana xds_ana] forcing] fa_output].
  cbn [fst] in Hphase. unfold mbind at 1, stateful_bind at 1, lift at 1.
  rewrite Hphase.
  unfold mbind at 1, stateful_bind at 1, lift at 1.
  rewrite Hcols, Nat.eqb_refl. cbn [c_assert].
  unfold mbind at 1, stateful_bind at 1, lift at 1.
  rewrite bool_decide_eq_false_2 by done. cbn [negb c_assert].
  by rewrite Hrun.
Qed.

End training_effect.

Lemma train_trains_each_present_approximator_witness :
  exists h',
    DmpWithGainSchedules.train (Instances.demonstration 2) "gains" true
      (Instances.extension [Some 1%positive; None],
       {[1%positive := Instances.untrained; 2%positive := Instances.doubling]})
    = (Returns tt,
       (DmpWithGainSchedules.set_base
          (Dmp.train (Instances.demonstration 2) "gains" true Instances.primitive)
          (Instances.extension [Some 1%positive; None]), h'))
    /\ (forall dd l fa,
          [Some 1%positive; None] !! dd = Some (Some l) ->
          ({[1%positive := Instances.untrained; 2%positive := Instances.doubling]}
             : gmap Memory.loc _) !! l = Some fa ->
          h' !! l = Some (Spec.trained_on (Eigen.Matrix 1 [[0]; [1]]%float)
                            (Trajectory.misc (Instances.demonstration 2)) "gains"
                            true 2 dd fa))
    /\ (forall k, Some k ∉ [Some 1%positive; None] ->
          h' !! k = ({[1%positive := Instances.untrained; 2%positive := Instances.doubling]}
                       : gmap Memory.loc _) !! k).
Proof.
  apply (train_trains_each_present_approximator (Instances.demonstration 2) "gains" true
           (Eigen.Matrix 1 [[0]; [1]]%float)
           (Instances.extension [Some 1%positive; None])
           {[1%positive := Instances.untrained; 2%positive := Instances.doubling]}).
  - reflexivity.
  - reflexivity.
  - discriminate.
  - reflexivity.
  - apply NoDup_singleton.
Defined.
